(** * CropSync receipts: the auto-print receipt page

    A shallow embedding of [src/pages/AutoPrintReceipt.jsx]: the decoder of
    the [data] query parameter, the two effects of the component, the
    receipt it renders and the export of the rendered receipt to a PDF that
    is sent to the printer; and of [src/main.jsx], which mounts the component
    in strict mode.

    JavaScript strings are sequences of UTF-16 code units, kept here as
    lists of integers; exceptions are a [result] type; the services of the
    browser that the page calls (JSON.parse, the date formatter, the text of
    error messages, numbers) are the fields of a [Platform], and what the
    browser answers during the export (the rasteriser, the popups) is an
    [Env].  The functions of the standards the page relies on
    (decodeURIComponent, URLSearchParams, atob, UTF-8) are written out after
    their specifications.

    The first part is the model, the second the vocabulary of the
    properties, the third the properties of the specification, the fourth
    further properties of the code. *)

From Stdlib Require Import ZArith List String Ascii Bool Lia.
Import ListNotations.
Open Scope Z_scope.

(** ** Strings and exceptions *)

(** A JavaScript string: its UTF-16 code units. *)
Definition jsstring := list Z.

(** A string literal of the source (ASCII). *)
Definition str (s : string) : jsstring :=
  map (fun a => Z.of_N (N_of_ascii a)) (list_ascii_of_string s).

Definition jsstring_eqb (a b : jsstring) : bool :=
  if list_eq_dec Z.eq_dec a b then true else false.

(** The exceptions the page can meet. *)
Inductive exn : Type :=
| URIError                          (* decodeURIComponent *)
| InvalidCharacterError             (* atob *)
| SyntaxError (detail : jsstring)   (* JSON.parse *)
| TypeError (detail : jsstring)     (* property read on null or undefined, call of a non-function *)
| RenderError (detail : jsstring)   (* React: an object is not a valid child *)
| LibraryError (detail : jsstring). (* html2canvas, jsPDF, window *)

Inductive result (A : Type) : Type :=
| Ok (a : A)
| Throw (e : exn).
Arguments Ok {A} a.
Arguments Throw {A} e.

Definition bind {A B} (r : result A) (k : A -> result B) : result B :=
  match r with
  | Ok a => k a
  | Throw e => Throw e
  end.

Declare Scope js_scope.
Delimit Scope js_scope with js.
Notation "x <- r ;; k" := (bind r (fun x => k))
  (at level 61, r at next level, right associativity) : js_scope.

(** [try { body } catch (e) { handler(e) }] *)
Definition try_catch {A} (body : result A) (handler : exn -> result A) : result A :=
  match body with
  | Ok a => Ok a
  | Throw e => handler e
  end.

(** ** Characters *)

Module Char.
Definition percent : Z := 37.   (* % *)
Definition plus : Z := 43.      (* + *)
Definition minus : Z := 45.     (* - *)
Definition slash : Z := 47.     (* / *)
Definition equals : Z := 61.    (* = *)
Definition underscore : Z := 95.
Definition amp : Z := 38.       (* & *)
Definition question : Z := 63.  (* ? *)
Definition space : Z := 32.

Definition is_digit (c : Z) : bool := (48 <=? c) && (c <=? 57).
Definition is_upper (c : Z) : bool := (65 <=? c) && (c <=? 90).
Definition is_lower (c : Z) : bool := (97 <=? c) && (c <=? 122).
Definition is_alnum (c : Z) : bool := is_digit c || is_upper c || is_lower c.

(** The value of a hexadecimal digit. *)
Definition hex_value (c : Z) : option Z :=
  if is_digit c then Some (c - 48)
  else if (65 <=? c) && (c <=? 70) then Some (c - 55)
  else if (97 <=? c) && (c <=? 102) then Some (c - 87)
  else None.

(** The upper-case hexadecimal digit of a value below 16. *)
Definition hex_digit (v : Z) : Z := if v <? 10 then 48 + v else 55 + v.

(** ASCII whitespace: TAB, LF, FF, CR, SPACE. *)
Definition is_ascii_whitespace (c : Z) : bool :=
  (c =? 9) || (c =? 10) || (c =? 12) || (c =? 13) || (c =? 32).
End Char.

(** ** UTF-8 and UTF-16 *)

Module Utf.
(** The UTF-16 code units of a code point. *)
Definition utf16_encode (cp : Z) : jsstring :=
  if cp <? 65536 then [cp]
  else [55296 + (cp - 65536) / 1024; 56320 + (cp - 65536) mod 1024].

Definition is_high_surrogate (u : Z) : bool := (55296 <=? u) && (u <=? 56319).
Definition is_low_surrogate (u : Z) : bool := (56320 <=? u) && (u <=? 57343).

(** The scalar values of a string; a surrogate that has no partner
    becomes U+FFFD. *)
Fixpoint scalars (s : jsstring) : list Z :=
  match s with
  | [] => []
  | u :: rest =>
      if is_high_surrogate u then
        match rest with
        | v :: rest' =>
            if is_low_surrogate v
            then (65536 + (u - 55296) * 1024 + (v - 56320)) :: scalars rest'
            else 65533 :: scalars rest
        | [] => [65533]
        end
      else if is_low_surrogate u then 65533 :: scalars rest
      else u :: scalars rest
  end.

(** The UTF-8 bytes of a scalar value. *)
Definition utf8_bytes (cp : Z) : list Z :=
  if cp <? 128 then [cp]
  else if cp <? 2048 then [192 + cp / 64; 128 + cp mod 64]
  else if cp <? 65536 then
    [224 + cp / 4096; 128 + (cp / 64) mod 64; 128 + cp mod 64]
  else
    [240 + (cp / 262144) mod 8; 128 + (cp / 4096) mod 64;
     128 + (cp / 64) mod 64; 128 + cp mod 64].

(** UTF-8 encode (TextEncoder, and what a PHP or JS producer sends). *)
Definition utf8_encode (s : jsstring) : list Z :=
  flat_map utf8_bytes (scalars s).

(** The code point of a well-formed UTF-8 sequence of two to four bytes
    (Unicode, table 3-7), if it is one. *)
Definition in_range (lo hi b : Z) : bool := (lo <=? b) && (b <=? hi).

Definition utf8_codepoint (octets : list Z) : option Z :=
  match octets with
  | [b0; b1] =>
      if in_range 194 223 b0 && in_range 128 191 b1
      then Some ((b0 - 192) * 64 + (b1 - 128)) else None
  | [b0; b1; b2] =>
      if in_range 224 239 b0
         && in_range (if b0 =? 224 then 160 else 128) (if b0 =? 237 then 159 else 191) b1
         && in_range 128 191 b2
      then Some ((b0 - 224) * 4096 + (b1 - 128) * 64 + (b2 - 128)) else None
  | [b0; b1; b2; b3] =>
      if in_range 240 244 b0
         && in_range (if b0 =? 240 then 144 else 128) (if b0 =? 244 then 143 else 191) b1
         && in_range 128 191 b2 && in_range 128 191 b3
      then Some ((b0 - 240) * 262144 + (b1 - 128) * 4096 + (b2 - 128) * 64 + (b3 - 128))
      else None
  | _ => None
  end.

(** The state of the decoder of the Encoding standard: the bytes still
    needed, the code point so far and the bounds of the next byte. *)
Record decoder : Type := {
  needed : Z;
  code_point : Z;
  lower : Z;
  upper : Z
}.

Definition idle : decoder :=
  {| needed := 0; code_point := 0; lower := 128; upper := 191 |}.

(** A byte that arrives when no sequence is open. *)
Definition start (b : Z) : list Z * decoder :=
  if b <? 128 then ([b], idle)
  else if in_range 194 223 b then
    ([], {| needed := 1; code_point := b - 192; lower := 128; upper := 191 |})
  else if in_range 224 239 b then
    ([], {| needed := 2; code_point := b - 224;
            lower := if b =? 224 then 160 else 128;
            upper := if b =? 237 then 159 else 191 |})
  else if in_range 240 244 b then
    ([], {| needed := 3; code_point := b - 240;
            lower := if b =? 240 then 144 else 128;
            upper := if b =? 244 then 143 else 191 |})
  else ([65533], idle).

Definition step (d : decoder) (b : Z) : list Z * decoder :=
  if needed d =? 0 then start b
  else if in_range (lower d) (upper d) b then
    let cp := code_point d * 64 + (b - 128) in
    if needed d =? 1 then ([cp], idle)
    else ([], {| needed := needed d - 1; code_point := cp; lower := 128; upper := 191 |})
  else
    (* the byte is put back and read again with no sequence open *)
    let '(out, d') := start b in (65533 :: out, d').

Fixpoint decode_from (d : decoder) (bytes : list Z) : list Z :=
  match bytes with
  | [] => if needed d =? 0 then [] else [65533]
  | b :: rest => let '(out, d') := step d b in out ++ decode_from d' rest
  end.

(** UTF-8 decode without BOM: never fails, errors become U+FFFD. *)
Definition utf8_decode (bytes : list Z) : jsstring :=
  flat_map utf16_encode (decode_from idle bytes).
End Utf.

(** ** Percent-encoding: decodeURIComponent, URLSearchParams *)

Module Uri.
Import Char.

(** The number of leading 1 bits of an octet, 5 standing for "five or
    more". *)
Definition leading_ones (b : Z) : Z :=
  if b <? 128 then 0
  else if b <? 192 then 1
  else if b <? 224 then 2
  else if b <? 240 then 3
  else if b <? 248 then 4
  else 5.

(** [%XY] at the head of a string: the octet and what follows it. *)
Definition hex_octet (s : jsstring) : option (Z * jsstring) :=
  match s with
  | h1 :: h2 :: rest =>
      match hex_value h1, hex_value h2 with
      | Some a, Some b => Some (16 * a + b, rest)
      | _, _ => None
      end
  | _ => None
  end.

(** ECMAScript Decode with an empty set of preserved escapes.
    [pending] holds the octets of an open multi-byte sequence, in reverse,
    and the number of octets the sequence has. *)
Fixpoint decode (pending : option (list Z * Z)) (s : jsstring) : result jsstring :=
  match s with
  | [] =>
      match pending with
      | None => Ok []
      | Some _ => Throw URIError
      end
  | c :: rest =>
      if c =? percent then
        match rest with
        | h1 :: h2 :: rest' =>
            match hex_value h1, hex_value h2 with
            | Some a, Some b =>
                let B := 16 * a + b in
                match pending with
                | None =>
                    let n := leading_ones B in
                    if n =? 0 then
                      (r <- decode None rest' ;; Ok (B :: r))%js
                    else if (n =? 1) || (4 <? n) then Throw URIError
                    else decode (Some ([B], n)) rest'
                | Some (octets, n) =>
                    let octets' := B :: octets in
                    if Z.of_nat (List.length octets') =? n then
                      match Utf.utf8_codepoint (rev octets') with
                      | Some V =>
                          (r <- decode None rest' ;; Ok (Utf.utf16_encode V ++ r))%js
                      | None => Throw URIError
                      end
                    else decode (Some (octets', n)) rest'
                end
            | _, _ => Throw URIError
            end
        | _ => Throw URIError
        end
      else
        match pending with
        | None => (r <- decode None rest ;; Ok (c :: r))%js
        | Some _ => Throw URIError
        end
  end.

Definition decodeURIComponent (s : jsstring) : result jsstring := decode None s.

(** The characters encodeURIComponent leaves as they are. *)
Definition is_unreserved (c : Z) : bool :=
  is_alnum c
  || existsb (Z.eqb c) [45; 95; 46; 33; 126; 42; 39; 40; 41]. (* - _ . ! ~ * ' ( ) *)

Definition percent_encode_byte (b : Z) : jsstring :=
  if is_unreserved b then [b]
  else [percent; hex_digit (b / 16); hex_digit (b mod 16)].

(** encodeURIComponent, for a string without lone surrogates (on those
    the real function throws; [Utf.scalars] replaces them). *)
Definition encodeURIComponent (s : jsstring) : jsstring :=
  flat_map percent_encode_byte (Utf.utf8_encode s).

(** Percent-decode of the URL standard: a [%] that is not followed by
    two hexadecimal digits is kept. *)
Fixpoint percent_decode (bytes : list Z) : list Z :=
  match bytes with
  | [] => []
  | c :: rest =>
      if c =? percent then
        match rest with
        | h1 :: h2 :: rest' =>
            match hex_value h1, hex_value h2 with
            | Some a, Some b => (16 * a + b) :: percent_decode rest'
            | _, _ => c :: percent_decode rest
            end
        | _ => c :: percent_decode rest
        end
      else c :: percent_decode rest
  end.

(** Split a byte sequence at every [sep]. *)
Fixpoint split_on (sep : Z) (bytes : list Z) : list (list Z) :=
  match bytes with
  | [] => [[]]
  | c :: rest =>
      match split_on sep rest with
      | cur :: more => if c =? sep then [] :: cur :: more else (c :: cur) :: more
      | [] => [[c]]
      end
  end.

(** Name and value of one sequence: cut at the first [=]. *)
Fixpoint split_pair (bytes : list Z) : list Z * list Z :=
  match bytes with
  | [] => ([], [])
  | c :: rest =>
      if c =? equals then ([], rest)
      else let '(n, v) := split_pair rest in (c :: n, v)
  end.

Definition plus_to_space (bytes : list Z) : list Z :=
  map (fun c => if c =? plus then space else c) bytes.

Definition urldecode (bytes : list Z) : jsstring :=
  Utf.utf8_decode (percent_decode (plus_to_space bytes)).

(** The application/x-www-form-urlencoded parser. *)
Definition parse_urlencoded (bytes : list Z) : list (jsstring * jsstring) :=
  map (fun seq => let '(n, v) := split_pair seq in (urldecode n, urldecode v))
      (filter (fun seq => negb (Nat.eqb (List.length seq) 0)) (split_on amp bytes)).

(** [new URLSearchParams(init)] for a string: a leading [?] is dropped. *)
Definition URLSearchParams (init : jsstring) : list (jsstring * jsstring) :=
  let q := match init with
           | c :: rest => if c =? question then rest else init
           | [] => []
           end in
  parse_urlencoded (Utf.utf8_encode q).

(** [params.get(name)]: the value of the first pair with that name, or
    null. *)
Fixpoint get (params : list (jsstring * jsstring)) (name : jsstring) : option jsstring :=
  match params with
  | [] => None
  | (n, v) :: rest => if jsstring_eqb n name then Some v else get rest name
  end.
End Uri.

(** ** Base64: atob and the producer's encoder *)

Module Base64.
Import Char.

(** The character of a sextet in the standard alphabet. *)
Definition char_of (v : Z) : Z :=
  if v <? 26 then 65 + v
  else if v <? 52 then 97 + (v - 26)
  else if v <? 62 then 48 + (v - 52)
  else if v =? 62 then plus
  else slash.

(** The sextet of a character, if it is in the standard alphabet. *)
Definition value_of (c : Z) : option Z :=
  if is_upper c then Some (c - 65)
  else if is_lower c then Some (c - 97 + 26)
  else if is_digit c then Some (c - 48 + 52)
  else if c =? plus then Some 62
  else if c =? slash then Some 63
  else None.

(** The standard encoding with padding (btoa, PHP's base64_encode). *)
Fixpoint encode (bytes : list Z) : jsstring :=
  match bytes with
  | [] => []
  | [x] => [char_of (x / 4); char_of ((x mod 4) * 16); equals; equals]
  | [x; y] =>
      [char_of (x / 4); char_of ((x mod 4) * 16 + y / 16);
       char_of ((y mod 16) * 4); equals]
  | x :: y :: z :: rest =>
      char_of (x / 4) :: char_of ((x mod 4) * 16 + y / 16)
      :: char_of ((y mod 16) * 4 + z / 64) :: char_of (z mod 64)
      :: encode rest
  end.

(** The URL-safe alphabet: [+] becomes [-] and [/] becomes [_]. *)
Definition to_url_safe (s : jsstring) : jsstring :=
  map (fun c => if c =? plus then minus else if c =? slash then underscore else c) s.

Definition remove_whitespace (s : jsstring) : jsstring :=
  filter (fun c => negb (is_ascii_whitespace c)) s.

(** One or two [=] at the end go, when the length is a multiple of 4. *)
Definition strip_padding (s : jsstring) : jsstring :=
  if Z.of_nat (List.length s) mod 4 =? 0 then
    match rev s with
    | a :: b :: r =>
        if a =? equals then (if b =? equals then rev r else rev (b :: r)) else s
    | [a] => if a =? equals then [] else s
    | [] => s
    end
  else s.

Fixpoint sextets (s : jsstring) : option (list Z) :=
  match s with
  | [] => Some []
  | c :: rest =>
      match value_of c, sextets rest with
      | Some v, Some vs => Some (v :: vs)
      | _, _ => None
      end
  end.

(** 24 bits give three bytes; 12 left over give one byte, 18 give two. *)
Fixpoint bytes_of_sextets (vs : list Z) : list Z :=
  match vs with
  | a :: b :: c :: d :: rest =>
      (a * 4 + b / 16) :: ((b mod 16) * 16 + c / 4) :: ((c mod 4) * 64 + d)
      :: bytes_of_sextets rest
  | [a; b; c] => [a * 4 + b / 16; (b mod 16) * 16 + c / 4]
  | [a; b] => [a * 4 + b / 16]
  | _ => []
  end.

(** The forgiving-base64 decode of the HTML standard. *)
Definition forgiving_decode (data : jsstring) : option (list Z) :=
  let d := strip_padding (remove_whitespace data) in
  if Z.of_nat (List.length d) mod 4 =? 1 then None
  else match sextets d with
       | Some vs => Some (bytes_of_sextets vs)
       | None => None
       end.

(** [atob]: the result is a string with one code unit per byte. *)
Definition atob (data : jsstring) : result jsstring :=
  match forgiving_decode data with
  | Some bytes => Ok bytes
  | None => Throw InvalidCharacterError
  end.
End Base64.

(** ** The decoder of the page *)

(** [s.replace(/-/g, "+").replace(/_/g, "/")] *)
Definition replace_all (from to : Z) (s : jsstring) : jsstring :=
  map (fun c => if c =? from then to else c) s.

(** [decodeBase64UrlSafe]: percent-decode, put the standard alphabet back,
    atob; when that throws, atob on the raw argument, and when that throws
    too, the first exception. *)
Definition decodeBase64UrlSafe (s : jsstring) : result jsstring :=
  try_catch
    (decoded <- Uri.decodeURIComponent s ;;
     let fixed := replace_all Char.underscore Char.slash
                    (replace_all Char.minus Char.plus decoded) in
     Base64.atob fixed)%js
    (fun e => try_catch (Base64.atob s) (fun e2 => Throw e)).

(** ** Values *)

(** The values the page handles: what JSON.parse returns, and [undefined]
    for a property that is not there.  An object keeps its properties in
    the order of the text. *)
#[warnings="-register-all"]
Inductive jsval (number : Type) : Type :=
| JUndefined
| JNull
| JBool (b : bool)
| JNum (n : number)
| JStr (s : jsstring)
| JArr (items : list (jsval number))
| JObj (fields : list (jsstring * jsval number)).
Arguments JUndefined {number}.
Arguments JNull {number}.
Arguments JBool {number} b.
Arguments JNum {number} n.
Arguments JStr {number} s.
Arguments JArr {number} items.
Arguments JObj {number} fields.

(** What the page takes from the browser. *)
Class Platform : Type := {
  (** the Number type, with ToBoolean (false for 0, -0 and NaN) and
      ToString on it *)
  number : Type;
  number_truthy : number -> bool;
  Number_toString : number -> jsstring;
  (** [v > 0] for a primitive value, with the conversions of the language *)
  greater_than_zero : jsval number -> bool;
  (** [JSON.parse] *)
  JSON_parse : jsstring -> result (jsval number);
  (** the time value, in milliseconds since the epoch, of [new Date(n)] and
      of [new Date(s)]; [None] is an invalid date *)
  Date_of_number : number -> option Z;
  Date_parse : jsstring -> option Z;
  (** [toLocaleString('en-IN')] of a valid date, in the time zone of the
      device *)
  toLocaleString_enIN : Z -> jsstring;
  (** [e.message] *)
  message : exn -> jsstring
}.

Section Values.
Context {P : Platform}.

Definition value : Type := jsval number.

(** ToBoolean *)
Definition truthy (v : value) : bool :=
  match v with
  | JUndefined | JNull => false
  | JBool b => b
  | JNum n => number_truthy n
  | JStr s => match s with [] => false | _ => true end
  | JArr _ | JObj _ => true
  end.

(** The value of the last property with this name (a name written twice
    in a JSON text keeps its last value). *)
Definition lookup (fields : list (jsstring * value)) (name : jsstring) : value :=
  match find (fun kv => jsstring_eqb (fst kv) name) (rev fields) with
  | Some (_, v) => v
  | None => JUndefined
  end.

(** [v.name], for the names the page reads on its payload (none of them
    is a property of a prototype). *)
Definition get_prop (v : value) (name : string) : result value :=
  match v with
  | JUndefined =>
      Throw (TypeError (str "Cannot read properties of undefined (reading '" ++ str name ++ str "')"))
  | JNull =>
      Throw (TypeError (str "Cannot read properties of null (reading '" ++ str name ++ str "')"))
  | JObj fields => Ok (lookup fields (str name))
  | _ => Ok JUndefined
  end.

(** [a || b] once [a] is evaluated. *)
Definition or_else (a : value) (b : result value) : result value :=
  if truthy a then Ok a else b.

(** The destructuring default: [name = dflt] replaces only [undefined]. *)
Definition with_default (v dflt : value) : value :=
  match v with
  | JUndefined => dflt
  | _ => v
  end.
End Values.

(** ** The rendered tree *)

Definition style : Type := list (string * string).

(** What the component returns: JSX.  [VText] is text written in the JSX,
    [VExpr] a value in braces, [VFrag] a fragment or an array of elements. *)
#[warnings="-register-all"]
Inductive vnode {number : Type} : Type :=
| VText (s : jsstring)
| VExpr (v : jsval number)
| VEl (tag : string) (props : list (string * string)) (css : style) (children : list vnode)
| VFrag (children : list vnode).
Arguments vnode number : clear implicits.

(** What React puts in the document. *)
#[warnings="-register-all"]
Inductive node : Type :=
| Txt (s : jsstring)
| El (tag : string) (props : list (string * string)) (css : style) (children : list node).

Section Render.
Context {P : Platform}.
Local Open Scope string_scope.
Local Open Scope js_scope.

(** Has the object a property of its own with this name. *)
Definition has_own (fields : list (jsstring * value)) (name : string) : bool :=
  existsb (fun kv => jsstring_eqb (fst kv) (str name)) fields.

(** The string of a value, as ToPrimitive and ToString give it.  An array
    is the strings of its items joined by commas, null and undefined items
    empty.  An object of a JSON text is "[object Object]", unless it has a
    property [toString] of its own: that property is no function, it hides
    the method of the prototype, and the conversion throws. *)
Fixpoint to_string (v : value) : result jsstring :=
  match v with
  | JUndefined => Ok (str "undefined")
  | JNull => Ok (str "null")
  | JBool b => Ok (if b then str "true" else str "false")
  | JNum n => Ok (Number_toString n)
  | JStr s => Ok s
  | JArr items =>
      (fix join (l : list value) : result jsstring :=
         match l with
         | [] => Ok []
         | x :: rest =>
             first <- match x with
                      | JUndefined | JNull => Ok []
                      | _ => to_string x
                      end ;;
             others <- join rest ;;
             Ok (first ++ match rest with [] => [] | _ => 44%Z :: others end)%list
         end) items
  | JObj fields =>
      if has_own fields "toString"
      then Throw (TypeError (str "Cannot convert object to primitive value"))
      else Ok (str "[object Object]")
  end.

(** ToPrimitive: an array or an object becomes its string. *)
Definition to_primitive (v : value) : result value :=
  match v with
  | JArr _ | JObj _ => s <- to_string v ;; Ok (JStr s)
  | _ => Ok v
  end.

(** [new Date(v)]: the time value, [None] when the date is invalid. *)
Definition Date_new (v : value) : result (option Z) :=
  match v with
  | JUndefined => Ok None
  | JNull => Ok (Some 0%Z)
  | JBool b => Ok (Some (if b then 1 else 0)%Z)
  | JNum n => Ok (Date_of_number n)
  | JStr s => Ok (Date_parse s)
  | JArr _ | JObj _ => s <- to_string v ;; Ok (Date_parse s)
  end.

(** The text of a time value in en-IN, "Invalid Date" for an invalid
    date. *)
Definition locale_text (t : option Z) : jsstring :=
  match t with
  | Some t => toLocaleString_enIN t
  | None => str "Invalid Date"
  end.

(** [new Date(v).toLocaleString('en-IN')] *)
Definition date_text (v : value) : result jsstring :=
  t <- Date_new v ;; Ok (locale_text t).

(** A value as a child of an element: nothing for undefined, null, a
    boolean and the empty string, text for a string and a number, the
    items of an array; an object is refused. *)
Fixpoint render_child (v : value) : result (list node) :=
  match v with
  | JUndefined | JNull | JBool _ => Ok []
  | JNum n => Ok [Txt (Number_toString n)]
  | JStr s => match s with [] => Ok [] | _ => Ok [Txt s] end
  | JArr items =>
      (fix each (l : list value) : result (list node) :=
         match l with
         | [] => Ok []
         | x :: rest =>
             a <- render_child x ;; b <- each rest ;; Ok (a ++ b)%list
         end) items
  | JObj _ =>
      Throw (RenderError (str "Objects are not valid as a React child"))
  end.

(** The document nodes of a JSX tree. *)
Fixpoint commit (v : vnode number) : result (list node) :=
  let all := fix all (l : list (vnode number)) : result (list node) :=
               match l with
               | [] => Ok []
               | x :: rest => a <- commit x ;; b <- all rest ;; Ok (a ++ b)%list
               end in
  match v with
  | VText s => Ok [Txt s]
  | VExpr e => render_child e
  | VEl tag props css children =>
      kids <- all children ;; Ok [El tag props css kids]
  | VFrag children => all children
  end.

Definition strong (label : string) : vnode number :=
  VEl "strong" [] [] [VText (str label)].

Definition heading_style : style :=
  [("marginTop", "6"); ("borderBottom", "1px solid #000"); ("fontWeight", "700")].
Definition body_style : style :=
  [("marginTop", "4"); ("whiteSpace", "pre-line"); ("fontFamily", "'Noto Sans Telugu'")].
Definition block_style : style :=
  [("border", "1px solid #ddd"); ("padding", "4"); ("marginBottom", "6")].

Definition header : vnode number :=
  VEl "div" [] [("textAlign", "center"); ("borderBottom", "1px dashed #000"); ("paddingBottom", "6")]
    [ VEl "img" [("src", "/Logo.png"); ("alt", "logo")]
          [("height", "18mm"); ("objectFit", "contain")] [];
      VEl "div" [] [("fontWeight", "700"); ("fontSize", "13")] [VText (str "CropSync")];
      VEl "div" [] [("fontSize", "8"); ("fontStyle", "italic")]
          [VText (str "Smart Agricultural Solutions")];
      VEl "div" [] [("fontSize", "8")] [VText (str "www.cropsync.in | +91-9182867605")] ].

(** [problem.problem_name_te || problem.problem_name_en || 'Advisory'] *)
Definition title_value (problem : value) : result value :=
  te <- get_prop problem "problem_name_te" ;;
  or_else te (en <- get_prop problem "problem_name_en" ;;
              or_else en (Ok (JStr (str "Advisory")))).

Definition title_style : style :=
  [("textAlign", "center"); ("marginTop", "6"); ("fontSize", "12");
   ("fontWeight", "700"); ("fontFamily", "'Noto Sans Telugu'")].

Definition title (problem : value) : result (vnode number) :=
  t <- title_value problem ;;
  Ok (VEl "div" [] title_style [VExpr t]).

(** [problem.category || '-'] *)
Definition category_value (problem : value) : result value :=
  c <- get_prop problem "category" ;; or_else c (Ok (JStr (str "-"))).

(** [problem.stage_te || problem.stage_en || '-'] *)
Definition stage_value (problem : value) : result value :=
  te <- get_prop problem "stage_te" ;;
  or_else te (en <- get_prop problem "stage_en" ;;
              or_else en (Ok (JStr (str "-")))).

(** [<div><strong>label</strong> {v}</div>] *)
Definition labelled_line (label : string) (css : style) (v : value) : vnode number :=
  VEl "div" [] css [strong label; VText (str " "); VExpr v].

Definition meta (problem : value) : result (vnode number) :=
  c <- category_value problem ;;
  s <- stage_value problem ;;
  Ok (VEl "div" [] [("marginTop", "6"); ("fontSize", "9")]
        [ labelled_line "Category:" [] c; labelled_line "Stage:" [] s ]).

(** [text && <> heading, body </>]: a section with a heading, shown when
    its text is there. *)
Definition text_section (label : string) (text : value) : vnode number :=
  if truthy text then
    VFrag [ VEl "div" [] heading_style [VText (str label)];
            VEl "div" [] body_style [VExpr text] ]
  else VExpr text.

Definition symptoms (advisory : value) : result (vnode number) :=
  s <- get_prop advisory "symptoms_te" ;; Ok (text_section "Symptoms" s).

Definition advisory_notes (advisory : value) : result (vnode number) :=
  n <- get_prop advisory "notes_te" ;; Ok (text_section "Advisory" n).

(** [c.component_name_te || c.component_name_en || '-'] *)
Definition component_name_value (c : value) : result value :=
  te <- get_prop c "component_name_te" ;;
  or_else te (en <- get_prop c "component_name_en" ;;
              or_else en (Ok (JStr (str "-")))).

(** [text && <div><strong>label</strong> {text}</div>] *)
Definition optional_line (label : string) (text : value) : vnode number :=
  if truthy text then labelled_line label [] text else VExpr text.

(** One treatment component (its [key], the index, is not a property of
    the document). *)
Definition component_block (c : value) : result (vnode number) :=
  ty <- get_prop c "component_type" ;;
  ty <- or_else ty (Ok (JStr (str "-"))) ;;
  name <- component_name_value c ;;
  dose <- get_prop c "dose_te" ;;
  method <- get_prop c "application_method_te" ;;
  note <- get_prop c "notes_te" ;;
  Ok (VEl "div" [] block_style
        [ VEl "div" [] [("fontWeight", "700")] [VExpr ty];
          labelled_line "Name:" [("fontFamily", "'Noto Sans Telugu'")] name;
          optional_line "Dose:" dose;
          optional_line "Method:" method;
          optional_line "Note:" note ]).

Fixpoint map_result {A B} (f : A -> result B) (l : list A) : result (list B) :=
  match l with
  | [] => Ok []
  | x :: rest => y <- f x ;; ys <- map_result f rest ;; Ok (y :: ys)
  end.

(** [components.length > 0]: the length of an array or of a string; on
    an object its property [length], made a primitive value first; nothing
    on a number or a boolean. *)
Definition length_positive (components : value) : result bool :=
  match components with
  | JArr items => Ok (Nat.ltb 0 (List.length items))
  | JStr s => Ok (Nat.ltb 0 (List.length s))
  | JObj fields =>
      l <- to_primitive (lookup fields (str "length")) ;; Ok (greater_than_zero l)
  | _ => Ok false
  end.

(** [components && components.length > 0 && <> heading, blocks </>] *)
Definition treatment (components : value) : result (vnode number) :=
  if negb (truthy components) then Ok (VExpr components)
  else
    positive <- length_positive components ;;
    if negb positive then Ok (VExpr (JBool false))
    else
      match components with
      | JArr items =>
          blocks <- map_result component_block items ;;
          Ok (VFrag [ VEl "div" [] heading_style [VText (str "Treatment")];
                      VEl "div" [] [("marginTop", "4")] [VFrag blocks] ])
      | _ => Throw (TypeError (str "components.map is not a function"))
      end.

Definition footer_style : style :=
  [("textAlign", "center"); ("marginTop", "8"); ("borderTop", "1px dashed #000");
   ("paddingTop", "6"); ("fontSize", "8")].

Definition footer (receipt_id generated_at : value) : result (vnode number) :=
  date <- date_text generated_at ;;
  Ok (VEl "div" [] footer_style
        [ VEl "div" [] [] [VText (str "Receipt ID: "); VExpr receipt_id];
          VEl "div" [] [] [VText (str "Date: "); VExpr (JStr date)];
          VEl "div" [] [] [VText (str "Thank you for using CropSync")] ]).

Definition container_style : style :=
  [("width", "80mm"); ("minHeight", "120mm"); ("boxSizing", "border-box");
   ("padding", "4mm"); ("background", "#fff"); ("color", "#000"); ("fontSize", "10");
   ("lineHeight", "1.25"); ("fontFamily", "'Noto Sans Telugu','PoppinsLocal', sans-serif")].

(** The element [containerRef] points to: the receipt, 80mm wide. *)
Definition container (payload : value) : result (vnode number) :=
  problem <- get_prop payload "problem" ;;
  advisory <- get_prop payload "advisory" ;;
  components <- get_prop payload "components" ;;
  receipt_id <- get_prop payload "receipt_id" ;;
  generated_at <- get_prop payload "generated_at" ;;
  let problem := with_default problem (JObj []) in
  let advisory := with_default advisory (JObj []) in
  let components := with_default components (JArr []) in
  t <- title problem ;;
  m <- meta problem ;;
  s <- symptoms advisory ;;
  a <- advisory_notes advisory ;;
  c <- treatment components ;;
  f <- footer receipt_id generated_at ;;
  Ok (VEl "div" [("ref", "containerRef")] container_style
        [header; t; m; s; a; c; f]).

Definition popup_note : vnode number :=
  VEl "div" [] [("marginTop", "12"); ("color", "#666"); ("fontSize", "12")]
    [VText (str "If printing doesn't start automatically, allow popups or press the print button in the new window.")].

(** The receipt view. *)
Definition receipt_view (payload : value) : result (vnode number) :=
  c <- container payload ;;
  Ok (VEl "div" [] [("padding", "12")] [c; popup_note]).
End Render.

(** ** The PDF document (jsPDF) *)

Module Pdf.
Record image : Type := {
  image_data : jsstring;      (* the data URL of the picture *)
  image_format : string;
  image_x : Z;
  image_y : Z;
  image_width : Z;
  image_height : Z
}.

Record page : Type := {
  page_width : Z;
  page_height : Z;
  page_images : list image
}.

Record document : Type := {
  doc_unit : string;
  doc_pages : list page;      (* the last one is the current page *)
  doc_auto_print : bool
}.

Inductive orientation : Type := portrait | landscape.

(** [new jsPDF({ orientation, unit, format: [w, h] })]: a document of one
    page; a portrait page is put upright and a landscape one on its side,
    whatever the order of the two lengths. *)
Definition jsPDF (o : orientation) (unit : string) (format : Z * Z) : document :=
  let '(w, h) := format in
  let '(w, h) := match o with
                 | portrait => if h <? w then (h, w) else (w, h)
                 | landscape => if w <? h then (h, w) else (w, h)
                 end in
  {| doc_unit := unit;
     doc_pages := [{| page_width := w; page_height := h; page_images := [] |}];
     doc_auto_print := false |}.

(** [pdf.addImage(data, format, x, y, w, h)]: on the current page. *)
Definition addImage (d : document) (data : jsstring) (fmt : string) (x y w h : Z)
  : document :=
  let img := {| image_data := data; image_format := fmt; image_x := x; image_y := y;
                image_width := w; image_height := h |} in
  match rev (doc_pages d) with
  | [] => d
  | cur :: before =>
      {| doc_unit := doc_unit d;
         doc_pages := rev before ++
           [{| page_width := page_width cur; page_height := page_height cur;
               page_images := page_images cur ++ [img] |}];
         doc_auto_print := doc_auto_print d |}
  end.

(** [pdf.autoPrint()] *)
Definition autoPrint (d : document) : document :=
  {| doc_unit := doc_unit d; doc_pages := doc_pages d; doc_auto_print := true |}.

(** [pdf.output('blob', options)].  The second argument of [output] is an
    object of options, of which only the file name is read; the document
    is the value returned, as for ['bloburl'] on line 88, and a function
    given as [options] is never called: the list of its calls is empty. *)
Definition output_blob {A} (d : document) (options : document -> A) : document * list A :=
  (d, []).
End Pdf.

(** ** The export: generateAndPrint *)

Inductive window : Type :=
| Self                  (* the page *)
| Opened (id : nat).    (* a window the page has opened *)

(** What the browser answers to the export. *)
Record Env : Type := {
  (** html2canvas: the picture, as the data URL its canvas gives, or a
      rejection *)
  html2canvas : node -> result jsstring;
  (** URL.createObjectURL on the document, behind [pdf.output("bloburl")] *)
  blob_url : Pdf.document -> jsstring;
  (** [window.open(blobUrl, "_blank")]: null when the popup is blocked *)
  open_document : option window;
  (** [window.open("", "_blank")] *)
  open_blank : option window;
  (** FileReader.readAsDataURL: the data URL of the document *)
  data_url : Pdf.document -> jsstring;
  (** does [w.focus(); w.print()] throw *)
  print_throws : window -> bool
}.

(** What the export does, in order.  A handler or a callback is given by
    what it does when it is called. *)
#[warnings="-register-all"]
Inductive action : Type :=
| Sleep (ms : Z)
| Rasterize (target : node) (scale : Z) (useCORS allowTaint logging : bool)
| WindowOpen (url : jsstring) (target : string)
| OnLoad (w : window) (handler : list action)
| SetTimeout (ms : Z) (callback : list action)
| Focus (w : window)
| Print (w : window)
| Close (w : window)
| ReadAsDataURL (blob : Pdf.document) (onload : list action)
| DocumentWrite (w : window) (html : jsstring)
| DocumentClose (w : window)
| Alert (msg : jsstring)
| ConsoleError (msg : jsstring)
| ConsoleWarn (msg : jsstring)
| Pending.   (* an await on a promise that nothing settles *)

Section Exporter.
Context {P : Platform}.
Variable env : Env.
Local Open Scope string_scope.
Local Open Scope list_scope.

(** Lines 79 to 87: the document of 80 by 120 mm with the picture on it. *)
Definition build_pdf (imgData : jsstring) : Pdf.document :=
  let pdf := Pdf.jsPDF Pdf.portrait "mm" (80, 120) in
  let pdf := Pdf.addImage pdf imgData "PNG" 0 0 80 120 in
  Pdf.autoPrint pdf.

(** [w.focus(); w.print();] then what follows, inside a try whose catch
    warns. *)
Definition focus_print (w : window) (warning : jsstring) (then_ : list action)
  : list action :=
  if print_throws env w then [Focus w; Print w; ConsoleWarn warning]
  else Focus w :: Print w :: then_.

(** The handler of [reader.onload] on the fallback path; [e.target.result]
    is the data URL of the blob. *)
Definition inject_and_print (fallback : window) (blob : Pdf.document) : list action :=
  [ DocumentWrite fallback
      (str "<iframe src=" ++ [34] ++ data_url env blob ++ [34]
         ++ str " style=" ++ [34] ++ str "width:100%;height:100%;border:none;" ++ [34]
         ++ str "></iframe>");
    DocumentClose fallback;
    SetTimeout 800
      (focus_print fallback [] [SetTimeout 1500 [Close fallback]]) ].

(** [const blob = await new Promise((resolve) => ...)] and the rest of the
    fallback path: the promise is settled by the first call of [resolve],
    and stays pending when there is none. *)
Definition after_blob (resolved : list Pdf.document) (fallback : window) : list action :=
  match resolved with
  | [] => [Pending]
  | blob :: _ => [ReadAsDataURL blob (inject_and_print fallback blob)]
  end.

Definition generateAndPrint (target : node) : list action :=
  Sleep 300 ::
  Rasterize target 2 true true false ::
  match html2canvas env target with
  | Throw err =>
      [ConsoleError (str "Generate/print error"); Alert (str "Print failed: " ++ message err)]
  | Ok imgData =>
      let pdf := build_pdf imgData in
      let blobUrl := blob_url env pdf in
      WindowOpen blobUrl "_blank" ::
      match open_document env with
      | Some w =>
          [OnLoad w
             (focus_print w (str "Auto print failed:")
                [SetTimeout 1500 [Close w]; SetTimeout 2000 [Close Self]])]
      | None =>
          WindowOpen [] "_blank" ::
          match open_blank env with
          | None => [Alert (str "Popup blocked and fallback failed. Please allow popups.")]
          | Some fallback =>
              (* the calls of resolve made by pdf.output('blob', (b) => resolve(b)) *)
              after_blob (snd (Pdf.output_blob pdf (fun b => b))) fallback
          end
      end
  end.
End Exporter.

(** ** The component: AutoPrintReceipt *)

Section Component.
Context {P : Platform}.
Local Open Scope string_scope.
Local Open Scope list_scope.

(** The two [useState] cells; both start at null. *)
Record state : Type := {
  payload : value;
  error : option jsstring
}.

Definition initial_state : state := {| payload := JNull; error := None |}.

Definition setPayload (obj : value) (st : state) : state :=
  {| payload := obj; error := error st |}.

Definition setError (msg : jsstring) (st : state) : state :=
  {| payload := payload st; error := Some msg |}.

(** The first effect: read [?data=], decode, parse. *)
Definition decode_effect (search : jsstring) (st : state) : state :=
  let params := Uri.URLSearchParams search in
  match Uri.get params (str "data") with
  | None | Some [] => setError (str "No data parameter found in URL.") st
  | Some raw =>
      match (jsonStr <- decodeBase64UrlSafe raw ;; JSON_parse jsonStr)%js with
      | Ok obj => setPayload obj st
      | Throw e => setError (str "Failed to parse data payload: " ++ message e) st
      end
  end.

Definition error_view (msg : jsstring) : vnode number :=
  VEl "div" [] [("padding", "20"); ("color", "red")]
    [VText (str "Error: "); VExpr (JStr msg)].

Definition preparing_view : vnode number :=
  VEl "div" [] [("padding", "20")] [VText (str "Preparing receipt...")].

(** What the component returns, given the values of its two state cells. *)
Definition AutoPrintReceipt (st : state) : result (vnode number) :=
  match error st with
  | Some ((_ :: _) as msg) => Ok (error_view msg)
  | _ =>
      if negb (truthy (payload st)) then Ok preparing_view
      else receipt_view (payload st)
  end.

(** The element that carries [ref={containerRef}], if the tree has one. *)
Fixpoint find_ref (n : node) : option node :=
  match n with
  | Txt _ => None
  | El _ props _ children =>
      if existsb (fun p => String.eqb (fst p) "ref") props then Some n
      else (fix first (l : list node) : option node :=
              match l with
              | [] => None
              | x :: rest =>
                  match find_ref x with
                  | Some r => Some r
                  | None => first rest
                  end
              end) children
  end.

Definition containerRef (screen : list node) : option node :=
  match screen with
  | [root] => find_ref root
  | _ => None
  end.

(** The second effect: [None] when it returns at its guard, the run of
    [generateAndPrint] otherwise. *)
Definition export_effect (env : Env) (st : state) (current : option node)
  : option (list action) :=
  if negb (truthy (payload st)) then None
  else match current with
       | None => None
       | Some target => Some (generateAndPrint env target)
       end.

(** The second effect depends on [payload]: after the mount it runs again
    when the payload is no longer the null it started with. *)
Definition payload_changed (st : state) : bool :=
  match payload st with
  | JNull => false
  | _ => true
  end.

Record page : Type := {
  page_state : state;
  (** what is on the screen; an exception of the render takes the whole
      tree away *)
  page_screen : result (list node);
  (** the runs of [generateAndPrint] *)
  page_exports : list (list action)
}.

Definition runs (o : option (list action)) : list (list action) :=
  match o with
  | Some t => [t]
  | None => []
  end.

(** One load of the page (production build: each effect once per
    commit).  The component mounts with the initial state; the two
    effects run; the new state is rendered and the second effect runs again
    if the payload changed. *)
Definition page_load (env : Env) (search : jsstring) : page :=
  let mount_screen := (v <- AutoPrintReceipt initial_state ;; commit v)%js in
  let mount_ref := match mount_screen with Ok s => containerRef s | Throw _ => None end in
  let st := decode_effect search initial_state in
  let at_mount := export_effect env initial_state mount_ref in
  let screen := (v <- AutoPrintReceipt st ;; commit v)%js in
  match screen with
  | Ok s =>
      let after :=
        if payload_changed st then export_effect env st (containerRef s) else None in
      {| page_state := st; page_screen := screen;
         page_exports := runs at_mount ++ runs after |}
  | Throw _ =>
      {| page_state := st; page_screen := screen; page_exports := runs at_mount |}
  end.

(** One load of the page in a development build.  [main.jsx] mounts the
    component with [createRoot] inside [React.StrictMode]: once the component
    has mounted and its two effects have run, React runs the two effects a
    second time (neither has a cleanup), with the values of the first render,
    before it renders the state they have set.  In a production build
    [React.StrictMode] does nothing and the load is [page_load]. *)
Definition page_load_strict (env : Env) (search : jsstring) : page :=
  let mount_screen := (v <- AutoPrintReceipt initial_state ;; commit v)%js in
  let mount_ref := match mount_screen with Ok s => containerRef s | Throw _ => None end in
  let st := decode_effect search (decode_effect search initial_state) in
  let at_mount := export_effect env initial_state mount_ref in
  let again := export_effect env initial_state mount_ref in
  let screen := (v <- AutoPrintReceipt st ;; commit v)%js in
  match screen with
  | Ok s =>
      let after :=
        if payload_changed st then export_effect env st (containerRef s) else None in
      {| page_state := st; page_screen := screen;
         page_exports := runs at_mount ++ runs again ++ runs after |}
  | Throw _ =>
      {| page_state := st; page_screen := screen;
         page_exports := runs at_mount ++ runs again |}
  end.
End Component.

(** ** A reference platform

    An instance of [Platform] to run the page on concrete URLs: JSON with
    integer numbers, ISO timestamps, and the en-IN format of a date in a
    time zone given by its offset from UTC. *)

Module Json.
Definition jvalue : Type := jsval Z.

Definition is_ws (c : Z) : bool := (c =? 9) || (c =? 10) || (c =? 13) || (c =? 32).

Fixpoint skip_ws (s : jsstring) : jsstring :=
  match s with
  | c :: rest => if is_ws c then skip_ws rest else s
  | [] => []
  end.

Definition syntax_error {A} (what : string) : result A :=
  Throw (SyntaxError (str what)).

(** The characters of a string literal after its opening quote. *)
Fixpoint parse_string (s : jsstring) : result (jsstring * jsstring) :=
  match s with
  | [] => syntax_error "Unterminated string in JSON"
  | c :: rest =>
      if c =? 34 then Ok ([], rest)
      else if c =? 92 then
        match rest with
        | e :: rest' =>
            let simple (u : Z) :=
              (r <- parse_string rest' ;; Ok (u :: fst r, snd r))%js in
            if e =? 34 then simple 34
            else if e =? 92 then simple 92
            else if e =? 47 then simple 47
            else if e =? 98 then simple 8
            else if e =? 102 then simple 12
            else if e =? 110 then simple 10
            else if e =? 114 then simple 13
            else if e =? 116 then simple 9
            else if e =? 117 then
              match rest' with
              | h1 :: h2 :: h3 :: h4 :: rest'' =>
                  match Char.hex_value h1, Char.hex_value h2,
                        Char.hex_value h3, Char.hex_value h4 with
                  | Some a, Some b, Some c', Some d =>
                      (r <- parse_string rest'' ;;
                       Ok ((4096 * a + 256 * b + 16 * c' + d) :: fst r, snd r))%js
                  | _, _, _, _ => syntax_error "Bad Unicode escape in JSON"
                  end
              | _ => syntax_error "Bad Unicode escape in JSON"
              end
            else syntax_error "Bad escaped character in JSON"
        | [] => syntax_error "Unterminated string in JSON"
        end
      else if c <? 32 then syntax_error "Bad control character in string literal in JSON"
      else (r <- parse_string rest ;; Ok (c :: fst r, snd r))%js
  end.

Fixpoint parse_digits (acc : Z) (s : jsstring) : Z * jsstring :=
  match s with
  | c :: rest => if Char.is_digit c then parse_digits (10 * acc + (c - 48)) rest else (acc, s)
  | [] => (acc, [])
  end.

(** An integer literal; a fraction or an exponent is outside this
    instance. *)
Definition parse_unsigned (s : jsstring) : result (Z * jsstring) :=
  match s with
  | c :: rest =>
      if c =? 48 then
        match rest with
        | d :: _ => if Char.is_digit d then syntax_error "Unexpected number in JSON"
                    else Ok (0, rest)
        | [] => Ok (0, rest)
        end
      else if Char.is_digit c then Ok (parse_digits 0 s)
      else syntax_error "No number after minus sign in JSON"
  | [] => syntax_error "Unexpected end of JSON input"
  end.

Definition parse_number (s : jsstring) : result (jvalue * jsstring) :=
  (r <- match s with
        | c :: rest =>
            if c =? 45 then (p <- parse_unsigned rest ;; Ok (- fst p, snd p))
            else parse_unsigned s
        | [] => syntax_error "Unexpected end of JSON input"
        end ;;
   match snd r with
   | c :: _ =>
       if (c =? 46) || (c =? 101) || (c =? 69)
       then syntax_error "Number with a fraction or an exponent"
       else Ok (JNum (fst r), snd r)
   | [] => Ok (JNum (fst r), snd r)
   end)%js.

Fixpoint parse_value (fuel : nat) (s : jsstring) {struct fuel}
  : result (jvalue * jsstring) :=
  match fuel with
  | O => syntax_error "Unexpected end of JSON input"
  | S f =>
      match skip_ws s with
      | [] => syntax_error "Unexpected end of JSON input"
      | 123 :: r =>
          match skip_ws r with
          | 125 :: r' => Ok (JObj [], r')
          | _ => parse_members f r []
          end
      | 91 :: r =>
          match skip_ws r with
          | 93 :: r' => Ok (JArr [], r')
          | _ => parse_elements f r []
          end
      | 34 :: r => (p <- parse_string r ;; Ok (JStr (fst p), snd p))%js
      | 116 :: 114 :: 117 :: 101 :: r => Ok (JBool true, r)
      | 102 :: 97 :: 108 :: 115 :: 101 :: r => Ok (JBool false, r)
      | 110 :: 117 :: 108 :: 108 :: r => Ok (JNull, r)
      | c :: r =>
          if (c =? 45) || Char.is_digit c then parse_number (c :: r)
          else syntax_error "Unexpected token in JSON"
      end
  end
with parse_elements (fuel : nat) (s : jsstring) (acc : list jvalue) {struct fuel}
  : result (jvalue * jsstring) :=
  match fuel with
  | O => syntax_error "Unexpected end of JSON input"
  | S f =>
      (p <- parse_value f s ;;
       match skip_ws (snd p) with
       | 44 :: r => parse_elements f r (fst p :: acc)
       | 93 :: r => Ok (JArr (rev (fst p :: acc)), r)
       | _ => syntax_error "Expected ',' or ']' after array element in JSON"
       end)%js
  end
with parse_members (fuel : nat) (s : jsstring) (acc : list (jsstring * jvalue))
       {struct fuel} : result (jvalue * jsstring) :=
  match fuel with
  | O => syntax_error "Unexpected end of JSON input"
  | S f =>
      match skip_ws s with
      | 34 :: r =>
          (k <- parse_string r ;;
           match skip_ws (snd k) with
           | 58 :: r' =>
               p <- parse_value f r' ;;
               match skip_ws (snd p) with
               | 44 :: r'' => parse_members f r'' ((fst k, fst p) :: acc)
               | 125 :: r'' => Ok (JObj (rev ((fst k, fst p) :: acc)), r'')
               | _ => syntax_error "Expected ',' or '}' after property value in JSON"
               end
           | _ => syntax_error "Expected ':' after property name in JSON"
           end)%js
      | _ => syntax_error "Expected double-quoted property name in JSON"
      end
  end.

(** [JSON.parse] *)
Definition parse (s : jsstring) : result jvalue :=
  (p <- parse_value (S (List.length s)) s ;;
   match skip_ws (snd p) with
   | [] => Ok (fst p)
   | _ => syntax_error "Unexpected non-whitespace character after JSON"
   end)%js.

(** The decimal digits of an integer. *)
Fixpoint digits (fuel : nat) (n : Z) (acc : jsstring) : jsstring :=
  let acc' := (48 + n mod 10) :: acc in
  match fuel with
  | O => acc'
  | S f => if n <? 10 then acc' else digits f (n / 10) acc'
  end.

Definition decimal (z : Z) : jsstring :=
  if z <? 0 then 45 :: digits (Z.to_nat (Z.log2 (- z))) (- z) []
  else digits (Z.to_nat (Z.log2 z)) z [].

Definition hex_lower (v : Z) : Z := if v <? 10 then 48 + v else 87 + v.

Definition escape_u (c : Z) : jsstring :=
  str "\u" ++ [hex_lower (c / 4096); hex_lower ((c / 256) mod 16);
               hex_lower ((c / 16) mod 16); hex_lower (c mod 16)].

(** The characters of a string between its quotes. *)
Fixpoint escape (s : jsstring) : jsstring :=
  match s with
  | [] => []
  | c :: rest =>
      if c =? 34 then 92 :: 34 :: escape rest
      else if c =? 92 then 92 :: 92 :: escape rest
      else if c =? 8 then 92 :: 98 :: escape rest
      else if c =? 12 then 92 :: 102 :: escape rest
      else if c =? 10 then 92 :: 110 :: escape rest
      else if c =? 13 then 92 :: 114 :: escape rest
      else if c =? 9 then 92 :: 116 :: escape rest
      else if c <? 32 then escape_u c ++ escape rest
      else if Utf.is_high_surrogate c then
        match rest with
        | d :: rest' =>
            if Utf.is_low_surrogate d then c :: d :: escape rest'
            else escape_u c ++ escape rest
        | [] => escape_u c
        end
      else if Utf.is_low_surrogate c then escape_u c ++ escape rest
      else c :: escape rest
  end.

Definition quote (s : jsstring) : jsstring := 34 :: escape s ++ [34].

Fixpoint join (sep : Z) (parts : list jsstring) : jsstring :=
  match parts with
  | [] => []
  | [p] => p
  | p :: rest => p ++ sep :: join sep rest
  end.

(** [JSON.stringify] without indentation; an undefined value is written
    null in an array and its property is left out of an object. *)
Fixpoint stringify (v : jvalue) : jsstring :=
  match v with
  | JUndefined | JNull => str "null"
  | JBool b => if b then str "true" else str "false"
  | JNum n => decimal n
  | JStr s => quote s
  | JArr items => 91 :: join 44 (map stringify items) ++ [93]
  | JObj fields =>
      123 :: join 44
        ((fix members (l : list (jsstring * jvalue)) : list jsstring :=
            match l with
            | [] => []
            | (k, x) :: rest =>
                match x with
                | JUndefined => members rest
                | _ => (quote k ++ 58 :: stringify x) :: members rest
                end
            end) fields) ++ [125]
  end.
End Json.

Module Clock.
(** Days since 1970-01-01 of a date of the Gregorian calendar. *)
Definition days_from_civil (y m d : Z) : Z :=
  let y := if m <=? 2 then y - 1 else y in
  let era := y / 400 in
  let yoe := y - era * 400 in
  let doy := (153 * (if 2 <? m then m - 3 else m + 9) + 2) / 5 + d - 1 in
  let doe := yoe * 365 + yoe / 4 - yoe / 100 + doy in
  era * 146097 + doe - 719468.

(** Year, month and day of a number of days since 1970-01-01. *)
Definition civil_from_days (z : Z) : Z * Z * Z :=
  let z := z + 719468 in
  let era := z / 146097 in
  let doe := z - era * 146097 in
  let yoe := (doe - doe / 1460 + doe / 36524 - doe / 146096) / 365 in
  let doy := doe - (365 * yoe + yoe / 4 - yoe / 100) in
  let mp := (5 * doy + 2) / 153 in
  let d := doy - (153 * mp + 2) / 5 + 1 in
  let m := if mp <? 10 then mp + 3 else mp - 9 in
  ((if m <=? 2 then yoe + era * 400 + 1 else yoe + era * 400), m, d).

(** [n] decimal digits at the head of a string. *)
Fixpoint take_digits (n : nat) (acc : Z) (s : jsstring) : option (Z * jsstring) :=
  match n with
  | O => Some (acc, s)
  | S n' =>
      match s with
      | c :: rest =>
          if Char.is_digit c then take_digits n' (10 * acc + (c - 48)) rest else None
      | [] => None
      end
  end.

Definition expect (c : Z) (s : jsstring) : option jsstring :=
  match s with
  | x :: rest => if x =? c then Some rest else None
  | [] => None
  end.

Definition obind {A B} (o : option A) (k : A -> option B) : option B :=
  match o with
  | Some a => k a
  | None => None
  end.

(** [Date.parse] on the date-time format YYYY-MM-DDTHH:mm:ss, with
    optional milliseconds, in UTC ([Z]); any other text is an invalid date
    in this instance. *)
Definition parse_iso (s : jsstring) : option Z :=
  obind (take_digits 4 0 s) (fun '(y, s) =>
  obind (expect 45 s) (fun s =>
  obind (take_digits 2 0 s) (fun '(mo, s) =>
  obind (expect 45 s) (fun s =>
  obind (take_digits 2 0 s) (fun '(d, s) =>
  obind (expect 84 s) (fun s =>
  obind (take_digits 2 0 s) (fun '(h, s) =>
  obind (expect 58 s) (fun s =>
  obind (take_digits 2 0 s) (fun '(mi, s) =>
  obind (expect 58 s) (fun s =>
  obind (take_digits 2 0 s) (fun '(sec, s) =>
  obind (match s with
         | 46 :: s' => take_digits 3 0 s'
         | _ => Some (0, s)
         end) (fun '(ms, s) =>
  match s with
  | [90] =>
      if (1 <=? mo) && (mo <=? 12) && (1 <=? d) && (d <=? 31)
         && (h <=? 23) && (mi <=? 59) && (sec <=? 59)
      then Some ((((days_from_civil y mo d * 24 + h) * 60 + mi) * 60 + sec) * 1000 + ms)
      else None
  | _ => None
  end)))))))))))).

Definition two_digits (n : Z) : jsstring := [48 + n / 10; 48 + n mod 10].

(** The en-IN format, day/month/year and a 12 hour clock, of a time value
    seen at [offset] minutes east of UTC. *)
Definition format_enIN (offset : Z) (t : Z) : jsstring :=
  let local := t / 1000 + offset * 60 in
  let day := local / 86400 in
  let secs := local mod 86400 in
  let '(y, m, d) := civil_from_days day in
  let h := secs / 3600 in
  let h12 := if h mod 12 =? 0 then 12 else h mod 12 in
  Json.decimal d ++ 47 :: Json.decimal m ++ 47 :: Json.decimal y ++ str ", "
    ++ Json.decimal h12 ++ 58 :: two_digits ((secs / 60) mod 60)
    ++ 58 :: two_digits (secs mod 60)
    ++ (if h <? 12 then str " am" else str " pm").
End Clock.

(** The text of [e.message] (Chrome). *)
Definition reference_message (e : exn) : jsstring :=
  match e with
  | URIError => str "URI malformed"
  | InvalidCharacterError =>
      str "Failed to execute 'atob' on 'Window': The string to be decoded is not correctly encoded."
  | SyntaxError d | TypeError d | RenderError d | LibraryError d => d
  end.

(** The reference platform of a device whose clock is [offset] minutes east
    of UTC.  It gives the examples of this file their values, and it is
    narrower than a browser: its numbers are the integers, written in
    decimal and exact whatever their size (the JSON.parse of a browser
    reads fractions and exponents too, and rounds beyond 2^53); a string is
    greater than zero when the JSON.parse of this instance reads it as a
    positive integer (a browser also reads fractions, exponents and other
    radices);
    [Date.parse] reads the format YYYY-MM-DDTHH:mm:ss[.sss]Z and no other.
    The theorems stated for every [Platform] do not depend on it. *)
Definition reference_platform (offset : Z) : Platform := {|
  number := Z;
  number_truthy := fun n => negb (n =? 0);
  Number_toString := Json.decimal;
  greater_than_zero := fun v =>
    match v with
    | JNum n => 0 <? n
    | JBool b => b
    | JStr s => match Json.parse s with Ok (JNum n) => 0 <? n | _ => false end
    | _ => false
    end;
  JSON_parse := Json.parse;
  Date_of_number := fun n => Some n;
  Date_parse := Clock.parse_iso;
  toLocaleString_enIN := Clock.format_enIN offset;
  message := reference_message
|}.

(** India Standard Time, UTC+5:30. *)
Definition india : Platform := reference_platform 330.

(** ** The producer of the link

    What the spec asks of the party that builds the URL: the JSON text in
    UTF-8, in Base64 with the URL-safe alphabet, percent-encoded, as the
    [data] parameter. *)

Definition encode_payload (json_text : jsstring) : jsstring :=
  Uri.encodeURIComponent (Base64.to_url_safe (Base64.encode (Utf.utf8_encode json_text))).

Definition search_of (json_text : jsstring) : jsstring :=
  str "?data=" ++ encode_payload json_text.

(** The browser on which every popup opens and the rasteriser answers with
    a fixed picture. *)
Definition friendly_env : Env := {|
  html2canvas := fun _ => Ok (str "data:image/png;base64,iVBORw0KGgo=");
  blob_url := fun _ => str "blob:https://receipts.cropsync.in/1";
  open_document := Some (Opened 1);
  open_blank := Some (Opened 2);
  data_url := fun _ => str "data:application/pdf;base64,JVBERi0=";
  print_throws := fun _ => false
|}.

Definition example_text : jsstring :=
  str "{" ++ [34] ++ str "receipt_id" ++ [34] ++ str ":" ++ [34] ++ str "R1" ++ [34] ++ str ","
  ++ [34] ++ str "generated_at" ++ [34] ++ str ":" ++ [34] ++ str "2024-01-01T00:00:00Z" ++ [34] ++ str ","
  ++ [34] ++ str "problem" ++ [34] ++ str ":{" ++ [34] ++ str "problem_name_en" ++ [34] ++ str ":"
  ++ [34] ++ str "Leaf Blight" ++ [34] ++ str "},"
  ++ [34] ++ str "components" ++ [34] ++ str ":[]}".

(** ** Reading a rendered tree *)

(** The node at a path of child indices. *)
Fixpoint select (path : list nat) (n : node) : option node :=
  match path with
  | [] => Some n
  | i :: rest =>
      match n with
      | El _ _ _ children =>
          match nth_error children i with
          | Some c => select rest c
          | None => None
          end
      | Txt _ => None
      end
  end.

Definition children_of (n : node) : list node :=
  match n with
  | El _ _ _ children => children
  | Txt _ => []
  end.

(** Every text of a tree, in document order. *)
Fixpoint texts (n : node) : list jsstring :=
  match n with
  | Txt s => [s]
  | El _ _ _ children => flat_map texts children
  end.

(** Every element of a tree, in document order. *)
Fixpoint elements (n : node) : list node :=
  match n with
  | Txt _ => []
  | El _ _ _ children => n :: flat_map elements children
  end.

Fixpoint style_eqb (a b : style) : bool :=
  match a, b with
  | [], [] => true
  | (k, v) :: a', (k', v') :: b' => String.eqb k k' && String.eqb v v' && style_eqb a' b'
  | _, _ => false
  end.

(** The heading of the treatment section and the box of one component. *)
Definition is_treatment_heading (n : node) : bool :=
  match n with
  | El _ _ css [Txt s] => style_eqb css heading_style && jsstring_eqb s (str "Treatment")
  | _ => false
  end.

Definition is_component_block (n : node) : bool :=
  match n with
  | El _ _ css _ => style_eqb css block_style
  | Txt _ => false
  end.

Definition not_treatment (n : node) : bool :=
  negb (is_treatment_heading n) && negb (is_component_block n).

(** A tree without treatment section: none of its elements is the heading
    "Treatment" or the box of a component. *)
Definition no_treatment_section (n : node) : bool :=
  forallb not_treatment (elements n).

(** ** The shape of a payload *)

Section Schema.
Context {P : Platform}.

Definition optional_string (v : value) : bool :=
  match v with
  | JUndefined | JStr _ => true
  | _ => false
  end.

(** A value React takes as a child without looking inside it. *)
Definition renderable (v : value) : bool :=
  match v with
  | JArr _ | JObj _ => false
  | _ => true
  end.

(** An object whose properties of these names are strings or absent. *)
Definition string_record (names : list string) (v : value) : bool :=
  match v with
  | JObj fields => forallb (fun n => optional_string (lookup fields (str n))) names
  | _ => false
  end.

(** Such an object, or nothing. *)
Definition optional_record (names : list string) (v : value) : bool :=
  match v with
  | JUndefined => true
  | _ => string_record names v
  end.

(** An array of such objects, or nothing. *)
Definition optional_records (names : list string) (v : value) : bool :=
  match v with
  | JUndefined => true
  | JArr items => forallb (string_record names) items
  | _ => false
  end.

Definition problem_fields : list string :=
  ["problem_name_te"; "problem_name_en"; "category"; "stage_te"; "stage_en"]%string.
Definition advisory_fields : list string :=
  ["symptoms_te"; "symptoms_en"; "notes_te"; "notes_en"]%string.
Definition component_fields : list string :=
  ["component_type"; "component_name_te"; "component_name_en"; "dose_te"; "dose_en";
   "application_method_te"; "application_method_en"; "notes_te"; "notes_en"]%string.

(** Modelled from the spec: the shape of a ReceiptPayload (section 3 of the
    spec; the source declares no type for it).  [problem] and [advisory] are
    optional records of text fields, [components] a possibly absent sequence
    of records of text fields, [receipt_id] and [generated_at] strings that
    may be absent. *)
Definition matches_schema (payload : value) : bool :=
  match payload with
  | JObj fields =>
      optional_record problem_fields (lookup fields (str "problem"))
      && optional_record advisory_fields (lookup fields (str "advisory"))
      && optional_records component_fields (lookup fields (str "components"))
      && optional_string (lookup fields (str "receipt_id"))
      && optional_string (lookup fields (str "generated_at"))
  | _ => false
  end.
End Schema.

(** * The vocabulary of the properties *)

(** ** Characters and bytes *)

Section CharactersAndBytes.
Import Char.

(** The characters atob reads: the alphabet, whitespace and [=]. *)
Definition atob_char (c : Z) : Prop :=
  Base64.value_of c <> None \/ is_ascii_whitespace c = true \/ c = equals.

Definition is_byte (b : Z) : Prop := 0 <= b < 256.

Definition is_sextet (v : Z) : Prop := 0 <= v < 64.

Definition is_ascii (c : Z) : Prop := 0 <= c < 128.

(** A character that is neither [%] nor a separator of the query string,
    and is ASCII. *)
Definition query_safe (c : Z) : Prop :=
  c <> plus /\ c <> amp /\ c <> equals /\ is_ascii c.

Definition is_unit (c : Z) : Prop := 0 <= c < 65536.

End CharactersAndBytes.

(** ** The sextets and the padding of the Base64 encoding *)

Section Sextets.
Import Char.

(** The sextets of the encoding, before they become characters. *)
Fixpoint encode_sextets (bytes : list Z) : list Z :=
  match bytes with
  | [] => []
  | [x] => [x / 4; (x mod 4) * 16]
  | [x; y] => [x / 4; (x mod 4) * 16 + y / 16; (y mod 16) * 4]
  | x :: y :: z :: rest =>
      x / 4 :: (x mod 4) * 16 + y / 16 :: (y mod 16) * 4 + z / 64 :: z mod 64
      :: encode_sextets rest
  end.

Definition padding (bytes : list Z) : jsstring :=
  match (List.length bytes mod 3)%nat with
  | 1%nat => [equals; equals]
  | 2%nat => [equals]
  | _ => []
  end.

End Sextets.

(** ** Steps, screens and pairs *)

Section Screens.
Context {P : Platform}.
Local Open Scope string_scope.
Local Open Scope list_scope.

(** The character of the standard alphabet that a character of a URL-safe
    Base64 text stands for: [+] (43) for [-] (45), [/] (47) for [_] (95),
    any other character as it is.  Written from the words of the
    specification, not from the two [replace] calls of the page. *)
Definition standard_char (c : Z) : Z :=
  (if c =? 45 then 43 else if c =? 95 then 47 else c)%Z.

(** The four steps of the decoding as the specification words them, in a
    row: percent-decode, translate the alphabet, Base64-decode, parse as
    JSON.  Nothing here is the code of the page: decodeURIComponent, atob
    and JSON.parse are the browser's, and the change of alphabet is
    [standard_char]. *)
Definition decode_steps (raw : jsstring) : result value :=
  (decoded <- Uri.decodeURIComponent raw ;;
   text <- Base64.atob (map standard_char decoded) ;;
   JSON_parse text)%js.

(** The document of the error view. *)
Definition error_screen (msg : jsstring) : list node :=
  [El "div" [] [("padding", "20"); ("color", "red")] [Txt (str "Error: "); Txt msg]].

(** The document of the waiting view. *)
Definition preparing_screen : list node :=
  [El "div" [] [("padding", "20")] [Txt (str "Preparing receipt...")]].


(** The children of the container of a screen that shows the receipt. *)
Definition container_children (screen : list node) : list node :=
  match screen with
  | [root] =>
      match select [0%nat] root with
      | Some c => children_of c
      | None => []
      end
  | _ => []
  end.


(** The footer in the document. *)
Definition footer_node (id_nodes date_nodes : list node) : node :=
  El "div" [] footer_style
    [ El "div" [] [] (Txt (str "Receipt ID: ") :: id_nodes);
      El "div" [] [] (Txt (str "Date: ") :: date_nodes);
      El "div" [] [] [Txt (str "Thank you for using CropSync")] ].

Definition is_text (n : node) : Prop := exists s, n = Txt s.

(** The three values the page reads in Telugu first and in English next. *)
Inductive fallback_pair : Type := ProblemName | Stage | ComponentName.

Definition primary_field (p : fallback_pair) : string :=
  match p with
  | ProblemName => "problem_name_te"
  | Stage => "stage_te"
  | ComponentName => "component_name_te"
  end.

Definition secondary_field (p : fallback_pair) : string :=
  match p with
  | ProblemName => "problem_name_en"
  | Stage => "stage_en"
  | ComponentName => "component_name_en"
  end.

(** A JSX tree in which no element has the style of a component box, and
    an element with the style of a heading holds a text written in the
    source that is not "Treatment". *)
Fixpoint vclean (v : vnode number) : bool :=
  match v with
  | VText _ | VExpr _ => true
  | VEl _ _ css kids =>
      negb (style_eqb css block_style)
      && (negb (style_eqb css heading_style)
          || match kids with
             | [VText s] => negb (jsstring_eqb s (str "Treatment"))
             | _ => false
             end)
      && forallb vclean kids
  | VFrag kids => forallb vclean kids
  end.

(** A JSX tree whose values in braces are neither arrays nor objects. *)
Fixpoint vsafe (v : vnode number) : bool :=
  match v with
  | VText _ => true
  | VExpr e => renderable e
  | VEl _ _ _ kids => forallb vsafe kids
  | VFrag kids => forallb vsafe kids
  end.

End Screens.

(** ** Concrete browsers and payloads *)

Section Samples.
Local Open Scope string_scope.
Local Open Scope list_scope.

(** The browser that blocks the popup of the document and lets the blank
    one open. *)
Definition popup_blocked_env : Env := {|
  html2canvas := html2canvas friendly_env;
  blob_url := blob_url friendly_env;
  open_document := None;
  open_blank := Some (Opened 2);
  data_url := data_url friendly_env;
  print_throws := print_throws friendly_env
|}.

(** A payload without [components]. *)
Definition bare_payload : @value india := JObj [(str "receipt_id", JStr (str "R7"))].

(** The document of its receipt. *)
Definition bare_screen : list node :=
  Eval vm_compute in
    match (v <- @receipt_view india bare_payload ;; commit v)%js with
    | Ok s => s
    | Throw _ => []
    end.

(** The payload of the example, on any platform (it holds no number). *)
Definition example_payload {P : Platform} : value :=
  JObj [ (str "receipt_id", JStr (str "R1"));
         (str "generated_at", JStr (str "2024-01-01T00:00:00Z"));
         (str "problem", JObj [(str "problem_name_en", JStr (str "Leaf Blight"))]);
         (str "components", JArr []) ].


(** A payload with a Telugu problem name and nothing else. *)
Definition telugu_only_payload : @value india :=
  JObj [(str "problem", JObj [(str "problem_name_te", JStr [3108; 3093; 3137])])].

(** The JSON text of an object with one property whose value is null. *)
Definition null_problem_text : jsstring :=
  str "{" ++ [34] ++ str "problem" ++ [34] ++ str ":null}".

(** A component that has only English members. *)
Definition english_component : @value india :=
  JObj [ (str "component_name_en", JStr (str "Neem oil"));
         (str "dose_en", JStr (str "5 ml per litre"));
         (str "application_method_en", JStr (str "Foliar spray"));
         (str "notes_en", JStr (str "Spray in the morning")) ].

Definition english_only_payload : @value india :=
  JObj [ (str "problem", JObj [ (str "problem_name_en", JStr (str "Leaf Blight"));
                                (str "stage_en", JStr (str "Flowering")) ]);
         (str "advisory", JObj [ (str "symptoms_en", JStr (str "Yellow spots"));
                                 (str "notes_en", JStr (str "Remove infected leaves")) ]);
         (str "components", JArr [english_component]) ].

End Samples.

(** ** The vocabulary of the JSON round trip *)

Section JsonVocabulary.

(** What parse_string does with one more character in front. *)
Definition cons_char (c : Z) (r : result (jsstring * jsstring)) : result (jsstring * jsstring) :=
  (p <- r ;; Ok (c :: fst p, snd p))%js.

(** What may follow a value inside a JSON text: nothing, a comma or a
    closing bracket. *)
Definition follows_value (rest : jsstring) : Prop :=
  match rest with
  | [] => True
  | c :: _ => c = 44 \/ c = 93 \/ c = 125
  end.

(** A value that JSON.stringify writes in full: no undefined inside, and
    strings of UTF-16 code units. *)
Fixpoint printable (v : Json.jvalue) : Prop :=
  match v with
  | JUndefined => False
  | JNull | JBool _ | JNum _ => True
  | JStr s => Forall is_unit s
  | JArr items =>
      (fix all (l : list Json.jvalue) : Prop :=
         match l with
         | [] => True
         | x :: rest => printable x /\ all rest
         end) items
  | JObj fields =>
      (fix all (l : list (jsstring * Json.jvalue)) : Prop :=
         match l with
         | [] => True
         | (k, x) :: rest => Forall is_unit k /\ printable x /\ all rest
         end) fields
  end.

(** A bound on the fuel the parser needs for a value. *)
Fixpoint size (v : Json.jvalue) : nat :=
  match v with
  | JArr items =>
      S ((fix sum (l : list Json.jvalue) : nat :=
            match l with
            | [] => O
            | x :: rest => (S (size x) + sum rest)%nat
            end) items)
  | JObj fields =>
      S ((fix sum (l : list (jsstring * Json.jvalue)) : nat :=
            match l with
            | [] => O
            | (_, x) :: rest => (S (size x) + sum rest)%nat
            end) fields)
  | _ => 1%nat
  end.

(** The first character of a JSON text is no whitespace and no closing
    bracket. *)
Definition starts_value (s : jsstring) : Prop :=
  match s with
  | [] => False
  | c :: _ => Json.is_ws c = false /\ c <> 93 /\ c <> 125
  end.

Definition items_size (l : list Json.jvalue) : nat :=
  fold_right (fun x acc => (S (size x) + acc)%nat) O l.

Definition fields_size (l : list (jsstring * Json.jvalue)) : nat :=
  fold_right (fun kv acc => (S (size (snd kv)) + acc)%nat) O l.

(** The text of the members of an object without undefined values. *)
Definition member_text (kv : jsstring * Json.jvalue) : jsstring :=
  Json.quote (fst kv) ++ 58 :: Json.stringify (snd kv).

(** The parser reads back what stringify has written for a value, up to
    what follows it. *)
Definition parses (x : Json.jvalue) : Prop :=
  forall fuel rest, (size x <= fuel)%nat -> follows_value rest ->
                    Json.parse_value fuel (Json.stringify x ++ rest) = Ok (x, rest).

End JsonVocabulary.

(** ** Induction principles *)

Section InductionPrinciples.

(** Induction on a JSX tree with the hypothesis on every child. *)
Definition vnode_forall_ind {P : Platform} (Q : vnode number -> Prop)
  (HT : forall s, Q (VText s)) (HE : forall v, Q (VExpr v))
  (HEl : forall tag props css kids, Forall Q kids -> Q (VEl tag props css kids))
  (HF : forall kids, Forall Q kids -> Q (VFrag kids)) : forall v, Q v :=
  fix go (v : vnode number) : Q v :=
    let all := fix all (l : list (vnode number)) : Forall Q l :=
                 match l with
                 | [] => Forall_nil Q
                 | x :: rest => Forall_cons x (go x) (all rest)
                 end in
    match v with
    | VText s => HT s
    | VExpr e => HE e
    | VEl tag props css kids => HEl tag props css kids (all kids)
    | VFrag kids => HF kids (all kids)
    end.

(** Induction on a value with the hypothesis on the items of an array and
    on the values of the properties of an object. *)
Definition jsval_deep_ind {number : Type} (Q : jsval number -> Prop)
  (HU : Q JUndefined) (HN : Q JNull) (HB : forall b, Q (JBool b))
  (HNum : forall n, Q (JNum n)) (HS : forall s, Q (JStr s))
  (HA : forall items, Forall Q items -> Q (JArr items))
  (HO : forall fields, Forall (fun kv => Q (snd kv)) fields -> Q (JObj fields))
  : forall v, Q v :=
  fix go (v : jsval number) : Q v :=
    match v with
    | JUndefined => HU
    | JNull => HN
    | JBool b => HB b
    | JNum n => HNum n
    | JStr s => HS s
    | JArr items =>
        HA items ((fix all (l : list (jsval number)) : Forall Q l :=
                     match l with
                     | [] => Forall_nil Q
                     | x :: rest => Forall_cons x (go x) (all rest)
                     end) items)
    | JObj fields =>
        HO fields ((fix all (l : list (jsstring * jsval number))
                     : Forall (fun kv => Q (snd kv)) l :=
                      match l with
                      | [] => Forall_nil _
                      | kv :: rest => Forall_cons kv (go (snd kv)) (all rest)
                      end) fields)
    end.

End InductionPrinciples.

(** ** The links a producer may build *)

Section Links.
Import Char.

(** [decoded.replace(/-/g, "+").replace(/_/g, "/")] *)
Definition fixed (decoded : jsstring) : jsstring :=
  replace_all underscore slash (replace_all minus plus decoded).

(** The URL-safe character of a character of the standard alphabet. *)
Definition safe_char (c : Z) : Z :=
  if c =? plus then minus else if c =? slash then underscore else c.

(** Two results of decodeURIComponent that the rest of the decoder does
    not tell apart. *)
Definition alike (r r' : result jsstring) : Prop :=
  match r, r' with
  | Ok a, Ok b => fixed a = fixed b
  | Throw e, Throw e' => e = e'
  | _, _ => False
  end.

(** The Base64 of a sequence of bytes without its padding. *)
Definition encode_unpadded (bytes : list Z) : jsstring :=
  map Base64.char_of (encode_sextets bytes).

(** A character of a Base64 text in the standard alphabet. *)
Definition base64_char (c : Z) : Prop :=
  c <> minus /\ c <> underscore /\ c <> percent /\ 43 <= c < 123.

Inductive alphabet : Type := Standard | UrlSafe.

(** The Base64 text of a sequence of bytes, in one of the two alphabets,
    with or without padding. *)
Definition base64_text (a : alphabet) (padded : bool) (bytes : list Z) : jsstring :=
  let text := if padded then Base64.encode bytes else encode_unpadded bytes in
  match a with
  | Standard => text
  | UrlSafe => Base64.to_url_safe text
  end.

(** encodeURIComponent applied a number of times. *)
Fixpoint percent_encoded (times : nat) (s : jsstring) : jsstring :=
  match times with
  | O => s
  | S n => Uri.encodeURIComponent (percent_encoded n s)
  end.

(** The query string of a link that carries a JSON text. *)
Definition link (a : alphabet) (padded : bool) (times : nat) (json_text : jsstring)
  : jsstring :=
  str "?data=" ++ percent_encoded times (base64_text a padded (Utf.utf8_encode json_text)).

(** An ASCII character that is written as it is in a query string and is
    neither the separator of two parameters nor the start of an escape. *)
Definition unescaped (c : Z) : Prop := is_ascii c /\ c <> amp /\ c <> percent.

(** The text [{"q":"a?>b~"}]: its Base64 holds a [+] in the standard
    alphabet and ends in two [=] signs. *)
Definition tilde_text : jsstring :=
  str "{" ++ [34] ++ str "q" ++ [34] ++ str ":" ++ [34] ++ str "a?>b~" ++ [34] ++ str "}".

End Links.

(** ** Everything a run of the export does *)

Section Traces.

(** An action and, after it, the actions of the handler or callback it
    installs, in the order of the source. *)
Fixpoint unfold_action (a : action) : list action :=
  a :: match a with
       | OnLoad _ handler => flat_map unfold_action handler
       | SetTimeout _ callback => flat_map unfold_action callback
       | ReadAsDataURL _ onload => flat_map unfold_action onload
       | _ => []
       end.

(** Every action of a run, those of its handlers included. *)
Definition all_actions (run : list action) : list action :=
  flat_map unfold_action run.

End Traces.

(** ** The document of a receipt *)

Section ReceiptDocument.
Context {P : Platform}.
Local Open Scope string_scope.
Local Open Scope list_scope.

(** The element [containerRef] points to, in the document. *)
Definition container_node (kids : list node) : node :=
  El "div" [("ref", "containerRef")] container_style kids.

(** The note under the receipt, in the document. *)
Definition note_node : node :=
  El "div" [] [("marginTop", "12"); ("color", "#666"); ("fontSize", "12")]
    [Txt (str "If printing doesn't start automatically, allow popups or press the print button in the new window.")].

(** The document of the receipt view: the container and, beside it, the
    note. *)
Definition receipt_screen (kids : list node) : list node :=
  [El "div" [] [("padding", "12")] [container_node kids; note_node]].

Definition header_node : node :=
  El "div" [] [("textAlign", "center"); ("borderBottom", "1px dashed #000");
               ("paddingBottom", "6")]
    [ El "img" [("src", "/Logo.png"); ("alt", "logo")]
        [("height", "18mm"); ("objectFit", "contain")] [];
      El "div" [] [("fontWeight", "700"); ("fontSize", "13")] [Txt (str "CropSync")];
      El "div" [] [("fontSize", "8"); ("fontStyle", "italic")]
        [Txt (str "Smart Agricultural Solutions")];
      El "div" [] [("fontSize", "8")] [Txt (str "www.cropsync.in | +91-9182867605")] ].

(** The receipt of a payload that holds nothing: the title "Advisory", a
    dash for the category and for the stage, no section, no receipt number
    and no date. *)
Definition blank_kids : list node :=
  [ header_node;
    El "div" [] title_style [Txt (str "Advisory")];
    El "div" [] [("marginTop", "6"); ("fontSize", "9")]
      [ El "div" [] []
          [El "strong" [] [] [Txt (str "Category:")]; Txt (str " "); Txt (str "-")];
        El "div" [] []
          [El "strong" [] [] [Txt (str "Stage:")]; Txt (str " "); Txt (str "-")] ];
    footer_node [] [Txt (str "Invalid Date")] ].

(** null or undefined: the values a property cannot be read on. *)
Definition nullish (v : value) : bool :=
  match v with
  | JUndefined | JNull => true
  | _ => false
  end.

Definition is_null (v : value) : bool :=
  match v with
  | JNull => true
  | _ => false
  end.

(** The values that can be made a primitive value: no object reached,
    directly or through the items of arrays, has a [toString] key of its
    own.  What JSON.parse gives under such a key is never a function, and
    the conversion of the object then throws. *)
Fixpoint convertible (v : value) : bool :=
  match v with
  | JArr items =>
      (fix all (l : list value) : bool :=
         match l with
         | [] => true
         | x :: rest => convertible x && all rest
         end) items
  | JObj fields => negb (has_own fields "toString")
  | _ => true
  end.

(** The primitive value of a convertible value. *)
Definition primitive (v : value) : value :=
  match to_primitive v with
  | Ok p => p
  | Throw _ => JUndefined
  end.

(** The values of [components] on which lines 196 to 213 do not throw:
    those that are falsy, the strings and objects with no positive length
    (the length of an object being convertible), and the arrays whose
    items are neither null nor undefined. *)
Definition mappable (components : value) : bool :=
  match components with
  | JArr items => negb (existsb nullish items)
  | JStr s => match s with [] => true | _ => false end
  | JObj fields =>
      convertible (lookup fields (str "length"))
      && negb (greater_than_zero (primitive (lookup fields (str "length"))))
  | _ => true
  end.

(** The payloads on which the component builds its receipt. *)
Definition builds (payload : value) : bool :=
  match payload with
  | JUndefined | JNull => false
  | JObj fields =>
      negb (is_null (lookup fields (str "problem")))
      && negb (is_null (lookup fields (str "advisory")))
      && mappable (with_default (lookup fields (str "components")) (JArr []))
      && convertible (lookup fields (str "generated_at"))
  | _ => true
  end.

(** The property of this name of a value that is neither null nor
    undefined: the property of an object, nothing on anything else. *)
Definition prop_of (v : value) (name : string) : value :=
  match v with
  | JObj fields => lookup fields (str name)
  | _ => JUndefined
  end.

(** The properties of these names hold neither an array nor an object. *)
Definition flat (names : list string) (v : value) : bool :=
  forallb (fun n => renderable (prop_of v n)) names.

(** The properties the receipt shows of a problem, of an advisory and of
    a component. *)
Definition shown_of_problem : list string :=
  ["problem_name_te"; "problem_name_en"; "category"; "stage_te"; "stage_en"].
Definition shown_of_advisory : list string := ["symptoms_te"; "notes_te"].
Definition shown_of_component : list string :=
  ["component_type"; "component_name_te"; "component_name_en"; "dose_te";
   "application_method_te"; "notes_te"].

(** A payload in which every value the receipt shows is a string, a
    number, a boolean, null or absent. *)
Definition flat_payload (payload : value) : bool :=
  flat shown_of_problem (with_default (prop_of payload "problem") (JObj []))
  && flat shown_of_advisory (with_default (prop_of payload "advisory") (JObj []))
  && match with_default (prop_of payload "components") (JArr []) with
     | JArr items => forallb (flat shown_of_component) items
     | _ => true
     end
  && renderable (prop_of payload "receipt_id").

(** The exception of a property read on null or undefined, or of a call
    of what is no function. *)
Definition is_type_error (e : exn) : Prop := exists detail, e = TypeError detail.

(** The boxes of components and the headings "Treatment" of a document. *)
Definition count_blocks (screen : list node) : nat :=
  List.length (filter is_component_block (flat_map elements screen)).

Definition count_treatment_headings (screen : list node) : nat :=
  List.length (filter is_treatment_heading (flat_map elements screen)).

End ReceiptDocument.

(** ** The text of a receipt *)

Section ReceiptText.
Context {P : Platform}.
Local Open Scope string_scope.
Local Open Scope list_scope.

(** The text of a property that is a string; nothing for one that is
    absent. *)
Definition string_of (v : value) : jsstring :=
  match v with
  | JStr s => s
  | _ => []
  end.

(** The text nodes of a string in braces: none for the empty string. *)
Definition words (s : jsstring) : list jsstring :=
  match s with
  | [] => []
  | _ => [s]
  end.

(** The first text that is not empty, else the default. *)
Fixpoint first_text (candidates : list jsstring) (dflt : string) : jsstring :=
  match candidates with
  | [] => str dflt
  | [] :: rest => first_text rest dflt
  | s :: _ => s
  end.

(** A label and its text, when there is a text. *)
Definition line_text (label : string) (s : jsstring) : list jsstring :=
  match s with
  | [] => []
  | _ => [str label; str " "; s]
  end.

(** A heading and its text, when there is a text. *)
Definition section_text (label : string) (s : jsstring) : list jsstring :=
  match s with
  | [] => []
  | _ => [str label; s]
  end.

Definition box_text (c : value) : list jsstring :=
  [ first_text [string_of (prop_of c "component_type")] "-";
    str "Name:"; str " ";
    first_text [ string_of (prop_of c "component_name_te");
                 string_of (prop_of c "component_name_en") ] "-" ]
  ++ line_text "Dose:" (string_of (prop_of c "dose_te"))
  ++ line_text "Method:" (string_of (prop_of c "application_method_te"))
  ++ line_text "Note:" (string_of (prop_of c "notes_te")).

Definition treatment_text (components : value) : list jsstring :=
  match components with
  | JArr (c :: items) => str "Treatment" :: flat_map box_text (c :: items)
  | _ => []
  end.

(** The date of the footer; nothing where the date cannot be built. *)
Definition shown_date (generated_at : value) : jsstring :=
  match date_text generated_at with
  | Ok s => s
  | Throw _ => []
  end.

(** The texts of the receipt of a payload, from the brand to the thanks. *)
Definition receipt_text (payload : value) : list jsstring :=
  let problem := prop_of payload "problem" in
  let advisory := prop_of payload "advisory" in
  [ str "CropSync"; str "Smart Agricultural Solutions";
    str "www.cropsync.in | +91-9182867605";
    first_text [ string_of (prop_of problem "problem_name_te");
                 string_of (prop_of problem "problem_name_en") ] "Advisory";
    str "Category:"; str " "; first_text [string_of (prop_of problem "category")] "-";
    str "Stage:"; str " ";
    first_text [ string_of (prop_of problem "stage_te");
                 string_of (prop_of problem "stage_en") ] "-" ]
  ++ section_text "Symptoms" (string_of (prop_of advisory "symptoms_te"))
  ++ section_text "Advisory" (string_of (prop_of advisory "notes_te"))
  ++ treatment_text (prop_of payload "components")
  ++ str "Receipt ID: " :: words (string_of (prop_of payload "receipt_id"))
  ++ str "Date: " :: words (shown_date (prop_of payload "generated_at"))
  ++ [str "Thank you for using CropSync"].

(** The object without its properties of these names; any other value
    as it is. *)
Definition without (names : list string) (v : value) : value :=
  match v with
  | JObj fields =>
      JObj (filter (fun kv => negb (existsb (fun n => jsstring_eqb (fst kv) (str n)) names))
              fields)
  | _ => v
  end.

(** The five English members that the specification pairs with a Telugu
    member and that stand in an advisory or in a component. *)
Definition unread_of_advisory : list string := ["symptoms_en"; "notes_en"].
Definition unread_of_component : list string :=
  ["dose_en"; "application_method_en"; "notes_en"].

(** A property of the payload without these members: they are taken out
    of [advisory] and out of every item of [components]. *)
Definition english_dropped (kv : jsstring * value) : jsstring * value :=
  if jsstring_eqb (fst kv) (str "advisory")
  then (fst kv, without unread_of_advisory (snd kv))
  else if jsstring_eqb (fst kv) (str "components")
       then (fst kv,
             match snd kv with
             | JArr items => JArr (map (without unread_of_component) items)
             | other => other
             end)
       else kv.

(** The payload without the five members: two payloads with the same
    [without_english] differ in nothing but the values of those members. *)
Definition without_english (payload : value) : value :=
  match payload with
  | JObj fields => JObj (map english_dropped fields)
  | _ => payload
  end.

(** The records of a payload that hold a pair of names: its problem for
    the name of the problem and the stage, each of its components for the
    name of a component. *)
Definition records_of (p : fallback_pair) (payload : value) : list value :=
  match p with
  | ProblemName | Stage => [prop_of payload "problem"]
  | ComponentName =>
      match prop_of payload "components" with
      | JArr items => items
      | _ => []
      end
  end.

(** A value in braces that is a string or shows nothing. *)
Definition plain (v : value) : bool :=
  match v with
  | JUndefined | JNull | JBool _ | JStr _ => true
  | _ => false
  end.

(** A JSX tree whose values in braces are plain. *)
Fixpoint vplain (v : vnode number) : bool :=
  match v with
  | VText _ => true
  | VExpr e => plain e
  | VEl _ _ _ kids => forallb vplain kids
  | VFrag kids => forallb vplain kids
  end.

(** The texts of such a tree. *)
Fixpoint vtexts (v : vnode number) : list jsstring :=
  match v with
  | VText s => [s]
  | VExpr e => words (string_of e)
  | VEl _ _ _ kids => flat_map vtexts kids
  | VFrag kids => flat_map vtexts kids
  end.

End ReceiptText.

(** ** More payloads *)

Section MoreSamples.
Local Open Scope string_scope.
Local Open Scope list_scope.

(** A payload with numbers where the producer is expected to send text. *)
Definition numeric_payload : @value india :=
  JObj [ (str "receipt_id", JNum 1042);
         (str "problem", JObj [ (str "problem_name_en", JStr (str "Leaf Blight"));
                                (str "category", JNum 3) ]);
         (str "components",
          JArr [JObj [ (str "component_type", JStr (str "Fungicide"));
                       (str "dose_te", JNum 5) ]]) ].

(** A payload whose symptoms are the number 0. *)
Definition zero_symptoms_payload : @value india :=
  JObj [(str "advisory", JObj [(str "symptoms_te", JNum 0)])].

Definition zero_symptoms_screen : list node :=
  Eval vm_compute in
    match (v <- @receipt_view india zero_symptoms_payload ;; commit v)%js with
    | Ok s => s
    | Throw _ => []
    end.

(** A payload with two components. *)
Definition two_components : list (@value india) :=
  [ JObj [(str "component_type", JStr (str "Fungicide"))]; JObj [] ].

Definition two_components_payload : @value india :=
  JObj [(str "components", JArr two_components)].

Definition two_components_screen : list node :=
  Eval vm_compute in
    match (v <- @receipt_view india two_components_payload ;; commit v)%js with
    | Ok s => s
    | Throw _ => []
    end.
End MoreSamples.

(** * Properties *)

(** ** The decoder *)

Section DecoderFacts.
Import Char.

Lemma bind_ok {A B} (r : result A) (k : A -> result B) (b : B) :
  bind r k = Ok b -> exists a, r = Ok a /\ k a = Ok b.
Proof. destruct r as [a | e]; simpl; intros H; [eauto | discriminate]. Qed.

Lemma decode_without_percent (s : jsstring) :
  Forall (fun c => c <> percent) s -> Uri.decode None s = Ok s.
Proof.
  induction 1 as [| c rest Hc _ IH]; simpl; [reflexivity |].
  destruct (Z.eqb_spec c percent) as [E | _]; [contradiction |].
  rewrite IH. reflexivity.
Qed.

Lemma replace_all_absent (from to : Z) (s : jsstring) :
  Forall (fun c => c <> from) s -> replace_all from to s = s.
Proof.
  induction 1 as [| c rest Hc _ IH]; simpl; [reflexivity |].
  destruct (Z.eqb_spec c from) as [E | _]; [contradiction |].
  now rewrite IH.
Qed.

Lemma sextets_chars (s : jsstring) (vs : list Z) :
  Base64.sextets s = Some vs -> Forall (fun c => Base64.value_of c <> None) s.
Proof.
  revert vs. induction s as [| c rest IH]; intros vs H; [constructor |].
  simpl in H. destruct (Base64.value_of c) eqn:Ec; [| discriminate].
  destruct (Base64.sextets rest) eqn:Er; [| discriminate].
  constructor; [congruence | eauto].
Qed.

Lemma strip_padding_split (d : jsstring) :
  exists pad, d = Base64.strip_padding d ++ pad /\ Forall (fun c => c = equals) pad.
Proof.
  unfold Base64.strip_padding.
  destruct (Z.of_nat (List.length d) mod 4 =? 0);
    [| exists []; now rewrite app_nil_r].
  destruct (rev d) as [| a [| b r]] eqn:E.
  - exists []. now rewrite app_nil_r.
  - destruct (Z.eqb_spec a equals) as [-> | _].
    + exists [equals]. split; [| repeat constructor].
      rewrite <- (rev_involutive d), E. reflexivity.
    + exists []. now rewrite app_nil_r.
  - destruct (Z.eqb_spec a equals) as [-> | _];
      [| exists []; now rewrite app_nil_r].
    destruct (Z.eqb_spec b equals) as [-> | _].
    + exists [equals; equals]. split; [| repeat constructor].
      rewrite <- (rev_involutive d), E. simpl. now rewrite <- app_assoc.
    + exists [equals]. split; [| repeat constructor].
      rewrite <- (rev_involutive d), E. reflexivity.
Qed.

Lemma atob_ok_chars (s bytes : jsstring) :
  Base64.atob s = Ok bytes -> Forall atob_char s.
Proof.
  unfold Base64.atob, Base64.forgiving_decode. intros H.
  set (d := Base64.remove_whitespace s) in *.
  destruct (Z.of_nat (List.length (Base64.strip_padding d)) mod 4 =? 1); [discriminate |].
  destruct (Base64.sextets (Base64.strip_padding d)) as [vs |] eqn:E; [| discriminate].
  apply sextets_chars in E.
  destruct (strip_padding_split d) as [pad [Hd Hpad]].
  assert (Hall : Forall (fun c => Base64.value_of c <> None \/ c = equals) d).
  { rewrite Hd. apply Forall_app. split.
    - eapply Forall_impl; [| exact E]. intros; now left.
    - eapply Forall_impl; [| exact Hpad]. intros; now right. }
  apply Forall_forall. intros c Hc.
  destruct (is_ascii_whitespace c) eqn:Ew; [right; now left |].
  assert (In c d) as Hin.
  { unfold d, Base64.remove_whitespace. apply filter_In. split; [exact Hc |].
    now rewrite Ew. }
  rewrite Forall_forall in Hall. destruct (Hall c Hin) as [Hv | He].
  - now left.
  - right; now right.
Qed.

Lemma atob_char_plain (c : Z) :
  atob_char c -> c <> percent /\ c <> minus /\ c <> underscore.
Proof.
  unfold atob_char, Base64.value_of, is_ascii_whitespace, is_upper, is_lower, is_digit,
    percent, minus, underscore, equals, plus, slash.
  intros [H | [H | H]].
  - repeat split; intros ->; simpl in H; congruence.
  - repeat split; intros ->; simpl in H; congruence.
  - lia.
Qed.

(** The second atob of [decodeBase64UrlSafe] never succeeds: when atob
    accepts the raw argument, the first attempt has read the very same
    characters and has not thrown. *)
Lemma raw_atob_fails_after_throw (s : jsstring) (e : exn) :
  (decoded <- Uri.decodeURIComponent s ;;
   Base64.atob (replace_all underscore slash (replace_all minus plus decoded)))%js
    = Throw e ->
  exists e2, Base64.atob s = Throw e2.
Proof.
  intros H. destruct (Base64.atob s) as [bytes | e2] eqn:Ea; [| eauto].
  exfalso. pose proof (atob_ok_chars _ _ Ea) as Hc.
  assert (Forall (fun c => c <> percent) s /\ Forall (fun c => c <> minus) s
          /\ Forall (fun c => c <> underscore) s) as [Hp [Hm Hu]].
  { repeat split; eapply Forall_impl; try exact Hc; intros c Hac;
      apply atob_char_plain in Hac; tauto. }
  unfold Uri.decodeURIComponent in H. rewrite (decode_without_percent _ Hp) in H.
  simpl in H. rewrite (replace_all_absent _ _ _ Hm), (replace_all_absent _ _ _ Hu) in H.
  congruence.
Qed.

(** [decodeBase64UrlSafe] is its three steps in a row: percent-decode,
    alphabet, atob; an exception of a step is the exception it throws. *)
Lemma decodeBase64UrlSafe_steps (s : jsstring) :
  decodeBase64UrlSafe s =
  (decoded <- Uri.decodeURIComponent s ;;
   Base64.atob (replace_all underscore slash (replace_all minus plus decoded)))%js.
Proof.
  unfold decodeBase64UrlSafe, try_catch.
  destruct (decoded <- Uri.decodeURIComponent s ;;
            Base64.atob (replace_all underscore slash (replace_all minus plus decoded)))%js
    as [text | e] eqn:E; [reflexivity |].
  destruct (raw_atob_fails_after_throw _ _ E) as [e2 ->]. reflexivity.
Qed.
End DecoderFacts.

(** ** The two effects and the three views *)

Section ComponentFacts.
Context {P : Platform}.
Variable env : Env.
Local Open Scope string_scope.
Local Open Scope list_scope.

(** The two [replace] calls of the page are the change of alphabet of the
    specification. *)
Lemma replace_all_standard (decoded : jsstring) :
  replace_all Char.underscore Char.slash (replace_all Char.minus Char.plus decoded)
  = map standard_char decoded.
Proof.
  unfold replace_all. rewrite map_map. apply map_ext. intros c.
  unfold standard_char, Char.underscore, Char.slash, Char.minus, Char.plus.
  destruct (Z.eqb_spec c 45) as [-> | H45]; [reflexivity |].
  reflexivity.
Qed.

(** What the page computes on the value of the parameter is the four steps
    of the specification. *)
Lemma decode_steps_eq (raw : jsstring) :
  (jsonStr <- decodeBase64UrlSafe raw ;; JSON_parse jsonStr)%js = decode_steps raw.
Proof.
  rewrite decodeBase64UrlSafe_steps. unfold decode_steps.
  destruct (Uri.decodeURIComponent raw) as [decoded | e]; [| reflexivity].
  cbn [bind]. now rewrite replace_all_standard.
Qed.

Lemma page_load_error (search msg : jsstring) :
  msg <> [] ->
  decode_effect search initial_state = {| payload := JNull; error := Some msg |} ->
  page_load env search =
    {| page_state := {| payload := JNull; error := Some msg |};
       page_screen := Ok (error_screen msg);
       page_exports := [] |}.
Proof.
  intros Hmsg Hst. unfold page_load. rewrite Hst.
  destruct msg as [| c msg]; [congruence |]. reflexivity.
Qed.

Lemma page_load_falsy (search : jsstring) (v : value) :
  truthy v = false ->
  decode_effect search initial_state = {| payload := v; error := None |} ->
  page_load env search =
    {| page_state := {| payload := v; error := None |};
       page_screen := Ok preparing_screen;
       page_exports := [] |}.
Proof.
  intros Hv Hst. unfold page_load. rewrite Hst.
  unfold AutoPrintReceipt, export_effect. simpl. rewrite Hv. simpl.
  destruct (payload_changed _); reflexivity.
Qed.

(** C2.  A query string without a [data] parameter: the state holds the
    error "No data parameter found in URL.", the payload stays null, the
    screen is the error view and [generateAndPrint] is never run. *)
Theorem missing_data_error_view (search : jsstring) :
  Uri.get (Uri.URLSearchParams search) (str "data") = None ->
  page_load env search =
    {| page_state := {| payload := JNull;
                        error := Some (str "No data parameter found in URL.") |};
       page_screen := Ok (error_screen (str "No data parameter found in URL."));
       page_exports := [] |}.
Proof.
  intros H. apply page_load_error; [discriminate |].
  unfold decode_effect. rewrite H. reflexivity.
Qed.

(** C3.  On the [data] parameter the page computes the four steps of the
    specification, in their order: percent-decoding, the translation of
    [-] to [+] and of [_] to [/], atob and JSON.parse ([decode_steps],
    which shares nothing with the decoder of the page).  When the four
    succeed their value is the payload; when one of them throws, the state
    holds the message of that exception, the payload stays null, the screen
    is the error view and [generateAndPrint] is never run. *)
Theorem decode_steps_or_error (search raw : jsstring) :
  Uri.get (Uri.URLSearchParams search) (str "data") = Some raw ->
  raw <> [] ->
  match decode_steps raw with
  | Ok v => page_state (page_load env search) = {| payload := v; error := None |}
  | Throw e =>
      page_load env search =
        {| page_state :=
             {| payload := JNull;
                error := Some (str "Failed to parse data payload: " ++ message e) |};
           page_screen :=
             Ok (error_screen (str "Failed to parse data payload: " ++ message e));
           page_exports := [] |}
  end.
Proof.
  intros Hget Hraw.
  assert (Hst : decode_effect search initial_state =
                match decode_steps raw with
                | Ok v => {| payload := v; error := None |}
                | Throw e =>
                    {| payload := JNull;
                       error := Some (str "Failed to parse data payload: " ++ message e) |}
                end).
  { unfold decode_effect. rewrite Hget.
    destruct raw as [| c raw]; [congruence |].
    rewrite decode_steps_eq. destruct (decode_steps (c :: raw)); reflexivity. }
  destruct (decode_steps raw) as [v | e].
  - unfold page_load. rewrite Hst.
    destruct (v0 <- AutoPrintReceipt _ ;; commit v0)%js; [| reflexivity].
    reflexivity.
  - apply page_load_error; [discriminate | exact Hst].
Qed.

(** C9.  A [data] parameter that decodes and parses to a falsy value:
    that value is the payload, no error is set, the screen is the waiting
    view "Preparing receipt..." and [generateAndPrint] is never run. *)
Theorem falsy_payload_keeps_waiting (search raw : jsstring) (v : value) :
  Uri.get (Uri.URLSearchParams search) (str "data") = Some raw ->
  raw <> [] ->
  decode_steps raw = Ok v ->
  truthy v = false ->
  page_load env search =
    {| page_state := {| payload := v; error := None |};
       page_screen := Ok preparing_screen;
       page_exports := [] |}.
Proof.
  intros Hget Hraw Hv Hfalsy. apply page_load_falsy; [exact Hfalsy |].
  unfold decode_effect. rewrite Hget.
  destruct raw as [| c raw]; [congruence |].
  rewrite decode_steps_eq, Hv. reflexivity.
Qed.
End ComponentFacts.

(** A query string with two parameters, none of them [data]. *)
Lemma missing_data_error_view_witness :
  Uri.get (Uri.URLSearchParams (str "?id=42&lang=te")) (str "data") = None /\
  @page_load india friendly_env (str "?id=42&lang=te") =
    {| page_state := {| payload := JNull;
                        error := Some (str "No data parameter found in URL.") |};
       page_screen := Ok (error_screen (str "No data parameter found in URL."));
       page_exports := [] |}.
Proof.
  split; [vm_compute; reflexivity |].
  apply (@missing_data_error_view india friendly_env (str "?id=42&lang=te")).
  vm_compute. reflexivity.
Defined.

(** [?data=eyJ0IjoiPDw_Pz8-PiJ9]: the URL-safe Base64 of the JSON text
    [{"t":"<<???>>"}], whose standard Base64 [eyJ0IjoiPDw/Pz8+PiJ9] has a
    [/] and a [+]; the translation of both is needed to read it. *)
Lemma decode_steps_or_error_witness :
  Uri.get (Uri.URLSearchParams (str "?data=eyJ0IjoiPDw_Pz8-PiJ9")) (str "data")
  = Some (str "eyJ0IjoiPDw_Pz8-PiJ9")
  /\ str "eyJ0IjoiPDw_Pz8-PiJ9" <> []
  /\ map standard_char (str "eyJ0IjoiPDw_Pz8-PiJ9") = str "eyJ0IjoiPDw/Pz8+PiJ9"
  /\ @decode_steps india (str "eyJ0IjoiPDw_Pz8-PiJ9")
     = Ok (JObj [(str "t", JStr (str "<<???>>"))])
  /\ page_state (@page_load india friendly_env (str "?data=eyJ0IjoiPDw_Pz8-PiJ9"))
     = @Build_state india (JObj [(str "t", JStr (str "<<???>>"))]) None.
Proof.
  assert (Hget : Uri.get (Uri.URLSearchParams (str "?data=eyJ0IjoiPDw_Pz8-PiJ9"))
                   (str "data")
                 = Some (str "eyJ0IjoiPDw_Pz8-PiJ9")) by (vm_compute; reflexivity).
  assert (Hsteps : @decode_steps india (str "eyJ0IjoiPDw_Pz8-PiJ9")
                   = Ok (JObj [(str "t", JStr (str "<<???>>"))]))
    by (vm_compute; reflexivity).
  split; [exact Hget |]. split; [discriminate |].
  split; [vm_compute; reflexivity |]. split; [exact Hsteps |].
  pose proof (@decode_steps_or_error india friendly_env
                (str "?data=eyJ0IjoiPDw_Pz8-PiJ9") (str "eyJ0IjoiPDw_Pz8-PiJ9")
                Hget ltac:(discriminate)) as H.
  rewrite Hsteps in H. exact H.
Defined.

(** Without the translation atob refuses that parameter. *)
Example untranslated_parameter_refused :
  Base64.atob (str "eyJ0IjoiPDw_Pz8-PiJ9") = Throw InvalidCharacterError.
Proof. vm_compute. reflexivity. Qed.

(** [?data=%25zz]: the parameter reads [%zz], which decodeURIComponent
    refuses. *)
Example malformed_escape_error_view :
  let pg := @page_load india friendly_env (str "?data=%25zz") in
  Uri.get (Uri.URLSearchParams (str "?data=%25zz")) (str "data") = Some (str "%zz")
  /\ error (page_state pg) = Some (str "Failed to parse data payload: URI malformed")
  /\ page_screen pg
     = Ok (error_screen (str "Failed to parse data payload: URI malformed"))
  /\ page_exports pg = [].
Proof. vm_compute. repeat split; reflexivity. Qed.

(** Base64 that atob refuses, and text that JSON.parse refuses. *)
Example atob_failure_error_view :
  page_screen (@page_load india friendly_env (str "?data=e30*")) =
    Ok (error_screen
          (str "Failed to parse data payload: Failed to execute 'atob' on 'Window': The string to be decoded is not correctly encoded.")).
Proof. vm_compute. reflexivity. Qed.

Example json_failure_error_view :
  let pg := @page_load india friendly_env (search_of (str "{oops")) in
  page_screen pg =
    Ok (error_screen
          (str "Failed to parse data payload: Expected double-quoted property name in JSON"))
  /\ page_exports pg = [].
Proof. vm_compute. split; reflexivity. Qed.

(** The payload [0]. *)
Lemma falsy_payload_keeps_waiting_witness :
  Uri.get (Uri.URLSearchParams (search_of (str "0"))) (str "data") = Some (str "MA==") /\
  str "MA==" <> [] /\
  @decode_steps india (str "MA==") = Ok (JNum 0) /\
  @truthy india (JNum 0) = false /\
  @page_load india friendly_env (search_of (str "0")) =
    {| page_state := @Build_state india (JNum 0) None;
       page_screen := Ok preparing_screen;
       page_exports := [] |}.
Proof.
  split; [vm_compute; reflexivity |]. split; [discriminate |].
  split; [vm_compute; reflexivity |]. split; [reflexivity |].
  apply (@falsy_payload_keeps_waiting india friendly_env (search_of (str "0")) (str "MA==")).
  - vm_compute. reflexivity.
  - discriminate.
  - vm_compute. reflexivity.
  - reflexivity.
Defined.

(** The other falsy values of JSON: null, false and the empty string. *)
Example falsy_payloads_wait :
  Forall (fun text =>
            let pg := @page_load india friendly_env (search_of text) in
            error (page_state pg) = None /\ page_screen pg = Ok preparing_screen
            /\ page_exports pg = [])
         [str "null"; str "false"; [34; 34]; str "0"; str "-0"].
Proof. repeat constructor. Qed.

(** ** The export *)

Section ExportFacts.
Context {P : Platform}.
Variable env : Env.
Local Open Scope string_scope.

(** The document [generateAndPrint] builds from a picture: one page of 80
    by 120, in millimetres, the picture at the origin over the whole page,
    marked for printing. *)
Lemma build_pdf_eq (img : jsstring) :
  build_pdf img =
    {| Pdf.doc_unit := "mm";
       Pdf.doc_pages :=
         [{| Pdf.page_width := 80; Pdf.page_height := 120;
             Pdf.page_images :=
               [{| Pdf.image_data := img; Pdf.image_format := "PNG";
                   Pdf.image_x := 0; Pdf.image_y := 0;
                   Pdf.image_width := 80; Pdf.image_height := 120 |}] |}];
       Pdf.doc_auto_print := true |}.
Proof. reflexivity. Qed.

(** C5.  Whatever element is rasterised and whatever picture comes back,
    the document that [generateAndPrint] opens for printing has one page,
    80 by 120 mm, with the picture at (0, 0) over 80 by 120 mm. *)
Theorem exported_document_80_by_120 (target : node) (img : jsstring) :
  html2canvas env target = Ok img ->
  exists doc,
    In (WindowOpen (blob_url env doc) "_blank") (generateAndPrint env target)
    /\ Pdf.doc_unit doc = "mm"
    /\ Pdf.doc_pages doc =
         [{| Pdf.page_width := 80; Pdf.page_height := 120;
             Pdf.page_images :=
               [{| Pdf.image_data := img; Pdf.image_format := "PNG";
                   Pdf.image_x := 0; Pdf.image_y := 0;
                   Pdf.image_width := 80; Pdf.image_height := 120 |}] |}].
Proof.
  intros H. exists (build_pdf img). split; [| split; reflexivity].
  unfold generateAndPrint. rewrite H. right; right; left. reflexivity.
Qed.

(** When the popup of the document and the blank popup are both blocked,
    the run ends with the alert. *)
Lemma both_popups_blocked_alert (target : node) (img : jsstring) :
  html2canvas env target = Ok img ->
  open_document env = None ->
  open_blank env = None ->
  generateAndPrint env target =
    [ Sleep 300; Rasterize target 2 true true false;
      WindowOpen (blob_url env (build_pdf img)) "_blank";
      WindowOpen [] "_blank";
      Alert (str "Popup blocked and fallback failed. Please allow popups.") ].
Proof.
  intros H Hd Hb. unfold generateAndPrint. rewrite H, Hd, Hb. reflexivity.
Qed.

(** Had [pdf.output] passed the blob to the function it is given, the
    fallback would write the iframe with the data URL, close the document
    and print after 800 ms. *)
Lemma after_blob_resolved (blob : Pdf.document) (fallback : window) :
  print_throws env fallback = false ->
  after_blob env [blob] fallback =
    [ ReadAsDataURL blob
        [ DocumentWrite fallback
            (str "<iframe src=" ++ [34] ++ data_url env blob ++ [34]
               ++ str " style=" ++ [34] ++ str "width:100%;height:100%;border:none;" ++ [34]
               ++ str "></iframe>")%list;
          DocumentClose fallback;
          SetTimeout 800
            [Focus fallback; Print fallback; SetTimeout 1500 [Close fallback]] ] ].
Proof.
  intros H. unfold after_blob, inject_and_print, focus_print. now rewrite H.
Qed.

(** C6.  When the popup of the document is blocked and the blank popup
    opens, the run stops at the await of line 113: [pdf.output] does not
    call the function it is given, so nothing is written into the blank
    window, nothing is printed and no alert is shown. *)
Theorem blocked_popup_fallback_stalls (target : node) (img : jsstring) (fallback : window) :
  html2canvas env target = Ok img ->
  open_document env = None ->
  open_blank env = Some fallback ->
  generateAndPrint env target =
    [ Sleep 300; Rasterize target 2 true true false;
      WindowOpen (blob_url env (build_pdf img)) "_blank";
      WindowOpen [] "_blank";
      Pending ].
Proof.
  intros H Hd Hb. unfold generateAndPrint. rewrite H, Hd, Hb. reflexivity.
Qed.
End ExportFacts.

Lemma exported_document_80_by_120_witness :
  html2canvas friendly_env (Txt []) = Ok (str "data:image/png;base64,iVBORw0KGgo=") /\
  exists doc,
    In (WindowOpen (blob_url friendly_env doc) "_blank")
       (@generateAndPrint india friendly_env (Txt []))
    /\ Pdf.doc_unit doc = "mm"%string
    /\ Pdf.doc_pages doc =
         [{| Pdf.page_width := 80; Pdf.page_height := 120;
             Pdf.page_images :=
               [{| Pdf.image_data := str "data:image/png;base64,iVBORw0KGgo=";
                   Pdf.image_format := "PNG";
                   Pdf.image_x := 0; Pdf.image_y := 0;
                   Pdf.image_width := 80; Pdf.image_height := 120 |}] |}].
Proof.
  split; [reflexivity |].
  apply (@exported_document_80_by_120 india friendly_env (Txt [])
           (str "data:image/png;base64,iVBORw0KGgo=")).
  reflexivity.
Defined.

Lemma blocked_popup_fallback_stalls_witness :
  @generateAndPrint india popup_blocked_env (Txt []) =
    [ Sleep 300; Rasterize (Txt []) 2 true true false;
      WindowOpen (str "blob:https://receipts.cropsync.in/1") "_blank";
      WindowOpen [] "_blank";
      Pending ].
Proof.
  apply (@blocked_popup_fallback_stalls india popup_blocked_env (Txt [])
           (str "data:image/png;base64,iVBORw0KGgo=") (Opened 2));
    reflexivity.
Defined.

(** ** The receipt *)

Section RenderFacts.
Context {P : Platform}.
Local Open Scope string_scope.
Local Open Scope list_scope.

Lemma commit_frag_cons (x : vnode number) (rest : list (vnode number)) :
  commit (VFrag (x :: rest)) =
  (a <- commit x ;; b <- commit (VFrag rest) ;; Ok (a ++ b))%js.
Proof. reflexivity. Qed.

Lemma commit_el (tag : string) (props : list (string * string)) (css : style)
  (kids : list (vnode number)) :
  commit (VEl tag props css kids) =
  (ks <- commit (VFrag kids) ;; Ok [El tag props css ks])%js.
Proof. reflexivity. Qed.

Lemma commit_frag_app (l1 l2 : list (vnode number)) :
  commit (VFrag (l1 ++ l2)) =
  (a <- commit (VFrag l1) ;; b <- commit (VFrag l2) ;; Ok (a ++ b))%js.
Proof.
  induction l1 as [| x l1 IH].
  - cbn [app]. change (commit (VFrag [])) with (@Ok (list node) []).
    cbn [bind]. destruct (commit (VFrag l2)); reflexivity.
  - cbn [app]. rewrite !commit_frag_cons, IH.
    destruct (commit x); cbn [bind]; [| reflexivity].
    destruct (commit (VFrag l1)); cbn [bind]; [| reflexivity].
    destruct (commit (VFrag l2)); cbn [bind]; [| reflexivity].
    now rewrite app_assoc.
Qed.

Lemma render_child_arr_cons (x : value) (rest : list value) :
  render_child (JArr (x :: rest)) =
  (a <- render_child x ;; b <- render_child (JArr rest) ;; Ok (a ++ b))%js.
Proof. reflexivity. Qed.

(** A value in braces only ever gives text. *)
Lemma render_child_texts (v : value) :
  forall l, render_child v = Ok l -> Forall is_text l.
Proof.
  induction v as [| | b | n | s | items IH | fields _] using jsval_deep_ind;
    intros l H.
  - injection H as <-. constructor.
  - injection H as <-. constructor.
  - injection H as <-. constructor.
  - injection H as <-. repeat constructor. now exists (Number_toString n).
  - destruct s; injection H as <-; repeat constructor. now eexists.
  - revert l H. induction IH as [| x rest Hx _ IHrest]; intros l H.
    + injection H as <-. constructor.
    + rewrite render_child_arr_cons in H.
      apply bind_ok in H as [a [Ha H]]. apply bind_ok in H as [b [Hb H]].
      injection H as <-. apply Forall_app. split; [eauto | eauto].
  - discriminate.
Qed.

Lemma texts_have_no_treatment (l : list node) :
  Forall is_text l -> forallb no_treatment_section l = true.
Proof.
  induction 1 as [| n rest [s ->] _ IH]; [reflexivity |]. simpl. exact IH.
Qed.

Lemma no_treatment_el (tag : string) (props : list (string * string)) (css : style)
  (ks : list node) :
  no_treatment_section (El tag props css ks) =
  not_treatment (El tag props css ks) && forallb no_treatment_section ks.
Proof.
  unfold no_treatment_section at 1. simpl. f_equal.
  induction ks as [| k ks IH]; [reflexivity |].
  simpl. rewrite forallb_app, IH. reflexivity.
Qed.

Lemma commit_clean (v : vnode number) :
  forall l, vclean v = true -> commit v = Ok l -> forallb no_treatment_section l = true.
Proof.
  assert (Hkids : forall kids,
             Forall (fun v => forall l, vclean v = true -> commit v = Ok l ->
                                        forallb no_treatment_section l = true) kids ->
             forall ks, forallb vclean kids = true -> commit (VFrag kids) = Ok ks ->
                        forallb no_treatment_section ks = true).
  { induction 1 as [| x rest Hx _ IH]; intros ks Hc H.
    - injection H as <-. reflexivity.
    - rewrite commit_frag_cons in H. simpl in Hc.
      apply andb_prop in Hc as [Hcx Hcr].
      apply bind_ok in H as [a [Ha H]]. apply bind_ok in H as [b [Hb H]].
      injection H as <-. rewrite forallb_app, (Hx _ Hcx Ha), (IH _ Hcr Hb). reflexivity. }
  induction v as [s | e | tag props css kids IH | kids IH] using vnode_forall_ind;
    intros l Hc H.
  - injection H as <-. reflexivity.
  - apply texts_have_no_treatment. eapply render_child_texts. exact H.
  - rewrite commit_el in H. apply bind_ok in H as [ks [Hks H]]. injection H as <-.
    simpl in Hc. apply andb_prop in Hc as [Hc Hck]. apply andb_prop in Hc as [Hblock Hhead].
    simpl. rewrite no_treatment_el, (Hkids _ IH _ Hck Hks), !andb_true_r.
    unfold not_treatment. apply andb_true_intro. split.
    + apply orb_prop in Hhead as [Hh | Hh].
      * unfold is_treatment_heading.
        destruct ks as [| [s |] [|]]; try reflexivity.
        apply negb_true_iff in Hh. now rewrite Hh.
      * destruct kids as [| [s | | |] [|]]; try discriminate.
        change (commit (VFrag [VText s])) with (@Ok (list node) [Txt s]) in Hks.
        injection Hks as <-. unfold is_treatment_heading.
        apply negb_true_iff in Hh. rewrite Hh. now rewrite andb_false_r.
    + unfold is_component_block. exact Hblock.
  - apply (Hkids _ IH _ Hc H).
Qed.
End RenderFacts.

Ltac invert_binds :=
  repeat match goal with
         | H : bind _ _ = Ok _ |- _ =>
             let a := fresh "a" in
             let E := fresh "E" in
             apply bind_ok in H as [a [E H]]
         | H : Ok _ = Ok _ |- _ => injection H as H; try subst
         end.

Section ReceiptFacts.
Context {P : Platform}.
Local Open Scope string_scope.
Local Open Scope list_scope.

(** The receipt view, whenever the component returns one: the seven parts
    of the container in their order, then the note. *)
Lemma receipt_view_shape (payload : value) (v : vnode number) :
  receipt_view payload = Ok v ->
  exists problem advisory components receipt_id generated_at t c s sy no tr fo,
    get_prop payload "problem" = Ok problem
    /\ get_prop payload "advisory" = Ok advisory
    /\ get_prop payload "components" = Ok components
    /\ get_prop payload "receipt_id" = Ok receipt_id
    /\ get_prop payload "generated_at" = Ok generated_at
    /\ title_value (with_default problem (JObj [])) = Ok t
    /\ category_value (with_default problem (JObj [])) = Ok c
    /\ stage_value (with_default problem (JObj [])) = Ok s
    /\ get_prop (with_default advisory (JObj [])) "symptoms_te" = Ok sy
    /\ get_prop (with_default advisory (JObj [])) "notes_te" = Ok no
    /\ treatment (with_default components (JArr [])) = Ok tr
    /\ footer receipt_id generated_at = Ok fo
    /\ v = VEl "div" [] [("padding", "12")]
             [ VEl "div" [("ref", "containerRef")] container_style
                 [ header;
                   VEl "div" [] title_style [VExpr t];
                   VEl "div" [] [("marginTop", "6"); ("fontSize", "9")]
                     [labelled_line "Category:" [] c; labelled_line "Stage:" [] s];
                   text_section "Symptoms" sy;
                   text_section "Advisory" no;
                   tr;
                   fo ];
               popup_note ].
Proof.
  unfold receipt_view, container, title, meta, symptoms, advisory_notes.
  intros H. invert_binds.
  repeat eexists; eauto.
Qed.

Lemma vclean_text_section (label : string) (text : value) :
  label <> "Treatment" -> vclean (text_section label text) = true.
Proof.
  intros Hl. unfold text_section. destruct (truthy text); [| reflexivity].
  simpl. rewrite !andb_true_r.
  destruct (jsstring_eqb (str label) (str "Treatment")) eqn:E; [| reflexivity].
  exfalso. apply Hl. unfold jsstring_eqb in E.
  destruct (list_eq_dec Z.eq_dec (str label) (str "Treatment")) as [Heq | _];
    [| discriminate].
  unfold str in Heq.
  assert (Hinj : forall a b : list ascii,
             map (fun a => Z.of_N (N_of_ascii a)) a = map (fun a => Z.of_N (N_of_ascii a)) b ->
             a = b).
  { induction a as [| x a IH]; destruct b as [| y b]; simpl; intros Hab;
      try discriminate; [reflexivity |].
    injection Hab as Hxy Hrest. f_equal; [| now apply IH].
    apply N2Z.inj in Hxy. rewrite <- (ascii_N_embedding x), <- (ascii_N_embedding y).
    now rewrite Hxy. }
  apply Hinj in Heq.
  rewrite <- (string_of_list_ascii_of_string label), Heq. reflexivity.
Qed.

(** The footer, whenever it is built: the date had a text. *)
Lemma footer_shape (receipt_id generated_at : value) (fo : vnode number) :
  footer receipt_id generated_at = Ok fo ->
  exists date,
    date_text generated_at = Ok date
    /\ fo = VEl "div" [] footer_style
              [ VEl "div" [] [] [VText (str "Receipt ID: "); VExpr receipt_id];
                VEl "div" [] [] [VText (str "Date: "); VExpr (JStr date)];
                VEl "div" [] [] [VText (str "Thank you for using CropSync")] ].
Proof.
  unfold footer. intros H. apply bind_ok in H as [date [Hd H]].
  injection H as <-. exists date. split; [exact Hd | reflexivity].
Qed.

(** The treatment of a payload that has no component. *)
Lemma treatment_none (components : value) :
  components = JUndefined \/ components = JArr [] ->
  treatment (with_default components (JArr [])) = Ok (VExpr (JBool false)).
Proof. intros [-> | ->]; reflexivity. Qed.

(** C8.  A payload whose [components] is absent or an empty array: the
    receipt it renders holds neither the heading "Treatment" nor the box of
    a component. *)
Theorem no_components_no_treatment_section (payload : value) (screen : list node) :
  get_prop payload "components" = Ok JUndefined
  \/ get_prop payload "components" = Ok (JArr []) ->
  (v <- receipt_view payload ;; commit v)%js = Ok screen ->
  forallb no_treatment_section screen = true.
Proof.
  intros Hc H. apply bind_ok in H as [v [Hv H]].
  apply (commit_clean v); [| exact H].
  destruct (receipt_view_shape _ _ Hv)
    as (problem & advisory & components & rid & gat & t & c & s & sy & no & tr & fo
        & _ & _ & Hcomp & _ & _ & _ & _ & _ & _ & _ & Htr & Hfo & ->).
  assert (Hnone : components = JUndefined \/ components = JArr []).
  { destruct Hc as [Hc | Hc]; rewrite Hc in Hcomp; injection Hcomp as <-; auto. }
  rewrite (treatment_none _ Hnone) in Htr. injection Htr as <-.
  destruct (footer_shape _ _ _ Hfo) as (date & _ & ->).
  cbn [vclean forallb]. rewrite !vclean_text_section by discriminate.
  reflexivity.
Qed.
End ReceiptFacts.

Lemma no_components_no_treatment_section_witness :
  (@get_prop india bare_payload "components" = Ok JUndefined
   \/ @get_prop india bare_payload "components" = Ok (JArr []))
  /\ (v <- @receipt_view india bare_payload ;; commit v)%js = Ok bare_screen
  /\ forallb no_treatment_section bare_screen = true.
Proof.
  split; [left; reflexivity |]. split; [vm_compute; reflexivity |].
  apply (@no_components_no_treatment_section india bare_payload bare_screen).
  - left. reflexivity.
  - vm_compute. reflexivity.
Defined.

(** A payload with two components does have the section. *)
Example two_components_have_a_section :
  match (v <- @receipt_view india
                (JObj [(str "components",
                        JArr [JObj [(str "component_type", JStr (str "Fungicide"))];
                              JObj []])]) ;;
         commit v)%js with
  | Ok screen =>
      List.length (filter is_treatment_heading (flat_map elements screen)) = 1%nat
      /\ List.length (filter is_component_block (flat_map elements screen)) = 2%nat
  | Throw _ => False
  end.
Proof. vm_compute. split; reflexivity. Qed.

(** ** The example of the spec *)

Section ExampleFacts.
Local Open Scope string_scope.
Local Open Scope list_scope.

Lemma title_chain {P : Platform} (fields : list (jsstring * value)) :
  title_value (JObj fields) =
    Ok (if truthy (lookup fields (str "problem_name_te"))
        then lookup fields (str "problem_name_te")
        else if truthy (lookup fields (str "problem_name_en"))
             then lookup fields (str "problem_name_en")
             else JStr (str "Advisory")).
Proof.
  unfold title_value, or_else. cbn [get_prop bind].
  destruct (truthy (lookup fields (str "problem_name_te"))); [reflexivity |].
  cbn [bind]. destruct (truthy (lookup fields (str "problem_name_en"))); reflexivity.
Qed.


End ExampleFacts.

(** The same instant on a device eight hours west of UTC is shown on the
    day before. *)
Example example_date_west_of_utc :
  @date_text (reference_platform (-480)) (JStr (str "2024-01-01T00:00:00Z"))
  = Ok (str "31/12/2023, 4:00:00 pm").
Proof. vm_compute. reflexivity. Qed.

(** ** Payloads of the expected shape never fault *)

Section SchemaFacts.
Context {P : Platform}.
Local Open Scope string_scope.
Local Open Scope list_scope.

Lemma commit_total (v : vnode number) :
  vsafe v = true -> exists l, commit v = Ok l.
Proof.
  assert (Hkids : forall kids,
             Forall (fun v => vsafe v = true -> exists l, commit v = Ok l) kids ->
             forallb vsafe kids = true -> exists ks, commit (VFrag kids) = Ok ks).
  { induction 1 as [| x rest Hx _ IH]; intros Hs.
    - now exists [].
    - simpl in Hs. apply andb_prop in Hs as [Hsx Hsr].
      destruct (Hx Hsx) as [a Ha]. destruct (IH Hsr) as [b Hb].
      exists (a ++ b). rewrite commit_frag_cons, Ha, Hb. reflexivity. }
  induction v as [s | e | tag props css kids IH | kids IH] using vnode_forall_ind;
    intros Hs.
  - now eexists.
  - destruct e as [| | b | n | s | |]; try discriminate; try (now eexists).
    destruct s; now eexists.
  - destruct (Hkids _ IH Hs) as [ks Hks].
    exists [El tag props css ks]. rewrite commit_el, Hks. reflexivity.
  - exact (Hkids _ IH Hs).
Qed.

Lemma string_record_lookup (names : list string) (fields : list (jsstring * value))
  (n : string) :
  string_record names (JObj fields) = true -> In n names ->
  optional_string (lookup fields (str n)) = true.
Proof.
  intros H Hin. simpl in H. rewrite forallb_forall in H. now apply H.
Qed.

Lemma optional_string_truthy (v : value) :
  optional_string v = true -> truthy v = true -> exists s, v = JStr s /\ s <> [].
Proof.
  destruct v; try discriminate. intros _ H. exists s. split; [reflexivity |].
  destruct s; [discriminate | discriminate].
Qed.

Lemma stage_chain (fields : list (jsstring * value)) :
  stage_value (JObj fields) =
    Ok (if truthy (lookup fields (str "stage_te")) then lookup fields (str "stage_te")
        else if truthy (lookup fields (str "stage_en")) then lookup fields (str "stage_en")
             else JStr (str "-")).
Proof.
  unfold stage_value, or_else. cbn [get_prop bind].
  destruct (truthy (lookup fields (str "stage_te"))); [reflexivity |].
  cbn [bind]. destruct (truthy (lookup fields (str "stage_en"))); reflexivity.
Qed.

Lemma component_name_chain (fields : list (jsstring * value)) :
  component_name_value (JObj fields) =
    Ok (if truthy (lookup fields (str "component_name_te"))
        then lookup fields (str "component_name_te")
        else if truthy (lookup fields (str "component_name_en"))
             then lookup fields (str "component_name_en")
             else JStr (str "-")).
Proof.
  unfold component_name_value, or_else. cbn [get_prop bind].
  destruct (truthy (lookup fields (str "component_name_te"))); [reflexivity |].
  cbn [bind]. destruct (truthy (lookup fields (str "component_name_en"))); reflexivity.
Qed.

Lemma category_chain (fields : list (jsstring * value)) :
  category_value (JObj fields) =
    Ok (if truthy (lookup fields (str "category")) then lookup fields (str "category")
        else JStr (str "-")).
Proof.
  unfold category_value, or_else. cbn [get_prop bind].
  destruct (truthy (lookup fields (str "category"))); reflexivity.
Qed.




Lemma component_block_eq (fields : list (jsstring * value)) :
  component_block (JObj fields) =
    Ok (VEl "div" [] block_style
          [ VEl "div" [] [("fontWeight", "700")]
              [VExpr (if truthy (lookup fields (str "component_type"))
                      then lookup fields (str "component_type")
                      else JStr (str "-"))];
            labelled_line "Name:" [("fontFamily", "'Noto Sans Telugu'")]
              (if truthy (lookup fields (str "component_name_te"))
               then lookup fields (str "component_name_te")
               else if truthy (lookup fields (str "component_name_en"))
                    then lookup fields (str "component_name_en")
                    else JStr (str "-"));
            optional_line "Dose:" (lookup fields (str "dose_te"));
            optional_line "Method:" (lookup fields (str "application_method_te"));
            optional_line "Note:" (lookup fields (str "notes_te")) ]).
Proof.
  unfold component_block. rewrite component_name_chain. cbn [get_prop bind].
  unfold or_else.
  destruct (truthy (lookup fields (str "component_type"))); reflexivity.
Qed.



Lemma empty_record (names : list string) : string_record names (JObj []) = true.
Proof. induction names as [| n names IH]; [reflexivity | exact IH]. Qed.

Lemma default_record (names : list string) (v : value) :
  optional_record names v = true ->
  exists fields, with_default v (JObj []) = JObj fields
                 /\ string_record names (JObj fields) = true.
Proof.
  destruct v as [| | | | | | fields]; intros H; try discriminate.
  - exists []. split; [reflexivity | apply empty_record].
  - exists fields. split; [reflexivity | exact H].
Qed.

Lemma default_components (v : value) :
  optional_records component_fields v = true ->
  exists items, with_default v (JArr []) = JArr items
                /\ forallb (string_record component_fields) items = true.
Proof.
  destruct v as [| | | | | items |]; intros H; try discriminate.
  - now exists [].
  - now exists items.
Qed.

(** The date of a string or of nothing always has a text. *)
Lemma date_text_optional (generated_at : value) :
  optional_string generated_at = true ->
  exists date, date_text generated_at = Ok date.
Proof.
  destruct generated_at as [| | | | s | |]; intros H; try discriminate;
    eexists; reflexivity.
Qed.




(** The footer alone never faults on absent fields, whatever the rest of
    the payload is. *)
Lemma footer_without_fields :
  (fo <- footer JUndefined JUndefined ;; commit fo)%js =
    Ok [footer_node [] [Txt (str "Invalid Date")]].
Proof. reflexivity. Qed.

End SchemaFacts.



(** ** The texts on the page *)

Section TextLemmas.
Context {P : Platform}.
Local Open Scope string_scope.
Local Open Scope list_scope.

(** React accepts a tree whose values in braces are plain, and shows its
    texts. *)
Lemma commit_texts (v : vnode number) :
  vplain v = true -> exists l, commit v = Ok l /\ flat_map texts l = vtexts v.
Proof.
  assert (Hkids : forall kids,
             Forall (fun v => vplain v = true ->
                              exists l, commit v = Ok l /\ flat_map texts l = vtexts v) kids ->
             forallb vplain kids = true ->
             exists ks, commit (VFrag kids) = Ok ks
                        /\ flat_map texts ks = flat_map vtexts kids).
  { induction 1 as [| x rest Hx _ IH]; intros Hp.
    - now exists [].
    - cbn [forallb] in Hp. apply andb_prop in Hp as [Hpx Hpr].
      destruct (Hx Hpx) as [a [Ha Hta]]. destruct (IH Hpr) as [b [Hb Htb]].
      exists (a ++ b). rewrite commit_frag_cons, Ha, Hb. split; [reflexivity |].
      cbn [flat_map]. now rewrite flat_map_app, Hta, Htb. }
  induction v as [s | e | tag props css kids IH | kids IH] using vnode_forall_ind;
    intros Hp.
  - now exists [Txt s].
  - destruct e as [| | b | n | s | |]; try discriminate Hp;
      try (exists []; split; reflexivity).
    destruct s; [exists []; split; reflexivity | eexists; split; reflexivity].
  - destruct (Hkids _ IH Hp) as [ks [Hks Ht]].
    exists [El tag props css ks]. rewrite commit_el, Hks. split; [reflexivity |].
    cbn [flat_map texts vtexts]. now rewrite app_nil_r.
  - exact (Hkids _ IH Hp).
Qed.

(** An optional string is its text, on the page. *)
Lemma optional_string_cases (v : value) :
  optional_string v = true ->
  (truthy v = false /\ string_of v = [] /\ plain v = true)
  \/ (exists c s, v = JStr (c :: s)).
Proof.
  destruct v as [| | | | s | |]; try discriminate; intros _.
  - left. repeat split.
  - destruct s as [| c s]; [left; repeat split | right; now exists c, s].
Qed.

Lemma chosen_one (v : value) (dflt : string) :
  dflt <> EmptyString ->
  optional_string v = true ->
  let shown := if truthy v then v else JStr (str dflt) in
  plain shown = true /\ words (string_of shown) = [first_text [string_of v] dflt].
Proof.
  intros Hd H. destruct (optional_string_cases v H) as [(Ht & Hs & _) | (c & s & ->)].
  - cbv zeta. rewrite Ht, Hs. cbn [first_text string_of plain].
    split; [reflexivity |]. destruct dflt; [congruence | reflexivity].
  - split; reflexivity.
Qed.

Lemma chosen_two (a b : value) (dflt : string) :
  dflt <> EmptyString ->
  optional_string a = true -> optional_string b = true ->
  let shown := if truthy a then a else if truthy b then b else JStr (str dflt) in
  plain shown = true
  /\ words (string_of shown) = [first_text [string_of a; string_of b] dflt].
Proof.
  intros Hd Ha Hb.
  destruct (optional_string_cases a Ha) as [(Ht & Hs & _) | (c & s & ->)].
  - cbv zeta. rewrite Ht, Hs. cbn [first_text]. exact (chosen_one b dflt Hd Hb).
  - split; reflexivity.
Qed.

Lemma section_part (label : string) (v : value) :
  optional_string v = true ->
  vplain (text_section label v) = true
  /\ vtexts (text_section label v) = section_text label (string_of v).
Proof.
  intros H. unfold text_section.
  destruct (optional_string_cases v H) as [(Ht & Hs & Hp) | (c & s & ->)].
  - rewrite Ht. cbn [vplain vtexts]. rewrite Hs, Hp. split; reflexivity.
  - split; reflexivity.
Qed.

Lemma line_part (label : string) (v : value) :
  optional_string v = true ->
  vplain (optional_line label v) = true
  /\ vtexts (optional_line label v) = line_text label (string_of v).
Proof.
  intros H. unfold optional_line.
  destruct (optional_string_cases v H) as [(Ht & Hs & Hp) | (c & s & ->)].
  - rewrite Ht. cbn [vplain vtexts]. rewrite Hs, Hp. split; reflexivity.
  - split; reflexivity.
Qed.

Lemma box_part (c : value) :
  string_record component_fields c = true ->
  exists b, component_block c = Ok b /\ vplain b = true /\ vtexts b = box_text c.
Proof.
  destruct c as [| | | | | | fields]; try discriminate. intros H.
  pose proof (string_record_lookup _ _ "component_type" H ltac:(cbn; tauto)) as Hty.
  pose proof (string_record_lookup _ _ "component_name_te" H ltac:(cbn; tauto)) as Hte.
  pose proof (string_record_lookup _ _ "component_name_en" H ltac:(cbn; tauto)) as Hen.
  pose proof (string_record_lookup _ _ "dose_te" H ltac:(cbn; tauto)) as Hdose.
  pose proof (string_record_lookup _ _ "application_method_te" H ltac:(cbn; tauto)) as Hm.
  pose proof (string_record_lookup _ _ "notes_te" H ltac:(cbn; tauto)) as Hn.
  rewrite component_block_eq. eexists. split; [reflexivity |].
  destruct (chosen_one _ "-" ltac:(discriminate) Hty) as [P1 T1].
  destruct (chosen_two _ _ "-" ltac:(discriminate) Hte Hen) as [P2 T2].
  destruct (line_part "Dose:" _ Hdose) as [P3 T3].
  destruct (line_part "Method:" _ Hm) as [P4 T4].
  destruct (line_part "Note:" _ Hn) as [P5 T5].
  cbv zeta in P1, T1, P2, T2. unfold value in *.
  unfold box_text. cbn [prop_of].
  cbn [vplain vtexts forallb flat_map labelled_line strong app].
  rewrite P1, P2, P3, P4, P5, T1, T2, T3, T4, T5, !app_nil_r. split; reflexivity.
Qed.

Lemma boxes_part (items : list value) :
  forallb (string_record component_fields) items = true ->
  exists blocks, map_result component_block items = Ok blocks
                 /\ forallb vplain blocks = true
                 /\ flat_map vtexts blocks = flat_map box_text items.
Proof.
  induction items as [| c items IH]; intros H.
  - now exists [].
  - cbn [forallb] in H. apply andb_prop in H as [Hc Hrest].
    destruct (box_part c Hc) as (b & Hb & Pb & Tb).
    destruct (IH Hrest) as (bs & Hbs & Pbs & Tbs).
    exists (b :: bs). cbn [map_result]. rewrite Hb, Hbs. cbn [bind forallb flat_map].
    now rewrite Pb, Pbs, Tb, Tbs.
Qed.

Lemma treatment_part (items : list value) :
  forallb (string_record component_fields) items = true ->
  exists tr, treatment (JArr items) = Ok tr /\ vplain tr = true
             /\ vtexts tr = treatment_text (JArr items).
Proof.
  intros H. destruct items as [| c items].
  - now exists (VExpr (JBool false)).
  - destruct (boxes_part _ H) as (blocks & Hb & Pb & Tb).
    unfold treatment. cbn [truthy negb length_positive List.length Nat.ltb Nat.leb bind].
    rewrite Hb. cbn [bind]. eexists. split; [reflexivity |].
    cbn [vplain vtexts forallb flat_map treatment_text app]. rewrite Pb, !app_nil_r, Tb.
    split; reflexivity.
Qed.

Lemma prop_of_default (v : value) (names : list string) (n : string) :
  optional_record names v = true ->
  prop_of (with_default v (JObj [])) n = prop_of v n.
Proof. destruct v; try discriminate; reflexivity. Qed.

(** The receipt of a payload of the expected shape is rendered, and its
    texts are those of [receipt_text]. *)
Lemma schema_receipt_text (payload : value) :
  matches_schema payload = true ->
  exists screen,
    (v <- receipt_view payload ;; commit v)%js = Ok screen
    /\ flat_map texts (container_children screen) = receipt_text payload.
Proof.
  destruct payload as [| | | | | | fields]; try discriminate.
  intros H. cbn [matches_schema] in H.
  apply andb_prop in H as [H Hgat]. apply andb_prop in H as [H Hrid].
  apply andb_prop in H as [H Hcomp]. apply andb_prop in H as [Hprob Hadv].
  unfold receipt_text. cbn [prop_of].
  rewrite <- !(prop_of_default (lookup fields (str "problem")) problem_fields) by exact Hprob.
  rewrite <- !(prop_of_default (lookup fields (str "advisory")) advisory_fields) by exact Hadv.
  destruct (default_record _ _ Hprob) as [pf [Epf Hpf]].
  destruct (default_record _ _ Hadv) as [af [Eaf Haf]].
  destruct (default_components _ Hcomp) as [items [Eitems Hitems]].
  assert (Etext : treatment_text (lookup fields (str "components"))
                  = treatment_text (JArr items)).
  { destruct (lookup fields (str "components")); try discriminate Hcomp.
    - injection Eitems as <-. reflexivity.
    - injection Eitems as <-. reflexivity. }
  rewrite Epf, Eaf, Etext. cbn [prop_of].
  pose proof (string_record_lookup _ _ "problem_name_te" Hpf ltac:(cbn; tauto)) as Hte.
  pose proof (string_record_lookup _ _ "problem_name_en" Hpf ltac:(cbn; tauto)) as Hen.
  pose proof (string_record_lookup _ _ "category" Hpf ltac:(cbn; tauto)) as Hc.
  pose proof (string_record_lookup _ _ "stage_te" Hpf ltac:(cbn; tauto)) as Hste.
  pose proof (string_record_lookup _ _ "stage_en" Hpf ltac:(cbn; tauto)) as Hsen.
  pose proof (string_record_lookup _ _ "symptoms_te" Haf ltac:(cbn; tauto)) as Hsy.
  pose proof (string_record_lookup _ _ "notes_te" Haf ltac:(cbn; tauto)) as Hno.
  destruct (chosen_two _ _ "Advisory" ltac:(discriminate) Hte Hen) as [P1 T1].
  destruct (chosen_one _ "-" ltac:(discriminate) Hc) as [P2 T2].
  destruct (chosen_two _ _ "-" ltac:(discriminate) Hste Hsen) as [P3 T3].
  destruct (section_part "Symptoms" _ Hsy) as [P4 T4].
  destruct (section_part "Advisory" _ Hno) as [P5 T5].
  destruct (treatment_part _ Hitems) as (tr & Etr & P6 & T6).
  cbv zeta in P1, T1, P2, T2, P3, T3.
  set (rid := lookup fields (str "receipt_id")) in *.
  set (gat := lookup fields (str "generated_at")) in *.
  assert (P7 : plain rid = true) by (destruct rid; try discriminate Hrid; reflexivity).
  destruct (date_text_optional _ Hgat) as [date Hdate].
  set (kidsv := [ header;
                  VEl "div" [] title_style
                    [VExpr (if truthy (lookup pf (str "problem_name_te"))
                            then lookup pf (str "problem_name_te")
                            else if truthy (lookup pf (str "problem_name_en"))
                                 then lookup pf (str "problem_name_en")
                                 else JStr (str "Advisory"))];
                  VEl "div" [] [("marginTop", "6"); ("fontSize", "9")]
                    [ labelled_line "Category:" []
                        (if truthy (lookup pf (str "category"))
                         then lookup pf (str "category") else JStr (str "-"));
                      labelled_line "Stage:" []
                        (if truthy (lookup pf (str "stage_te"))
                         then lookup pf (str "stage_te")
                         else if truthy (lookup pf (str "stage_en"))
                              then lookup pf (str "stage_en") else JStr (str "-")) ];
                  text_section "Symptoms" (lookup af (str "symptoms_te"));
                  text_section "Advisory" (lookup af (str "notes_te"));
                  tr;
                  VEl "div" [] footer_style
                    [ VEl "div" [] [] [VText (str "Receipt ID: "); VExpr rid];
                      VEl "div" [] [] [VText (str "Date: "); VExpr (JStr date)];
                      VEl "div" [] [] [VText (str "Thank you for using CropSync")] ] ]).
  assert (Hview : receipt_view (JObj fields) =
                  Ok (VEl "div" [] [("padding", "12")]
                        [ VEl "div" [("ref", "containerRef")] container_style kidsv;
                          popup_note ])).
  { unfold receipt_view, container, title, meta, symptoms, advisory_notes.
    cbn [get_prop bind]. rewrite Epf, Eaf, Eitems.
    rewrite title_chain, category_chain, stage_chain. cbn [get_prop bind].
    rewrite Etr. unfold footer. fold rid gat. rewrite Hdate. reflexivity. }
  assert (Hplain : vplain (VFrag kidsv) = true).
  { unfold kidsv. cbn [vplain forallb header labelled_line strong plain].
    unfold value in *. rewrite P1, P2, P3, P4, P5, P6, P7. reflexivity. }
  destruct (commit_texts _ Hplain) as [kids [Hkids Htexts]].
  exists (receipt_screen kids). split.
  - rewrite Hview. cbn [bind]. rewrite commit_el, commit_frag_cons, commit_el, Hkids.
    reflexivity.
  - change (container_children (receipt_screen kids)) with kids. rewrite Htexts.
    unfold kidsv. cbn [vtexts flat_map header labelled_line strong app].
    unfold value in *. rewrite T1, T2, T3, T4, T5, T6, !app_nil_r. cbn [string_of app].
    unfold shown_date. fold gat. rewrite Hdate. reflexivity.
Qed.
End TextLemmas.

(** ** The two languages *)

Section Languages.
Context {P : Platform}.
Local Open Scope string_scope.
Local Open Scope list_scope.

Lemma find_filter {A} (p q : A -> bool) (l : list A) :
  (forall x, p x = true -> q x = true) -> find p (filter q l) = find p l.
Proof.
  intros H. induction l as [| x l IH]; [reflexivity |].
  cbn [filter find]. destruct (q x) eqn:Eq.
  - cbn [find]. now rewrite IH.
  - destruct (p x) eqn:Ep; [apply H in Ep; congruence | exact IH].
Qed.

Lemma filter_reversed {A} (q : A -> bool) (l : list A) :
  filter q (rev l) = rev (filter q l).
Proof.
  induction l as [| x l IH]; [reflexivity |].
  cbn [rev filter]. rewrite filter_app, IH. cbn [filter].
  destruct (q x); [reflexivity | now rewrite app_nil_r].
Qed.

Lemma lookup_filter (q : jsstring * value -> bool) (fields : list (jsstring * value))
  (name : jsstring) :
  (forall kv, jsstring_eqb (fst kv) name = true -> q kv = true) ->
  lookup (filter q fields) name = lookup fields name.
Proof.
  intros H. unfold lookup. rewrite <- filter_reversed. now rewrite find_filter.
Qed.

Lemma jsstring_eqb_eq (a b : jsstring) : jsstring_eqb a b = true -> a = b.
Proof.
  unfold jsstring_eqb. destruct (list_eq_dec Z.eq_dec a b); [auto | discriminate].
Qed.

(** Reading a property on an object without some others. *)
Lemma get_prop_without (names : list string) (v : value) (n : string) :
  existsb (fun m => jsstring_eqb (str n) (str m)) names = false ->
  get_prop (without names v) n = get_prop v n.
Proof.
  intros Hn. destruct v; try reflexivity.
  cbn [without get_prop]. f_equal. apply lookup_filter.
  intros [k v] Hk. cbn [fst] in *. apply jsstring_eqb_eq in Hk. subst k.
  now rewrite Hn.
Qed.

Lemma without_default (names : list string) (v : value) :
  with_default (without names v) (JObj []) = without names (with_default v (JObj [])).
Proof. destruct v; reflexivity. Qed.

(** The box of a component reads none of [dose_en],
    [application_method_en] and [notes_en]. *)
Lemma component_block_without (c : value) :
  component_block (without unread_of_component c) = component_block c.
Proof.
  unfold component_block, component_name_value.
  rewrite !get_prop_without by reflexivity. reflexivity.
Qed.

Lemma blocks_without (items : list value) :
  map_result component_block (map (without unread_of_component) items)
  = map_result component_block items.
Proof.
  induction items as [| c items IH]; [reflexivity |].
  cbn [map map_result]. now rewrite component_block_without, IH.
Qed.

Lemma treatment_without (items : list value) :
  treatment (JArr (map (without unread_of_component) items)) = treatment (JArr items).
Proof.
  unfold treatment. cbn [truthy negb length_positive]. rewrite length_map, blocks_without.
  reflexivity.
Qed.

Lemma find_map_key (name : jsstring) (f : jsstring * value -> jsstring * value)
  (l : list (jsstring * value)) :
  (forall kv, fst (f kv) = fst kv) ->
  find (fun kv => jsstring_eqb (fst kv) name) (map f l)
  = option_map f (find (fun kv => jsstring_eqb (fst kv) name) l).
Proof.
  intros H. induction l as [| x l IH]; [reflexivity |].
  cbn [map find]. rewrite H. destruct (jsstring_eqb (fst x) name); [reflexivity | exact IH].
Qed.

Lemma english_dropped_key (kv : jsstring * value) : fst (english_dropped kv) = fst kv.
Proof.
  unfold english_dropped. destruct (jsstring_eqb _ _); [reflexivity |].
  destruct (jsstring_eqb _ _); reflexivity.
Qed.

Lemma lookup_english_dropped (fields : list (jsstring * value)) (name : jsstring) :
  lookup (map english_dropped fields) name
  = match find (fun kv => jsstring_eqb (fst kv) name) (rev fields) with
    | Some kv => snd (english_dropped kv)
    | None => JUndefined
    end.
Proof.
  unfold lookup. rewrite <- map_rev, (find_map_key _ _ _ english_dropped_key).
  destruct (find _ (rev fields)) as [[k v] |]; [| reflexivity].
  cbn [option_map]. destruct (english_dropped (k, v)); reflexivity.
Qed.

Lemma lookup_other (fields : list (jsstring * value)) (n : string) :
  jsstring_eqb (str n) (str "advisory") = false ->
  jsstring_eqb (str n) (str "components") = false ->
  lookup (map english_dropped fields) (str n) = lookup fields (str n).
Proof.
  intros Ha Hc. rewrite lookup_english_dropped. unfold lookup.
  destruct (find _ (rev fields)) as [[k v] |] eqn:E; [| reflexivity].
  apply find_some in E as [_ E]. cbn [fst] in E. apply jsstring_eqb_eq in E. subst k.
  unfold english_dropped. cbn [fst snd]. now rewrite Ha, Hc.
Qed.

Lemma lookup_advisory (fields : list (jsstring * value)) :
  lookup (map english_dropped fields) (str "advisory")
  = without unread_of_advisory (lookup fields (str "advisory")).
Proof.
  rewrite lookup_english_dropped. unfold lookup.
  destruct (find _ (rev fields)) as [[k v] |] eqn:E; [| reflexivity].
  apply find_some in E as [_ E]. cbn [fst] in E. apply jsstring_eqb_eq in E. subst k.
  reflexivity.
Qed.

Lemma lookup_components (fields : list (jsstring * value)) :
  lookup (map english_dropped fields) (str "components")
  = match lookup fields (str "components") with
    | JArr items => JArr (map (without unread_of_component) items)
    | other => other
    end.
Proof.
  rewrite lookup_english_dropped. unfold lookup.
  destruct (find _ (rev fields)) as [[k v] |] eqn:E; [| reflexivity].
  apply find_some in E as [_ E]. cbn [fst] in E. apply jsstring_eqb_eq in E. subst k.
  reflexivity.
Qed.

(** The component reads none of the five members: whatever the payload,
    what it returns or throws is the same without them. *)
Lemma receipt_view_without_english (payload : value) :
  receipt_view (without_english payload) = receipt_view payload.
Proof.
  destruct payload as [| | | | | | fields]; try reflexivity.
  cbn [without_english].
  unfold receipt_view, container. cbn [get_prop bind].
  rewrite (lookup_other fields "problem"), (lookup_other fields "receipt_id"),
    (lookup_other fields "generated_at") by reflexivity.
  rewrite lookup_advisory, lookup_components, without_default.
  unfold symptoms, advisory_notes. rewrite !get_prop_without by reflexivity.
  assert (Ht : treatment
                 (with_default
                    match lookup fields (str "components") with
                    | JArr items => JArr (map (without unread_of_component) items)
                    | other => other
                    end (JArr []))
               = treatment (with_default (lookup fields (str "components")) (JArr []))).
  { destruct (lookup fields (str "components")); try reflexivity.
    cbn [with_default]. apply treatment_without. }
  rewrite Ht. reflexivity.
Qed.

Lemma first_text_second (a en : jsstring) (dflt : string) :
  a = [] -> en <> [] -> first_text [a; en] dflt = en.
Proof. intros -> H. destruct en; [congruence | reflexivity]. Qed.

(** An English member whose Telugu member is not populated stands among
    the texts of the receipt. *)
Lemma english_in_receipt_text (payload : value) (p : fallback_pair) (record : value)
  (en : jsstring) :
  In record (records_of p payload) ->
  string_of (prop_of record (primary_field p)) = [] ->
  prop_of record (secondary_field p) = JStr en ->
  en <> [] ->
  In en (receipt_text payload).
Proof.
  intros Hrec Hte Hen Hne. unfold receipt_text.
  destruct p; cbn [records_of primary_field secondary_field] in *.
  - destruct Hrec as [<- | []]. rewrite Hte, Hen. cbn [string_of].
    rewrite (first_text_second _ _ _ eq_refl Hne). cbn. tauto.
  - destruct Hrec as [<- | []]. rewrite Hte, Hen. cbn [string_of].
    rewrite (first_text_second _ _ _ eq_refl Hne).
    apply in_or_app. left. cbn. tauto.
  - apply in_or_app. right. apply in_or_app. right. apply in_or_app. right.
    apply in_or_app. left.
    destruct (prop_of payload "components") as [| | | | | items |]; try contradiction.
    destruct items as [| c items]; [contradiction |].
    cbn [treatment_text]. right. apply in_flat_map. exists record. split; [exact Hrec |].
    unfold box_text. rewrite Hte, Hen. cbn [string_of].
    rewrite (first_text_second _ _ _ eq_refl Hne). cbn. tauto.
Qed.

(** C4, as the code has it.  A payload of the expected shape is rendered,
    and the texts of its receipt are those of [receipt_text]: the name of
    the problem, the stage and the name of each component are the Telugu
    member, else the English member, else the placeholder; symptoms,
    advisory notes, dose, method and note are the Telugu member alone, and
    their section or line is left out when the Telugu member is not there.
    So an English name of the problem, stage or name of a component whose
    Telugu member is not populated is displayed.  And the five other
    English members are never displayed: any payload that differs from this
    one in the values of those members only is rendered as the very same
    document. *)
Theorem english_member_displayed (payload : value) :
  matches_schema payload = true ->
  exists screen,
    (v <- receipt_view payload ;; commit v)%js = Ok screen
    /\ flat_map texts (container_children screen) = receipt_text payload
    /\ (forall p record en,
          In record (records_of p payload) ->
          string_of (prop_of record (primary_field p)) = [] ->
          prop_of record (secondary_field p) = JStr en ->
          en <> [] ->
          In en (flat_map texts (container_children screen)))
    /\ (forall other,
          without_english other = without_english payload ->
          (v <- receipt_view other ;; commit v)%js = Ok screen).
Proof.
  intros H. destruct (schema_receipt_text payload H) as [screen [Hscreen Htext]].
  exists screen. split; [exact Hscreen |]. split; [exact Htext |]. split.
  - intros p record en Hrec Hte Hen Hne. rewrite Htext.
    exact (english_in_receipt_text payload p record en Hrec Hte Hen Hne).
  - intros other Hother.
    rewrite <- (receipt_view_without_english other), Hother,
      receipt_view_without_english.
    exact Hscreen.
Qed.
End Languages.

(** The payload that has only English members, and the same payload
    without the five members the page does not read: one document, with the
    English name of the problem, stage and name of the component, dashes for
    what has no English member, and no section or line for the rest. *)
Lemma english_member_displayed_witness :
  @matches_schema india english_only_payload = true
  /\ without_english english_only_payload
     = JObj [ (str "problem", JObj [ (str "problem_name_en", JStr (str "Leaf Blight"));
                                     (str "stage_en", JStr (str "Flowering")) ]);
              (str "advisory", JObj []);
              (str "components",
               JArr [JObj [(str "component_name_en", JStr (str "Neem oil"))]]) ]
  /\ exists screen,
       (v <- @receipt_view india english_only_payload ;; commit v)%js = Ok screen
       /\ flat_map texts (container_children screen)
          = [ str "CropSync"; str "Smart Agricultural Solutions";
              str "www.cropsync.in | +91-9182867605";
              str "Leaf Blight";
              str "Category:"; str " "; str "-";
              str "Stage:"; str " "; str "Flowering";
              str "Treatment";
              str "-"; str "Name:"; str " "; str "Neem oil";
              str "Receipt ID: "; str "Date: "; str "Invalid Date";
              str "Thank you for using CropSync" ]
       /\ (v <- @receipt_view india (without_english english_only_payload) ;;
           commit v)%js = Ok screen.
Proof.
  split; [reflexivity |]. split; [reflexivity |].
  destruct (@english_member_displayed india english_only_payload eq_refl)
    as (screen & H1 & H2 & _ & H4).
  exists screen. split; [exact H1 |]. split.
  - rewrite H2. vm_compute. reflexivity.
  - apply H4. reflexivity.
Defined.

(** A payload of the expected shape in which every bilingual field has its
    English member only: the page shows the English problem name, stage and
    component name, and none of the English symptoms, notes, dose, method
    and note. *)
Lemma english_symptoms_not_displayed :
  @matches_schema india english_only_payload = true
  /\ exists screen,
       page_screen (@page_load india friendly_env
                      (search_of (Json.stringify english_only_payload))) = Ok screen
       /\ forallb (fun s => existsb (jsstring_eqb s) (flat_map texts screen))
            [str "Leaf Blight"; str "Flowering"; str "Neem oil"] = true
       /\ forallb (fun s => negb (existsb (jsstring_eqb s) (flat_map texts screen)))
            [ str "Yellow spots"; str "Remove infected leaves"; str "5 ml per litre";
              str "Foliar spray"; str "Spray in the morning" ] = true.
Proof.
  split; [reflexivity |]. eexists. split; [vm_compute; reflexivity |].
  split; vm_compute; reflexivity.
Qed.

(** ** Base64: atob undoes the encoder *)

Section Base64Facts.
Import Char.

(** Induction on a list three items at a time. *)
Lemma list_ind3 {A : Type} (Q : list A -> Prop) :
  Q [] -> (forall x, Q [x]) -> (forall x y, Q [x; y]) ->
  (forall x y z l, Q l -> Q (x :: y :: z :: l)) ->
  forall l, Q l.
Proof.
  intros H0 H1 H2 H3 l.
  assert (H : Q l /\ (forall x, Q (x :: l)) /\ (forall x y, Q (x :: y :: l))).
  { induction l as [| a l [IH0 [IH1 IH2]]]; [auto |].
    split; [apply IH1 |]. split; [intros x; apply IH2 |]. intros x y. apply H3, IH0. }
  apply H.
Qed.

Lemma padding_step (x y z : Z) (l : list Z) : padding (x :: y :: z :: l) = padding l.
Proof.
  unfold padding. replace (List.length (x :: y :: z :: l)) with (List.length l + 1 * 3)%nat
    by (simpl; lia).
  now rewrite Nat.Div0.mod_add.
Qed.

Lemma encode_split (bytes : list Z) :
  Base64.encode bytes = map Base64.char_of (encode_sextets bytes) ++ padding bytes.
Proof.
  induction bytes as [| x | x y | x y z l IH] using list_ind3; try reflexivity.
  rewrite padding_step. cbn [Base64.encode encode_sextets map app]. now rewrite IH.
Qed.

Lemma encode_sextets_range (bytes : list Z) :
  Forall is_byte bytes -> Forall is_sextet (encode_sextets bytes).
Proof.
  unfold is_byte, is_sextet.
  induction bytes as [| x | x y | x y z l IH] using list_ind3; intros H.
  - constructor.
  - inversion_clear H. repeat constructor; Z.div_mod_to_equations; lia.
  - inversion_clear H as [| ? ? Hx H']. inversion_clear H'.
    repeat constructor; Z.div_mod_to_equations; lia.
  - inversion_clear H as [| ? ? Hx H']. inversion_clear H' as [| ? ? Hy H''].
    inversion_clear H'' as [| ? ? Hz Hl].
    cbn [encode_sextets]. repeat (constructor; [Z.div_mod_to_equations; lia |]).
    now apply IH.
Qed.

Lemma bytes_of_encode_sextets (bytes : list Z) :
  Forall is_byte bytes -> Base64.bytes_of_sextets (encode_sextets bytes) = bytes.
Proof.
  unfold is_byte.
  induction bytes as [| x | x y | x y z l IH] using list_ind3; intros H.
  - reflexivity.
  - inversion_clear H. cbn. f_equal. Z.div_mod_to_equations; lia.
  - inversion_clear H as [| ? ? Hx H']. inversion_clear H'.
    cbn. f_equal; [| f_equal]; Z.div_mod_to_equations; lia.
  - inversion_clear H as [| ? ? Hx H']. inversion_clear H' as [| ? ? Hy H''].
    inversion_clear H'' as [| ? ? Hz Hl].
    cbn [encode_sextets Base64.bytes_of_sextets]. rewrite (IH Hl).
    f_equal; [| f_equal; [| f_equal]]; Z.div_mod_to_equations; lia.
Qed.

Lemma value_of_char_of (v : Z) : is_sextet v -> Base64.value_of (Base64.char_of v) = Some v.
Proof.
  unfold is_sextet, Base64.value_of, Base64.char_of, is_upper, is_lower, is_digit, plus, slash.
  intros H.
  destruct (Z.ltb_spec v 26); [| destruct (Z.ltb_spec v 52); [| destruct (Z.ltb_spec v 62);
    [| destruct (Z.eqb_spec v 62)]]].
  - replace ((65 <=? 65 + v) && (65 + v <=? 90)) with true by lia. f_equal; lia.
  - replace ((65 <=? 97 + (v - 26)) && (97 + (v - 26) <=? 90)) with false by lia.
    replace ((97 <=? 97 + (v - 26)) && (97 + (v - 26) <=? 122)) with true by lia.
    f_equal; lia.
  - replace ((65 <=? 48 + (v - 52)) && (48 + (v - 52) <=? 90)) with false by lia.
    replace ((97 <=? 48 + (v - 52)) && (48 + (v - 52) <=? 122)) with false by lia.
    replace ((48 <=? 48 + (v - 52)) && (48 + (v - 52) <=? 57)) with true by lia.
    f_equal; lia.
  - subst v. reflexivity.
  - assert (v = 63) as -> by lia. reflexivity.
Qed.

Lemma sextets_of_chars (vs : list Z) :
  Forall is_sextet vs -> Base64.sextets (map Base64.char_of vs) = Some vs.
Proof.
  induction 1 as [| v vs Hv _ IH]; [reflexivity |].
  cbn [map Base64.sextets]. now rewrite (value_of_char_of _ Hv), IH.
Qed.

(** A character of the alphabet is no whitespace, no [=], no [%]; the only
    ones the URL-safe alphabet replaces are [+] and [/]. *)
Lemma char_of_plain (v : Z) :
  is_sextet v ->
  let c := Base64.char_of v in
  is_ascii_whitespace c = false /\ c <> equals /\ c <> percent
  /\ c <> minus /\ c <> underscore /\ 43 <= c < 123.
Proof.
  unfold is_sextet, Base64.char_of, is_ascii_whitespace, equals, percent, minus,
    underscore, plus, slash.
  intros H.
  destruct (Z.ltb_spec v 26); [| destruct (Z.ltb_spec v 52); [| destruct (Z.ltb_spec v 62);
    [| destruct (Z.eqb_spec v 62)]]]; cbn zeta; repeat split; lia.
Qed.

Lemma encode_sextets_length (bytes : list Z) :
  (List.length (encode_sextets bytes) mod 4 <> 1)%nat
  /\ ((List.length (encode_sextets bytes) + List.length (padding bytes)) mod 4 = 0)%nat.
Proof.
  induction bytes as [| x | x y | x y z l [IH1 IH2]] using list_ind3;
    try (split; [discriminate | reflexivity]).
  rewrite padding_step. cbn [encode_sextets List.length].
  replace (S (S (S (S (List.length (encode_sextets l))))))
    with (List.length (encode_sextets l) + 1 * 4)%nat by lia.
  split.
  - now rewrite Nat.Div0.mod_add.
  - replace (List.length (encode_sextets l) + 1 * 4 + List.length (padding l))%nat
      with (List.length (encode_sextets l) + List.length (padding l) + 1 * 4)%nat by lia.
    now rewrite Nat.Div0.mod_add.
Qed.

Lemma strip_padding_encoded (body pad : jsstring) :
  ((List.length body + List.length pad) mod 4 = 0)%nat ->
  Forall (fun c => c <> equals) body ->
  pad = [] \/ pad = [equals] \/ pad = [equals; equals] ->
  Base64.strip_padding (body ++ pad) = body.
Proof.
  intros Hlen Hbody Hpad. unfold Base64.strip_padding.
  replace (Z.of_nat (List.length (body ++ pad)) mod 4 =? 0) with true.
  2:{ symmetry. apply Z.eqb_eq. rewrite length_app.
      change 4 with (Z.of_nat 4). rewrite <- Nat2Z.inj_mod, Hlen. reflexivity. }
  rewrite rev_app_distr.
  assert (Hlast : match rev body with
                  | a :: _ => a <> equals
                  | [] => True
                  end).
  { destruct (rev body) as [| a r] eqn:E; [exact I |].
    rewrite Forall_forall in Hbody. apply Hbody. apply in_rev. rewrite E. now left. }
  destruct Hpad as [-> | [-> | ->]]; cbn [rev app].
  - rewrite app_nil_r.
    destruct (rev body) as [| a [| b r]] eqn:E.
    + reflexivity.
    + destruct (Z.eqb_spec a equals); [contradiction | reflexivity].
    + destruct (Z.eqb_spec a equals); [contradiction | reflexivity].
  - destruct (rev body) as [| b r] eqn:E; cbn;
      apply (f_equal (@rev Z)) in E; rewrite rev_involutive in E; subst body.
    + reflexivity.
    + destruct (Z.eqb_spec b equals); [contradiction | reflexivity].
  - cbn. apply rev_involutive.
Qed.

Lemma filter_keeps_all {A : Type} (f : A -> bool) (l : list A) :
  Forall (fun x => f x = true) l -> filter f l = l.
Proof.
  induction 1 as [| x l Hx _ IH]; [reflexivity |]. simpl. now rewrite Hx, IH.
Qed.

(** What atob gives on the encoding of a sequence of bytes: the bytes. *)
Lemma atob_encode (bytes : list Z) :
  Forall is_byte bytes -> Base64.atob (Base64.encode bytes) = Ok bytes.
Proof.
  intros H. pose proof (encode_sextets_range _ H) as Hs.
  assert (Hplain : Forall (fun c => is_ascii_whitespace c = false /\ c <> equals)
                     (map Base64.char_of (encode_sextets bytes))).
  { apply Forall_map. eapply Forall_impl; [| exact Hs].
    intros v Hv. destruct (char_of_plain v Hv) as (? & ? & _). auto. }
  assert (Hpad : padding bytes = [] \/ padding bytes = [equals]
                 \/ padding bytes = [equals; equals]).
  { unfold padding. destruct (List.length bytes mod 3)%nat as [| [| [| n]]]; auto. }
  destruct (encode_sextets_length bytes) as [Hl1 Hl0].
  unfold Base64.atob, Base64.forgiving_decode.
  set (body := map Base64.char_of (encode_sextets bytes)) in *.
  assert (Hws : Base64.remove_whitespace (Base64.encode bytes) = body ++ padding bytes).
  { rewrite encode_split. fold body. unfold Base64.remove_whitespace.
    apply filter_keeps_all. apply Forall_app. split.
    - eapply Forall_impl; [| exact Hplain]. intros c [Hc _]. now rewrite Hc.
    - destruct Hpad as [-> | [-> | ->]]; repeat constructor. }
  assert (Hstrip : Base64.strip_padding (body ++ padding bytes) = body).
  { apply strip_padding_encoded; [| | exact Hpad].
    - unfold body. now rewrite length_map.
    - eapply Forall_impl; [| exact Hplain]. now intros c [_ Hc]. }
  rewrite Hws, Hstrip.
  replace (Z.of_nat (List.length body) mod 4 =? 1) with false.
  2:{ symmetry. apply Z.eqb_neq. unfold body. rewrite length_map.
      change 4 with (Z.of_nat 4). rewrite <- Nat2Z.inj_mod. lia. }
  unfold body. rewrite (sextets_of_chars _ Hs), (bytes_of_encode_sextets _ H).
  reflexivity.
Qed.
End Base64Facts.

(** ** The way of the parameter through the URL *)

Section UriFacts.
Import Char.

Lemma utf8_encode_ascii (s : jsstring) : Forall is_ascii s -> Utf.utf8_encode s = s.
Proof.
  unfold Utf.utf8_encode, is_ascii.
  induction 1 as [| c s Hc _ IH]; [reflexivity |].
  cbn [Utf.scalars]. unfold Utf.is_high_surrogate, Utf.is_low_surrogate.
  replace ((55296 <=? c) && (c <=? 56319)) with false by lia.
  replace ((56320 <=? c) && (c <=? 57343)) with false by lia.
  cbn [flat_map]. rewrite IH. unfold Utf.utf8_bytes.
  replace (c <? 128) with true by lia. reflexivity.
Qed.

Lemma utf8_decode_ascii (s : list Z) : Forall is_ascii s -> Utf.utf8_decode s = s.
Proof.
  unfold Utf.utf8_decode, is_ascii.
  induction 1 as [| c s Hc _ IH]; [reflexivity |].
  cbn [Utf.decode_from]. unfold Utf.step. cbn [Utf.needed Utf.idle Z.eqb].
  unfold Utf.start. replace (c <? 128) with true by lia.
  cbn [app flat_map]. rewrite IH. unfold Utf.utf16_encode.
  replace (c <? 65536) with true by lia. reflexivity.
Qed.

Lemma hex_digit_value (v : Z) : 0 <= v < 16 -> hex_value (hex_digit v) = Some v.
Proof.
  intros H. unfold hex_value, hex_digit, is_digit.
  destruct (Z.ltb_spec v 10).
  - replace ((48 <=? 48 + v) && (48 + v <=? 57)) with true by lia. f_equal. lia.
  - replace ((48 <=? 55 + v) && (55 + v <=? 57)) with false by lia.
    replace ((65 <=? 55 + v) && (55 + v <=? 70)) with true by lia. f_equal. lia.
Qed.

Lemma unreserved_safe (c : Z) :
  Uri.is_unreserved c = true -> query_safe c /\ c <> percent.
Proof.
  unfold Uri.is_unreserved, is_alnum, is_digit, is_upper, is_lower, query_safe, is_ascii,
    plus, amp, equals, percent.
  cbn [existsb]. intros H. lia.
Qed.

Lemma hex_digit_safe (v : Z) : 0 <= v < 16 -> query_safe (hex_digit v).
Proof.
  unfold hex_digit, query_safe, is_ascii, plus, amp, equals. intros H.
  destruct (Z.ltb_spec v 10); lia.
Qed.

Lemma percent_encode_safe (bytes : list Z) :
  Forall is_byte bytes ->
  Forall (fun c => c = percent \/ query_safe c) (flat_map Uri.percent_encode_byte bytes).
Proof.
  induction 1 as [| b bytes Hb _ IH]; [constructor |].
  cbn [flat_map]. apply Forall_app. split; [| exact IH].
  unfold Uri.percent_encode_byte at 1. unfold is_byte in Hb.
  destruct (Uri.is_unreserved b) eqn:E.
  - apply Forall_cons; [| constructor]. right. now apply unreserved_safe.
  - apply Forall_cons; [now left |].
    apply Forall_cons; [right; apply hex_digit_safe; Z.div_mod_to_equations; lia |].
    apply Forall_cons; [right; apply hex_digit_safe; Z.div_mod_to_equations; lia |].
    constructor.
Qed.

Lemma percent_decode_encode (bytes : list Z) :
  Forall is_byte bytes ->
  Uri.percent_decode (flat_map Uri.percent_encode_byte bytes) = bytes.
Proof.
  induction 1 as [| b bytes Hb _ IH]; [reflexivity |].
  cbn [flat_map]. unfold Uri.percent_encode_byte at 1. unfold is_byte in Hb.
  destruct (Uri.is_unreserved b) eqn:E.
  - cbn [app Uri.percent_decode].
    destruct (Z.eqb_spec b percent) as [-> | _]; [discriminate E |].
    now rewrite IH.
  - cbn [app Uri.percent_decode]. rewrite Z.eqb_refl.
    rewrite !hex_digit_value by (Z.div_mod_to_equations; lia).
    rewrite IH. f_equal. Z.div_mod_to_equations; lia.
Qed.

Lemma plus_to_space_safe (s : list Z) :
  Forall (fun c => c = percent \/ query_safe c) s -> Uri.plus_to_space s = s.
Proof.
  induction 1 as [| c s Hc _ IH]; [reflexivity |].
  cbn [Uri.plus_to_space map]. fold (Uri.plus_to_space s). rewrite IH.
  destruct (Z.eqb_spec c plus) as [-> | _]; [| reflexivity].
  destruct Hc as [Hc | [Hc _]]; [discriminate Hc | contradiction].
Qed.

Lemma split_on_absent (sep : Z) (s : list Z) :
  Forall (fun c => c <> sep) s -> Uri.split_on sep s = [s].
Proof.
  induction 1 as [| c s Hc _ IH]; [reflexivity |].
  cbn [Uri.split_on]. rewrite IH.
  destruct (Z.eqb_spec c sep); [contradiction | reflexivity].
Qed.

(** The [data] parameter of the query string [?data=] followed by the
    percent-encoding of an ASCII string is that string. *)
Lemma get_data_of_search (s : jsstring) :
  Forall is_ascii s ->
  Uri.get (Uri.URLSearchParams (str "?data=" ++ Uri.encodeURIComponent s)) (str "data")
  = Some s.
Proof.
  intros Hs.
  assert (Hb : Forall is_byte s).
  { eapply Forall_impl; [| exact Hs]. unfold is_ascii, is_byte. lia. }
  unfold Uri.encodeURIComponent. rewrite (utf8_encode_ascii _ Hs).
  pose proof (percent_encode_safe _ Hb) as Hsafe.
  set (enc := flat_map Uri.percent_encode_byte s) in *.
  assert (Hascii : Forall is_ascii (str "data=" ++ enc)).
  { apply Forall_app. split.
    - unfold is_ascii. cbn. repeat constructor; lia.
    - eapply Forall_impl; [| exact Hsafe].
      intros c [-> | (_ & _ & _ & H)]; [unfold is_ascii, percent; lia | exact H]. }
  assert (Hamp : Forall (fun c => c <> amp) (str "data=" ++ enc)).
  { apply Forall_app. split.
    - unfold amp. cbn. repeat constructor; lia.
    - eapply Forall_impl; [| exact Hsafe].
      intros c [-> | (_ & H & _)]; [unfold amp, percent; lia | exact H]. }
  change (Uri.URLSearchParams (str "?data=" ++ enc))
    with (Uri.parse_urlencoded (Utf.utf8_encode (str "data=" ++ enc))).
  rewrite (utf8_encode_ascii _ Hascii).
  unfold Uri.parse_urlencoded. rewrite (split_on_absent _ _ Hamp).
  change (str "data=" ++ enc) with (100 :: 97 :: 116 :: 97 :: 61 :: enc).
  cbn [filter List.length Nat.eqb negb map Uri.split_pair Z.eqb equals Pos.eqb].
  unfold Uri.urldecode at 2. rewrite (plus_to_space_safe _ Hsafe).
  unfold enc. rewrite (percent_decode_encode _ Hb), (utf8_decode_ascii _ Hs).
  reflexivity.
Qed.
End UriFacts.

(** ** From the producer to the payload *)

Section RoundTrip.
Import Char.

Lemma encode_chars (bytes : list Z) :
  Forall is_byte bytes ->
  Forall (fun c => c <> minus /\ c <> underscore /\ c <> percent /\ 43 <= c < 123)
    (Base64.encode bytes).
Proof.
  intros H. rewrite encode_split. apply Forall_app. split.
  - apply Forall_map. eapply Forall_impl; [| exact (encode_sextets_range _ H)].
    intros v Hv. destruct (char_of_plain v Hv) as (_ & _ & ? & ? & ? & ?). auto.
  - unfold padding, minus, underscore, percent, equals.
    destruct (List.length bytes mod 3)%nat as [| [| [| n]]];
      repeat (constructor; [lia |]); constructor.
Qed.

Lemma url_safe_and_back (e : jsstring) :
  Forall (fun c => c <> minus /\ c <> underscore /\ c <> percent /\ 43 <= c < 123) e ->
  replace_all underscore slash (replace_all minus plus (Base64.to_url_safe e)) = e.
Proof.
  unfold replace_all, Base64.to_url_safe, minus, underscore, plus, slash.
  induction 1 as [| c e Hc _ IH]; [reflexivity |].
  cbn [map]. rewrite IH. f_equal.
  destruct (Z.eqb_spec c 43) as [-> | ?]; [reflexivity |].
  destruct (Z.eqb_spec c 47) as [-> | ?]; [reflexivity |].
  destruct (Z.eqb_spec c 45); [lia |]. destruct (Z.eqb_spec c 95); [lia | reflexivity].
Qed.

Lemma url_safe_chars (e : jsstring) :
  Forall (fun c => c <> minus /\ c <> underscore /\ c <> percent /\ 43 <= c < 123) e ->
  Forall (fun c => is_ascii c /\ c <> percent) (Base64.to_url_safe e).
Proof.
  unfold Base64.to_url_safe, is_ascii, minus, underscore, plus, slash, percent.
  intros H. apply Forall_map. eapply Forall_impl; [| exact H].
  intros c Hc. cbn beta in *.
  destruct (Z.eqb_spec c 43); [| destruct (Z.eqb_spec c 47)]; cbv iota; lia.
Qed.

(** [decodeBase64UrlSafe] on the URL-safe Base64 of a sequence of bytes:
    a string with one code unit for each byte. *)
Lemma decodeBase64UrlSafe_encoded (bytes : list Z) :
  Forall is_byte bytes ->
  decodeBase64UrlSafe (Base64.to_url_safe (Base64.encode bytes)) = Ok bytes.
Proof.
  intros H. pose proof (encode_chars _ H) as Hc.
  rewrite decodeBase64UrlSafe_steps. unfold Uri.decodeURIComponent.
  rewrite decode_without_percent.
  - cbn [bind]. rewrite (url_safe_and_back _ Hc). now apply atob_encode.
  - eapply Forall_impl; [| exact (url_safe_chars _ Hc)]. now intros c [_ ?].
Qed.

Lemma encode_nonempty (bytes : list Z) :
  bytes <> [] -> Base64.to_url_safe (Base64.encode bytes) <> [].
Proof.
  destruct bytes as [| x [| y [| z l]]]; [congruence | discriminate ..].
Qed.

Lemma utf8_bytes_range (cp : Z) : 0 <= cp -> Forall is_byte (Utf.utf8_bytes cp).
Proof.
  intros H. unfold Utf.utf8_bytes, is_byte.
  destruct (Z.ltb_spec cp 128); [| destruct (Z.ltb_spec cp 2048);
    [| destruct (Z.ltb_spec cp 65536)]];
    repeat (constructor; [Z.div_mod_to_equations; lia |]); constructor.
Qed.

Lemma scalars_two (u v : Z) (rest : jsstring) :
  Utf.scalars (u :: v :: rest) =
    if Utf.is_high_surrogate u then
      if Utf.is_low_surrogate v
      then 65536 + (u - 55296) * 1024 + (v - 56320) :: Utf.scalars rest
      else 65533 :: Utf.scalars (v :: rest)
    else if Utf.is_low_surrogate u then 65533 :: Utf.scalars (v :: rest)
         else u :: Utf.scalars (v :: rest).
Proof. reflexivity. Qed.

Lemma scalars_nonneg (s : jsstring) :
  Forall (fun u => 0 <= u) s -> Forall (fun cp => 0 <= cp) (Utf.scalars s).
Proof.
  assert (H : (Forall (fun u => 0 <= u) s -> Forall (fun cp => 0 <= cp) (Utf.scalars s))
              /\ forall u, 0 <= u -> Forall (fun u => 0 <= u) s ->
                           Forall (fun cp => 0 <= cp) (Utf.scalars (u :: s))).
  { induction s as [| v s [IH0 IH1]].
    - split; [constructor |]. intros u Hu _. cbn [Utf.scalars].
      destruct (Utf.is_high_surrogate u); [repeat constructor; lia |].
      destruct (Utf.is_low_surrogate u); repeat constructor; lia.
    - split.
      + intros Hs. inversion_clear Hs. now apply IH1.
      + intros u Hu Hs. inversion_clear Hs as [| ? ? Hv Hs'].
        rewrite scalars_two.
        destruct (Utf.is_high_surrogate u) eqn:Eh.
        * destruct (Utf.is_low_surrogate v) eqn:El.
          -- constructor; [| now apply IH0].
             unfold Utf.is_high_surrogate, Utf.is_low_surrogate in *. lia.
          -- constructor; [lia | now apply IH1].
        * destruct (Utf.is_low_surrogate u);
            (constructor; [lia | now apply IH1]). }
  apply H.
Qed.

Lemma utf8_encode_bytes (s : jsstring) :
  Forall (fun u => 0 <= u) s -> Forall is_byte (Utf.utf8_encode s).
Proof.
  intros H. apply scalars_nonneg in H. unfold Utf.utf8_encode.
  induction H as [| cp l Hcp _ IH]; [constructor |].
  cbn [flat_map]. apply Forall_app. split; [now apply utf8_bytes_range | exact IH].
Qed.

Lemma utf8_encode_nonempty (s : jsstring) : s <> [] -> Utf.utf8_encode s <> [].
Proof.
  destruct s as [| u s]; [congruence |]. intros _.
  assert (Hb : forall cp l, (Utf.utf8_bytes cp ++ l)%list <> []).
  { intros cp l. unfold Utf.utf8_bytes.
    destruct (cp <? 128); [discriminate |]. destruct (cp <? 2048); [discriminate |].
    destruct (cp <? 65536); discriminate. }
  unfold Utf.utf8_encode. cbn [Utf.scalars].
  destruct (Utf.is_high_surrogate u).
  - destruct s as [| v s]; [discriminate |].
    destruct (Utf.is_low_surrogate v); cbn [flat_map]; apply Hb.
  - destruct (Utf.is_low_surrogate u); cbn [flat_map]; apply Hb.
Qed.

(** The state of the page after the decode effect, for the link the
    producer builds from a text: JSON.parse is given the string that has one
    code unit for each byte of the UTF-8 of the text. *)
Lemma decode_effect_of_text {P : Platform} (text : jsstring) :
  Forall (fun u => 0 <= u) text -> text <> [] ->
  decode_effect (search_of text) initial_state =
    match JSON_parse (Utf.utf8_encode text) with
    | Ok v => {| payload := v; error := None |}
    | Throw e =>
        {| payload := JNull;
           error := Some (str "Failed to parse data payload: " ++ message e) |}
    end.
Proof.
  intros Hunits Hne.
  pose proof (utf8_encode_bytes _ Hunits) as Hbytes.
  unfold decode_effect, search_of, encode_payload.
  rewrite get_data_of_search.
  2:{ eapply Forall_impl; [| exact (url_safe_chars _ (encode_chars _ Hbytes))].
      now intros c [? _]. }
  pose proof (encode_nonempty _ (utf8_encode_nonempty _ Hne)) as Hraw.
  destruct (Base64.to_url_safe (Base64.encode (Utf.utf8_encode text)))
    as [| c raw] eqn:E; [congruence |].
  rewrite <- E, (decodeBase64UrlSafe_encoded _ Hbytes). cbn [bind].
  destruct (JSON_parse (Utf.utf8_encode text)); reflexivity.
Qed.

(** The state of a loaded page is what the decode effect has set. *)
Lemma page_state_of_page_load {P : Platform} (env : Env) (search : jsstring) :
  page_state (page_load env search) = decode_effect search initial_state.
Proof.
  unfold page_load.
  destruct (v <- AutoPrintReceipt _ ;; commit v)%js; reflexivity.
Qed.

Lemma ascii_units (text : jsstring) :
  Forall is_ascii text -> Forall (fun u => 0 <= u) text.
Proof.
  intros H. eapply Forall_impl; [| exact H]. unfold is_ascii. lia.
Qed.

(** C1, as the code has it.  A JSON text made of ASCII characters only
    that is sent the way the spec says (UTF-8, URL-safe Base64,
    percent-encoding, [data] parameter) reaches JSON.parse unchanged: the
    payload of the page is the value JSON.parse reads in that very text, so
    the value the producer wrote, and no error is set. *)
Theorem ascii_text_round_trip {P : Platform} (env : Env) (text : jsstring) (v : value) :
  Forall is_ascii text ->
  text <> [] ->
  JSON_parse text = Ok v ->
  page_state (page_load env (search_of text)) = {| payload := v; error := None |}.
Proof.
  intros Hascii Hne Hparse.
  rewrite page_state_of_page_load, (decode_effect_of_text text (ascii_units _ Hascii) Hne).
  now rewrite (utf8_encode_ascii _ Hascii), Hparse.
Qed.
End RoundTrip.

Lemma ascii_text_round_trip_witness :
  Forall is_ascii example_text
  /\ example_text <> []
  /\ @JSON_parse india example_text = Ok example_payload
  /\ payload (page_state (@page_load india friendly_env (search_of example_text)))
     = example_payload.
Proof.
  assert (Ha : Forall is_ascii example_text).
  { unfold is_ascii. vm_compute. repeat constructor; discriminate. }
  assert (Hp : @JSON_parse india example_text = Ok example_payload)
    by (vm_compute; reflexivity).
  split; [exact Ha |]. split; [discriminate |]. split; [exact Hp |].
  rewrite (@ascii_text_round_trip india friendly_env example_text example_payload Ha
             ltac:(discriminate) Hp).
  reflexivity.
Defined.

(** The JSON text of a payload with a Telugu name, sent the way the spec
    says: atob gives one code unit for each byte of the UTF-8, JSON.parse
    reads a name of nine code units where the producer wrote three, and the
    payload is not the value that was sent. *)
Lemma telugu_payload_not_recovered :
  @matches_schema india telugu_only_payload = true
  /\ Json.parse (Json.stringify telugu_only_payload) = Ok telugu_only_payload
  /\ payload (page_state (@page_load india friendly_env
                            (search_of (Json.stringify telugu_only_payload))))
     = JObj [(str "problem",
              JObj [(str "problem_name_te",
                     JStr [224; 176; 164; 224; 176; 149; 224; 177; 129])])]
  /\ payload (page_state (@page_load india friendly_env
                            (search_of (Json.stringify telugu_only_payload))))
     <> telugu_only_payload.
Proof.
  split; [reflexivity |]. split; [vm_compute; reflexivity |].
  split; [vm_compute; reflexivity |].
  intros H. vm_compute in H. discriminate H.
Qed.

(** ** The reference JSON: parse undoes stringify *)

Section JsonFacts.

Lemma hex_lower_value (v : Z) : 0 <= v < 16 -> Char.hex_value (Json.hex_lower v) = Some v.
Proof.
  intros H. unfold Char.hex_value, Json.hex_lower, Char.is_digit.
  destruct (Z.ltb_spec v 10).
  - replace ((48 <=? 48 + v) && (48 + v <=? 57)) with true by lia. f_equal. lia.
  - replace ((48 <=? 87 + v) && (87 + v <=? 57)) with false by lia.
    replace ((65 <=? 87 + v) && (87 + v <=? 70)) with false by lia.
    replace ((97 <=? 87 + v) && (87 + v <=? 102)) with true by lia. f_equal. lia.
Qed.

Lemma parse_string_plain (c : Z) (tail : jsstring) :
  c <> 34 -> c <> 92 -> 32 <= c ->
  Json.parse_string (c :: tail) = cons_char c (Json.parse_string tail).
Proof.
  intros H1 H2 H3. cbn [Json.parse_string].
  destruct (Z.eqb_spec c 34); [contradiction |].
  destruct (Z.eqb_spec c 92); [contradiction |].
  destruct (Z.ltb_spec c 32); [lia | reflexivity].
Qed.

Lemma parse_string_escape_u (c : Z) (tail : jsstring) :
  is_unit c ->
  Json.parse_string (Json.escape_u c ++ tail) = cons_char c (Json.parse_string tail).
Proof.
  unfold is_unit. intros H. unfold Json.escape_u.
  change (str "\u") with [92; 117]. cbn [app Json.parse_string Z.eqb Pos.eqb].
  rewrite !hex_lower_value by (Z.div_mod_to_equations; lia).
  replace (4096 * (c / 4096) + 256 * ((c / 256) mod 16) + 16 * ((c / 16) mod 16) + c mod 16)
    with c by (Z.div_mod_to_equations; lia).
  reflexivity.
Qed.

Lemma parse_string_simple (e u : Z) (tail : jsstring) :
  In (e, u) [(34, 34); (92, 92); (98, 8); (102, 12); (110, 10); (114, 13); (116, 9)] ->
  Json.parse_string (92 :: e :: tail) = cons_char u (Json.parse_string tail).
Proof.
  cbn [In]. intros H.
  repeat (destruct H as [H | H]; [injection H as <- <-; reflexivity |]).
  contradiction.
Qed.

Lemma cons_char_ok (c : Z) (s rest : jsstring) (r : result (jsstring * jsstring)) :
  r = Ok (s, rest) -> cons_char c r = Ok (c :: s, rest).
Proof. now intros ->. Qed.

Lemma parse_escaped_string (s : jsstring) :
  Forall is_unit s ->
  forall rest, Json.parse_string (Json.escape s ++ 34 :: rest) = Ok (s, rest).
Proof.
  remember (List.length s) as n eqn:Hn.
  assert (Hle : (List.length s <= n)%nat) by lia. clear Hn.
  revert s Hle. induction n as [| n IH]; intros s Hle Hs rest.
  - destruct s; [reflexivity | simpl in Hle; lia].
  - destruct s as [| c s]; [reflexivity |].
    inversion_clear Hs as [| ? ? Hc Hs'].
    assert (IHs : forall rest, Json.parse_string (Json.escape s ++ 34 :: rest) = Ok (s, rest)).
    { intros r. apply IH; [simpl in Hle; lia | exact Hs']. }
    cbn [Json.escape].
    destruct (Z.eqb_spec c 34) as [-> | N34].
    { cbn [app]. rewrite (parse_string_simple 34 34) by (cbn; tauto).
      apply cons_char_ok, IHs. }
    destruct (Z.eqb_spec c 92) as [-> | N92].
    { cbn [app]. rewrite (parse_string_simple 92 92) by (cbn; tauto).
      apply cons_char_ok, IHs. }
    destruct (Z.eqb_spec c 8) as [-> | N8].
    { cbn [app]. rewrite (parse_string_simple 98 8) by (cbn; tauto).
      apply cons_char_ok, IHs. }
    destruct (Z.eqb_spec c 12) as [-> | N12].
    { cbn [app]. rewrite (parse_string_simple 102 12) by (cbn; tauto).
      apply cons_char_ok, IHs. }
    destruct (Z.eqb_spec c 10) as [-> | N10].
    { cbn [app]. rewrite (parse_string_simple 110 10) by (cbn; tauto).
      apply cons_char_ok, IHs. }
    destruct (Z.eqb_spec c 13) as [-> | N13].
    { cbn [app]. rewrite (parse_string_simple 114 13) by (cbn; tauto).
      apply cons_char_ok, IHs. }
    destruct (Z.eqb_spec c 9) as [-> | N9].
    { cbn [app]. rewrite (parse_string_simple 116 9) by (cbn; tauto).
      apply cons_char_ok, IHs. }
    destruct (Z.ltb_spec c 32) as [L32 | G32].
    { rewrite <- app_assoc, (parse_string_escape_u _ _ Hc). apply cons_char_ok, IHs. }
    destruct (Utf.is_high_surrogate c) eqn:Eh.
    { destruct s as [| d s'].
      - rewrite (parse_string_escape_u _ _ Hc). reflexivity.
      - destruct (Utf.is_low_surrogate d) eqn:El.
        + cbn [app]. rewrite parse_string_plain by lia.
          unfold Utf.is_low_surrogate in El.
          rewrite parse_string_plain by lia.
          apply cons_char_ok, cons_char_ok. apply IH.
          * simpl in Hle |- *. lia.
          * now inversion_clear Hs'.
        + rewrite <- app_assoc, (parse_string_escape_u _ _ Hc). apply cons_char_ok, IHs. }
    destruct (Utf.is_low_surrogate c) eqn:El.
    { rewrite <- app_assoc, (parse_string_escape_u _ _ Hc). apply cons_char_ok, IHs. }
    cbn [app]. rewrite parse_string_plain by lia. apply cons_char_ok, IHs.
Qed.

Lemma parse_digits_end (n : Z) (rest : jsstring) :
  follows_value rest -> Json.parse_digits n rest = (n, rest).
Proof.
  destruct rest as [| c rest]; [reflexivity |]. cbn [follows_value Json.parse_digits].
  intros H. unfold Char.is_digit.
  replace ((48 <=? c) && (c <=? 57)) with false by lia. reflexivity.
Qed.

Lemma digits_app (fuel : nat) (n : Z) (acc rest : jsstring) :
  (Json.digits fuel n acc ++ rest)%list = Json.digits fuel n (acc ++ rest).
Proof.
  revert n acc. induction fuel as [| f IH]; intros n acc; cbn [Json.digits].
  - reflexivity.
  - destruct (n <? 10); [reflexivity |]. now rewrite IH.
Qed.

Lemma parse_digits_cons (a c : Z) (rest : jsstring) :
  Json.parse_digits a (c :: rest) =
    if Char.is_digit c then Json.parse_digits (10 * a + (c - 48)) rest else (a, c :: rest).
Proof. reflexivity. Qed.

Lemma parse_digit_step (a n : Z) (acc : jsstring) :
  Json.parse_digits a ((48 + n mod 10) :: acc) = Json.parse_digits (10 * a + n mod 10) acc.
Proof.
  rewrite parse_digits_cons. unfold Char.is_digit.
  replace ((48 <=? 48 + n mod 10) && (48 + n mod 10 <=? 57)) with true
    by (Z.div_mod_to_equations; lia).
  f_equal. lia.
Qed.

Lemma parse_digits_digits (fuel : nat) (n : Z) (acc : jsstring) :
  0 <= n < 2 ^ (Z.of_nat fuel + 1) ->
  Json.parse_digits 0 (Json.digits fuel n acc) = Json.parse_digits n acc.
Proof.
  revert n acc. induction fuel as [| f IH]; intros n acc Hn; cbn [Json.digits].
  - change (2 ^ (Z.of_nat 0 + 1)) with 2 in Hn. rewrite parse_digit_step.
    f_equal. Z.div_mod_to_equations; lia.
  - destruct (Z.ltb_spec n 10) as [L | G].
    + rewrite parse_digit_step. f_equal. Z.div_mod_to_equations; lia.
    + rewrite IH.
      * rewrite parse_digit_step. f_equal. Z.div_mod_to_equations; lia.
      * replace (Z.of_nat (S f) + 1) with (Z.succ (Z.of_nat f + 1)) in Hn by lia.
        rewrite Z.pow_succ_r in Hn by lia.
        Z.div_mod_to_equations; lia.
Qed.

Lemma digits_head (fuel : nat) (n : Z) (acc : jsstring) :
  0 < n < 2 ^ (Z.of_nat fuel + 1) ->
  exists d tl, Json.digits fuel n acc = d :: tl /\ 49 <= d <= 57.
Proof.
  revert n acc. induction fuel as [| f IH]; intros n acc Hn; cbn [Json.digits].
  - change (2 ^ (Z.of_nat 0 + 1)) with 2 in Hn.
    do 2 eexists. split; [reflexivity |]. Z.div_mod_to_equations; lia.
  - destruct (Z.ltb_spec n 10) as [L | G].
    + do 2 eexists. split; [reflexivity |]. Z.div_mod_to_equations; lia.
    + apply IH.
      replace (Z.of_nat (S f) + 1) with (Z.succ (Z.of_nat f + 1)) in Hn by lia.
      rewrite Z.pow_succ_r in Hn by lia.
      Z.div_mod_to_equations; lia.
Qed.

Lemma log2_fuel (n : Z) : 0 <= n -> 0 <= n < 2 ^ (Z.of_nat (Z.to_nat (Z.log2 n)) + 1).
Proof.
  intros H. rewrite Z2Nat.id by apply Z.log2_nonneg.
  destruct (Z.eq_dec n 0) as [-> | Hz]; [cbn; lia |].
  pose proof (Z.log2_spec n ltac:(lia)) as [_ Hs].
  replace (Z.log2 n + 1) with (Z.succ (Z.log2 n)) by lia. lia.
Qed.

(** An unsigned literal followed by what may follow a value. *)
Lemma parse_unsigned_digits (n : Z) (rest : jsstring) :
  0 <= n -> follows_value rest ->
  Json.parse_unsigned (Json.digits (Z.to_nat (Z.log2 n)) n [] ++ rest) = Ok (n, rest).
Proof.
  intros Hn Hrest. rewrite digits_app. cbn [app].
  destruct (Z.eq_dec n 0) as [-> | Hz].
  - cbn. destruct rest as [| c rest]; [reflexivity |].
    cbn [follows_value] in Hrest. unfold Char.is_digit.
    replace ((48 <=? c) && (c <=? 57)) with false by lia. reflexivity.
  - pose proof (log2_fuel n Hn) as Hf.
    destruct (digits_head (Z.to_nat (Z.log2 n)) n rest ltac:(lia)) as (d & tl & E & Hd).
    unfold Json.parse_unsigned. rewrite E.
    destruct (Z.eqb_spec d 48); [lia |]. unfold Char.is_digit.
    replace ((48 <=? d) && (d <=? 57)) with true by lia.
    rewrite <- E, parse_digits_digits by exact Hf.
    now rewrite parse_digits_end.
Qed.

Lemma parse_number_decimal (n : Z) (rest : jsstring) :
  follows_value rest ->
  Json.parse_number (Json.decimal n ++ rest) = Ok (JNum n, rest).
Proof.
  intros Hrest. unfold Json.decimal, Json.parse_number.
  assert (Htail : match rest with
                  | c :: _ => (c =? 46) || (c =? 101) || (c =? 69) = false
                  | [] => True
                  end).
  { destruct rest as [| c rest]; [exact I |]. cbn [follows_value] in Hrest. lia. }
  destruct (Z.ltb_spec n 0) as [L | G].
  - cbn [app Z.eqb Pos.eqb]. rewrite parse_unsigned_digits by (lia || assumption).
    cbn [bind fst snd]. replace (- - n) with n by lia.
    destruct rest as [| c rest]; [reflexivity |]. now rewrite Htail.
  - destruct (Z.eq_dec n 0) as [-> | Hz].
    + cbn. destruct rest as [| c rest]; [reflexivity |].
      cbn [follows_value] in Hrest. unfold Char.is_digit.
      replace ((48 <=? c) && (c <=? 57)) with false by lia. cbn.
      now rewrite Htail.
    + pose proof (log2_fuel n G) as Hf.
      destruct (digits_head (Z.to_nat (Z.log2 n)) n [] ltac:(lia)) as (d & tl & E & Hd).
      pose proof (parse_unsigned_digits n rest G Hrest) as Hu.
      rewrite E in Hu |- *. cbn [app] in Hu |- *.
      destruct (Z.eqb_spec d 45); [lia |]. rewrite Hu. cbn [bind fst snd].
      destruct rest as [| c rest]; [reflexivity |]. now rewrite Htail.
Qed.

Lemma skip_ws_starts (s : jsstring) : starts_value s -> Json.skip_ws s = s.
Proof.
  destruct s as [| c s]; [contradiction |]. intros [H _]. cbn [Json.skip_ws]. now rewrite H.
Qed.

Lemma decimal_head (n : Z) :
  exists c tl, Json.decimal n = c :: tl /\ (c = 45 \/ 48 <= c <= 57).
Proof.
  unfold Json.decimal. destruct (Z.ltb_spec n 0) as [L | G].
  - do 2 eexists. split; [reflexivity | now left].
  - destruct (Z.eq_dec n 0) as [-> | Hz].
    + exists 48, []. split; [reflexivity | right; lia].
    + pose proof (log2_fuel n G) as Hf.
      destruct (digits_head (Z.to_nat (Z.log2 n)) n [] ltac:(lia)) as (d & tl & E & Hd).
      exists d, tl. split; [exact E | right; lia].
Qed.

Lemma stringify_starts (v : Json.jvalue) (rest : jsstring) :
  starts_value (Json.stringify v ++ rest).
Proof.
  destruct v as [| | [|] | n | s | items | fields];
    try (cbn; repeat split; discriminate).
  destruct (decimal_head n) as (c & tl & E & Hc).
  cbn [Json.stringify]. rewrite E. cbn. unfold Json.is_ws. repeat split; lia.
Qed.

Lemma parse_value_number (fuel : nat) (c : Z) (r : jsstring) :
  c = 45 \/ 48 <= c <= 57 ->
  Json.parse_value (S fuel) (c :: r) = Json.parse_number (c :: r).
Proof.
  intros H.
  assert (Hc : In c [45; 48; 49; 50; 51; 52; 53; 54; 55; 56; 57]) by (cbn; lia).
  cbn [In] in Hc.
  repeat (destruct Hc as [<- | Hc]; [reflexivity |]). contradiction.
Qed.

Lemma size_arr (items : list Json.jvalue) : size (JArr items) = S (items_size items).
Proof.
  reflexivity.
Qed.

Lemma size_obj (fields : list (jsstring * Json.jvalue)) :
  size (JObj fields) = S (fields_size fields).
Proof.
  cbn [size]. f_equal. induction fields as [| [k x] fields IH]; [reflexivity |].
  cbn [fields_size fold_right snd]. f_equal. exact IH.
Qed.

Lemma printable_arr (x : Json.jvalue) (items : list Json.jvalue) :
  printable (JArr (x :: items)) <-> printable x /\ printable (JArr items).
Proof. reflexivity. Qed.

Lemma printable_obj (k : jsstring) (x : Json.jvalue) (fields : list (jsstring * Json.jvalue)) :
  printable (JObj ((k, x) :: fields))
  <-> Forall is_unit k /\ printable x /\ printable (JObj fields).
Proof. reflexivity. Qed.

Lemma stringify_obj (fields : list (jsstring * Json.jvalue)) :
  printable (JObj fields) ->
  Json.stringify (JObj fields) = 123 :: Json.join 44 (map member_text fields) ++ [125].
Proof.
  intros H. cbn [Json.stringify]. do 3 f_equal.
  induction fields as [| [k x] fields IH]; [reflexivity |].
  apply printable_obj in H as (_ & Hx & Hrest).
  cbn [map]. rewrite <- (IH Hrest).
  destruct x; try reflexivity. contradiction.
Qed.

Lemma stringify_arr (items : list Json.jvalue) :
  Json.stringify (JArr items) = 91 :: Json.join 44 (map Json.stringify items) ++ [93].
Proof. reflexivity. Qed.

Lemma join_two (sep : Z) (p q : jsstring) (rest : list jsstring) :
  Json.join sep (p :: q :: rest) = p ++ sep :: Json.join sep (q :: rest).
Proof. reflexivity. Qed.

Lemma parse_value_array (fuel : nat) (r : jsstring) :
  starts_value r ->
  Json.parse_value (S fuel) (91 :: r) = Json.parse_elements fuel r [].
Proof.
  intros H. rewrite <- (skip_ws_starts r H) at 1.
  destruct r as [| c tl]; [contradiction |]. destruct H as (Hws & H93 & _).
  cbn [Json.parse_value Json.skip_ws Json.is_ws Z.eqb Pos.eqb orb].
  rewrite Hws.
  destruct c as [| p | p]; try reflexivity.
  do 7 (try (destruct p as [p | p |]; try reflexivity));
    first [congruence | cbv in Hws; discriminate Hws].
Qed.

Lemma parse_elements_items (items : list Json.jvalue) :
  Forall (fun x => printable x -> parses x) items ->
  forall x, (printable x -> parses x) -> printable x -> printable (JArr items) ->
  forall fuel acc rest,
    (S (size x) + items_size items <= fuel)%nat ->
    Json.parse_elements fuel
      (Json.join 44 (map Json.stringify (x :: items)) ++ 93 :: rest) acc
    = Ok (JArr (rev acc ++ x :: items), rest).
Proof.
  induction 1 as [| y items Hy _ IH]; intros x Hx Px Pitems fuel acc rest Hfuel.
  - destruct fuel as [| f]; [lia |]. cbn [map Json.join Json.parse_elements].
    rewrite (Hx Px f (93 :: rest)) by (cbn; lia || auto).
    cbn. reflexivity.
  - destruct fuel as [| f]; [lia |].
    apply printable_arr in Pitems as [Py Pitems].
    cbn [items_size fold_right] in Hfuel. fold (items_size items) in Hfuel.
    cbn [map]. rewrite join_two, <- app_assoc. cbn [app Json.parse_elements].
    rewrite (Hx Px f) by (cbn; lia || auto).
    cbn [bind fst snd Json.skip_ws Json.is_ws Z.eqb Pos.eqb orb].
    change (Json.stringify y :: map Json.stringify items)
      with (map Json.stringify (y :: items)).
    rewrite (IH y Hy Py Pitems f (x :: acc) rest) by lia.
    cbn [rev]. now rewrite <- app_assoc.
Qed.
Lemma member_text_app (k : jsstring) (x : Json.jvalue) (tail : jsstring) :
  member_text (k, x) ++ tail
  = 34 :: Json.escape k ++ 34 :: 58 :: Json.stringify x ++ tail.
Proof.
  unfold member_text, Json.quote. cbn [fst snd app].
  now rewrite <- !app_assoc.
Qed.

Lemma parse_members_step (f : nat) (k : jsstring) (x : Json.jvalue) (tail : jsstring)
  (acc : list (jsstring * Json.jvalue)) :
  Forall is_unit k ->
  Json.parse_value f (Json.stringify x ++ tail) = Ok (x, tail) ->
  Json.parse_members (S f) (member_text (k, x) ++ tail) acc =
    match Json.skip_ws tail with
    | 44 :: r => Json.parse_members f r ((k, x) :: acc)
    | 125 :: r => Ok (JObj (rev ((k, x) :: acc)), r)
    | _ => Json.syntax_error "Expected ',' or '}' after property value in JSON"
    end.
Proof.
  intros Hk Hx. rewrite member_text_app.
  cbn [Json.parse_members Json.skip_ws Json.is_ws Z.eqb Pos.eqb orb].
  rewrite (parse_escaped_string k Hk).
  cbn [bind fst snd Json.skip_ws Json.is_ws Z.eqb Pos.eqb orb].
  rewrite Hx. reflexivity.
Qed.

Lemma parse_members_fields (fields : list (jsstring * Json.jvalue)) :
  Forall (fun kv => printable (snd kv) -> parses (snd kv)) fields ->
  forall k x, (printable x -> parses x) -> Forall is_unit k -> printable x ->
  printable (JObj fields) ->
  forall fuel acc rest,
    (S (size x) + fields_size fields <= fuel)%nat ->
    Json.parse_members fuel
      (Json.join 44 (map member_text ((k, x) :: fields)) ++ 125 :: rest) acc
    = Ok (JObj (rev acc ++ (k, x) :: fields), rest).
Proof.
  induction 1 as [| [k' y] fields Hy _ IH];
    intros k x Hx Hk Px Pfields fuel acc rest Hfuel.
  - destruct fuel as [| f]; [lia |]. cbn [map Json.join].
    rewrite parse_members_step; [| exact Hk | apply (Hx Px); [cbn in Hfuel; lia | cbn; auto]].
    cbn. reflexivity.
  - destruct fuel as [| f]; [lia |].
    apply printable_obj in Pfields as (Hk' & Py & Pfields).
    cbn [fields_size fold_right snd] in Hfuel. fold (fields_size fields) in Hfuel.
    cbn [map]. rewrite join_two, <- app_assoc. cbn [app].
    rewrite parse_members_step; [| exact Hk | apply (Hx Px); [lia | cbn; auto]].
    cbn [Json.skip_ws Json.is_ws Z.eqb Pos.eqb orb].
    change (member_text (k', y) :: map member_text fields)
      with (map member_text ((k', y) :: fields)).
    refine (eq_trans (IH k' y Hy Hk' Py Pfields f ((k, x) :: acc) rest _) _); [lia |].
    cbn [rev]. now rewrite <- app_assoc.
Qed.

Lemma follows_nothing : follows_value [].
Proof. exact I. Qed.

(** The parser of the reference platform reads back every printable
    value. *)
Lemma parse_stringify (v : Json.jvalue) : printable v -> parses v.
Proof.
  induction v as [| | b | n | s | items IH | fields IH] using jsval_deep_ind;
    intros Pv fuel rest Hfuel Hrest.
  - contradiction.
  - destruct fuel as [| f]; [cbn in Hfuel; lia |]. reflexivity.
  - destruct fuel as [| f]; [cbn in Hfuel; lia |]. destruct b; reflexivity.
  - destruct fuel as [| f]; [cbn in Hfuel; lia |].
    destruct (decimal_head n) as (c & tl & E & Hc).
    cbn [Json.stringify]. rewrite E. cbn [app].
    rewrite (parse_value_number f c _ Hc).
    change (c :: tl ++ rest) with ((c :: tl) ++ rest). rewrite <- E.
    now apply parse_number_decimal.
  - destruct fuel as [| f]; [cbn in Hfuel; lia |].
    cbn [Json.stringify]. unfold Json.quote. cbn [app].
    rewrite <- app_assoc. cbn [app].
    cbn [Json.parse_value Json.skip_ws Json.is_ws Z.eqb Pos.eqb orb].
    rewrite (parse_escaped_string s Pv). reflexivity.
  - rewrite size_arr in Hfuel. destruct fuel as [| f]; [lia |].
    rewrite stringify_arr. cbn [app]. rewrite <- app_assoc. cbn [app].
    destruct items as [| x items].
    + reflexivity.
    + rewrite parse_value_array.
      * inversion_clear IH as [| ? ? Hx Hitems].
        apply printable_arr in Pv as [Px Pitems].
        refine (eq_trans (parse_elements_items items Hitems x Hx Px Pitems f [] rest _) _).
        -- cbn [items_size fold_right] in Hfuel. fold (items_size items) in Hfuel. lia.
        -- reflexivity.
      * destruct items as [| y items]; cbn [map Json.join].
        -- apply stringify_starts.
        -- rewrite <- app_assoc. apply stringify_starts.
  - rewrite size_obj in Hfuel. destruct fuel as [| f]; [lia |].
    rewrite (stringify_obj _ Pv). cbn [app]. rewrite <- app_assoc. cbn [app].
    destruct fields as [| [k x] fields].
    + reflexivity.
    + inversion_clear IH as [| ? ? Hx Hfields]. cbn [snd] in Hx.
      apply printable_obj in Pv as (Hk & Px & Pfields).
      assert (Hhead : forall tail, exists tl,
                 Json.join 44 (map member_text ((k, x) :: fields)) ++ tail = 34 :: tl).
      { intros tail. destruct fields as [| kv fields]; cbn [map Json.join].
        - rewrite member_text_app. eauto.
        - rewrite <- app_assoc, member_text_app. eauto. }
      destruct (Hhead (125 :: rest)) as [tl Etl].
      assert (Hm : Json.parse_members f (34 :: tl) [] = Ok (JObj ((k, x) :: fields), rest)).
      { rewrite <- Etl.
        refine (eq_trans (parse_members_fields fields Hfields k x Hx Hk Px Pfields f [] rest _) _);
          [| reflexivity].
        cbn [fields_size fold_right snd] in Hfuel. fold (fields_size fields) in Hfuel. lia. }
      refine (eq_trans _ Hm). rewrite Etl. reflexivity.
Qed.
Lemma join_length {A : Type} (text : A -> jsstring) (sz : A -> nat) (l : list A) :
  Forall (fun a => (sz a <= List.length (text a))%nat) l ->
  (fold_right (fun a acc => S (sz a) + acc) O l
   <= S (List.length (Json.join 44 (map text l))))%nat.
Proof.
  induction 1 as [| a l Ha Hl IH]; [cbn; lia |].
  destruct l as [| b l].
  - cbn. lia.
  - cbn [map] in IH |- *. rewrite join_two. cbn [fold_right] in IH |- *.
    rewrite length_app. cbn [List.length]. lia.
Qed.

Lemma size_le_length (v : Json.jvalue) :
  printable v -> (size v <= List.length (Json.stringify v))%nat.
Proof.
  induction v as [| | b | n | s | items IH | fields IH] using jsval_deep_ind; intros Pv.
  - contradiction.
  - cbn. lia.
  - destruct b; cbn; lia.
  - destruct (decimal_head n) as (c & tl & E & _). cbn [Json.stringify size].
    rewrite E. cbn. lia.
  - cbn [Json.stringify size]. unfold Json.quote. cbn [List.length]. lia.
  - rewrite size_arr, stringify_arr. cbn [List.length]. rewrite length_app. cbn [List.length].
    assert (H : Forall (fun x => (size x <= List.length (Json.stringify x))%nat) items).
    { clear - IH Pv. induction IH as [| x items Hx _ IHitems]; [constructor |].
      apply printable_arr in Pv as [Px Pitems]. constructor; auto. }
    pose proof (join_length Json.stringify size items H). unfold items_size. lia.
  - rewrite size_obj, (stringify_obj _ Pv). cbn [List.length]. rewrite length_app.
    cbn [List.length].
    assert (H : Forall (fun kv => (size (snd kv) <= List.length (member_text kv))%nat) fields).
    { clear - IH Pv. induction IH as [| [k x] fields Hx _ IHfields]; [constructor |].
      apply printable_obj in Pv as (_ & Px & Pfields). constructor; [| auto].
      unfold member_text. cbn [fst snd] in *. rewrite length_app. cbn [List.length].
      specialize (Hx Px). lia. }
    pose proof (join_length member_text (fun kv => size (snd kv)) fields H).
    unfold fields_size. lia.
Qed.

(** On the reference platform JSON.parse undoes JSON.stringify. *)
Lemma parse_of_stringify (v : Json.jvalue) :
  printable v -> Json.parse (Json.stringify v) = Ok v.
Proof.
  intros Pv. unfold Json.parse.
  pose proof (parse_stringify v Pv (S (List.length (Json.stringify v))) []
                ltac:(pose proof (size_le_length v Pv); lia) follows_nothing) as H.
  rewrite app_nil_r in H. rewrite H. reflexivity.
Qed.

(** On the reference platform the page recovers every printable value
    whose JSON text is ASCII. *)
Lemma reference_round_trip (offset : Z) (env : Env) (v : Json.jvalue) :
  printable v ->
  Forall is_ascii (Json.stringify v) ->
  payload (page_state (@page_load (reference_platform offset) env
                         (search_of (Json.stringify v)))) = v.
Proof.
  intros Pv Hascii.
  assert (Hne : Json.stringify v <> []).
  { pose proof (stringify_starts v []) as H. rewrite app_nil_r in H.
    destruct (Json.stringify v); [contradiction | discriminate]. }
  rewrite page_state_of_page_load.
  rewrite (@decode_effect_of_text (reference_platform offset) _ (ascii_units _ Hascii) Hne).
  rewrite (utf8_encode_ascii _ Hascii).
  change (@JSON_parse (reference_platform offset)) with Json.parse.
  now rewrite (parse_of_stringify v Pv).
Qed.
End JsonFacts.

(** * Further properties *)

(** ** The decoder, on what it is given *)

Section DecoderBytes.
Import Char.

Lemma value_of_range (c v : Z) : Base64.value_of c = Some v -> is_sextet v.
Proof.
  unfold Base64.value_of, is_sextet, is_upper, is_lower, is_digit, plus, slash.
  destruct ((65 <=? c) && (c <=? 90)) eqn:E1; [intros [= <-]; lia |].
  destruct ((97 <=? c) && (c <=? 122)) eqn:E2; [intros [= <-]; lia |].
  destruct ((48 <=? c) && (c <=? 57)) eqn:E3; [intros [= <-]; lia |].
  destruct (c =? 43); [intros [= <-]; lia |].
  destruct (c =? 47); [intros [= <-]; lia | discriminate].
Qed.

Lemma sextets_range (s : jsstring) (vs : list Z) :
  Base64.sextets s = Some vs -> Forall is_sextet vs.
Proof.
  revert vs. induction s as [| c rest IH]; intros vs H.
  - injection H as <-. constructor.
  - simpl in H. destruct (Base64.value_of c) eqn:Ec; [| discriminate].
    destruct (Base64.sextets rest) eqn:Er; [| discriminate].
    injection H as <-. constructor; [eapply value_of_range; eauto | eauto].
Qed.

Lemma bytes_of_sextets_range (vs : list Z) :
  Forall is_sextet vs -> Forall is_byte (Base64.bytes_of_sextets vs).
Proof.
  assert (H : forall n vs, (List.length vs <= n)%nat -> Forall is_sextet vs ->
                           Forall is_byte (Base64.bytes_of_sextets vs)).
  { unfold is_sextet, is_byte.
    induction n as [| n IH]; intros l Hl Hs.
    - destruct l; [constructor | simpl in Hl; lia].
    - destruct l as [| a [| b [| c [| d rest]]]]; try (constructor; fail).
      + inversion_clear Hs as [| ? ? Ha Hs']. inversion_clear Hs' as [| ? ? Hb _].
        cbn. repeat constructor; Z.div_mod_to_equations; lia.
      + inversion_clear Hs as [| ? ? Ha Hs']. inversion_clear Hs' as [| ? ? Hb Hs''].
        inversion_clear Hs'' as [| ? ? Hc _].
        cbn. repeat constructor; Z.div_mod_to_equations; lia.
      + inversion_clear Hs as [| ? ? Ha Hs']. inversion_clear Hs' as [| ? ? Hb Hs''].
        inversion_clear Hs'' as [| ? ? Hc Hs3]. inversion_clear Hs3 as [| ? ? Hd Hrest].
        cbn [Base64.bytes_of_sextets].
        repeat (constructor; [Z.div_mod_to_equations; lia |]).
        apply IH; [simpl in Hl; lia | exact Hrest]. }
  intros Hs. exact (H _ vs (le_n _) Hs).
Qed.

Lemma atob_bytes (s text : jsstring) : Base64.atob s = Ok text -> Forall is_byte text.
Proof.
  unfold Base64.atob, Base64.forgiving_decode. intros H.
  destruct (Z.of_nat _ mod 4 =? 1); [discriminate |].
  destruct (Base64.sextets _) as [vs |] eqn:E; [| discriminate].
  injection H as <-. apply bytes_of_sextets_range. eapply sextets_range; eauto.
Qed.

(** X1.  The text [decodeBase64UrlSafe] returns, and the page hands to
    JSON.parse, is made of bytes: every one of its code units is below 256,
    whatever the argument was. *)
Theorem decoded_text_is_bytes (s text : jsstring) :
  decodeBase64UrlSafe s = Ok text -> Forall is_byte text.
Proof.
  rewrite decodeBase64UrlSafe_steps. intros H.
  apply bind_ok in H as [decoded [_ H]]. eapply atob_bytes; eauto.
Qed.
End DecoderBytes.

Lemma decoded_text_is_bytes_witness :
  decodeBase64UrlSafe (str "4LCk4LCV4LGB") = Ok [224; 176; 164; 224; 176; 149; 224; 177; 129]
  /\ Forall is_byte [224; 176; 164; 224; 176; 149; 224; 177; 129].
Proof.
  split; [vm_compute; reflexivity |].
  apply (decoded_text_is_bytes (str "4LCk4LCV4LGB")). vm_compute. reflexivity.
Defined.

Section DecoderAlphabets.
Import Char.

Lemma safe_char_percent (c : Z) : (safe_char c =? percent) = (c =? percent).
Proof.
  unfold safe_char, plus, slash, minus, underscore, percent.
  destruct (Z.eqb_spec c 43); [subst; reflexivity |].
  destruct (Z.eqb_spec c 47); [subst; reflexivity | reflexivity].
Qed.

Lemma safe_char_hex (c : Z) : hex_value (safe_char c) = hex_value c.
Proof.
  unfold safe_char, plus, slash, minus, underscore.
  destruct (Z.eqb_spec c 43); [subst; reflexivity |].
  destruct (Z.eqb_spec c 47); [subst; reflexivity | reflexivity].
Qed.

Lemma fixed_app (a b : jsstring) : fixed (a ++ b) = fixed a ++ fixed b.
Proof. unfold fixed, replace_all. now rewrite !map_app. Qed.

Lemma fixed_safe_char (c : Z) : fixed [safe_char c] = fixed [c].
Proof.
  unfold fixed, replace_all, safe_char, plus, slash, minus, underscore. cbn [map].
  destruct (Z.eqb_spec c 43); [subst; reflexivity |].
  destruct (Z.eqb_spec c 47); [subst; reflexivity | reflexivity].
Qed.

Lemma alike_cons (pre pre' : jsstring) (r r' : result jsstring) :
  fixed pre = fixed pre' -> alike r r' ->
  alike (x <- r ;; Ok (pre ++ x))%js (x <- r' ;; Ok (pre' ++ x))%js.
Proof.
  intros Hp H. destruct r, r'; cbn in *; try assumption.
  now rewrite !fixed_app, Hp, H.
Qed.

(** decodeURIComponent reads a text and its URL-safe form alike, escapes
    included. *)
Lemma decode_url_safe (n : nat) :
  forall s pending, (List.length s <= n)%nat ->
    alike (Uri.decode pending s) (Uri.decode pending (Base64.to_url_safe s)).
Proof.
  induction n as [| n IH]; intros s pending Hn.
  - destruct s; [| simpl in Hn; lia]. destruct pending; cbn; reflexivity.
  - destruct s as [| c rest]; [destruct pending; cbn; reflexivity |].
    change (Base64.to_url_safe (c :: rest)) with (safe_char c :: Base64.to_url_safe rest).
    cbn [Uri.decode]. rewrite safe_char_percent.
    destruct (c =? percent).
    + destruct rest as [| h1 [| h2 rest']]; try (cbn; reflexivity).
      change (Base64.to_url_safe (h1 :: h2 :: rest'))
        with (safe_char h1 :: safe_char h2 :: Base64.to_url_safe rest').
      cbv iota. rewrite !safe_char_hex.
      destruct (hex_value h1) as [a |]; [| cbn; reflexivity].
      destruct (hex_value h2) as [b |]; [| cbn; reflexivity].
      cbv zeta.
      assert (Hr : forall p, alike (Uri.decode p rest')
                               (Uri.decode p (Base64.to_url_safe rest'))).
      { intros p. apply IH. simpl in Hn. lia. }
      destruct pending as [[octets k] |].
      * destruct (Z.of_nat (List.length (16 * a + b :: octets)) =? k); [| apply Hr].
        destruct (Utf.utf8_codepoint _); [| cbn; reflexivity].
        apply alike_cons; [reflexivity | apply Hr].
      * destruct (Uri.leading_ones (16 * a + b) =? 0).
        -- apply (alike_cons [_] [_]); [reflexivity | apply Hr].
        -- destruct ((Uri.leading_ones (16 * a + b) =? 1)
                     || (4 <? Uri.leading_ones (16 * a + b)));
             [cbn; reflexivity | apply Hr].
    + destruct pending; [cbn; reflexivity |].
      apply (alike_cons [c] [safe_char c]); [symmetry; apply fixed_safe_char |].
      apply IH. simpl in Hn. lia.
Qed.

Lemma to_url_safe_alike (s : jsstring) :
  decodeBase64UrlSafe (Base64.to_url_safe s) = decodeBase64UrlSafe s.
Proof.
  rewrite !decodeBase64UrlSafe_steps. unfold Uri.decodeURIComponent.
  pose proof (decode_url_safe _ s None (le_n _)) as H. unfold alike in H.
  destruct (Uri.decode None s) as [a | e],
    (Uri.decode None (Base64.to_url_safe s)) as [b | e'];
    try contradiction; cbn [bind].
  - fold (fixed a). fold (fixed b). now rewrite H.
  - now subst.
Qed.

(** X2.  The decoder does not tell the two alphabets apart: a parameter
    and the same parameter with [-] for every [+] and [_] for every [/]
    give the same text, or throw the same exception. *)
Theorem url_safe_alphabet_read_alike (s : jsstring) :
  decodeBase64UrlSafe (Base64.to_url_safe s) = decodeBase64UrlSafe s.
Proof.
  rewrite !decodeBase64UrlSafe_steps. unfold Uri.decodeURIComponent.
  pose proof (decode_url_safe (List.length s) s None (le_n _)) as H.
  destruct (Uri.decode None s) as [a | e] eqn:Ea;
    destruct (Uri.decode None (Base64.to_url_safe s)) as [b | e'] eqn:Eb;
    cbn [alike bind] in *; try contradiction.
  - fold (fixed a). fold (fixed b). now rewrite H.
  - now subst.
Qed.

Lemma unpadded_chars (bytes : list Z) :
  Forall is_byte bytes ->
  Forall (fun c => base64_char c /\ is_ascii_whitespace c = false /\ c <> equals)
    (encode_unpadded bytes).
Proof.
  intros H. apply Forall_map. eapply Forall_impl; [| exact (encode_sextets_range _ H)].
  intros v Hv. destruct (char_of_plain v Hv) as (? & ? & ? & ? & ? & ?).
  unfold base64_char. auto.
Qed.

Lemma atob_unpadded (bytes : list Z) :
  Forall is_byte bytes -> Base64.atob (encode_unpadded bytes) = Ok bytes.
Proof.
  intros H. pose proof (unpadded_chars _ H) as Hc.
  pose proof (encode_sextets_range _ H) as Hs.
  destruct (encode_sextets_length bytes) as [Hl1 _].
  unfold Base64.atob, Base64.forgiving_decode.
  assert (Hws : Base64.remove_whitespace (encode_unpadded bytes) = encode_unpadded bytes).
  { apply filter_keeps_all. eapply Forall_impl; [| exact Hc].
    intros c (_ & Hw & _). now rewrite Hw. }
  assert (Hstrip : Base64.strip_padding (encode_unpadded bytes) = encode_unpadded bytes).
  { unfold Base64.strip_padding.
    destruct (Z.of_nat (List.length (encode_unpadded bytes)) mod 4 =? 0); [| reflexivity].
    destruct (rev (encode_unpadded bytes)) as [| a r] eqn:E; [reflexivity |].
    assert (Ha : a <> equals).
    { rewrite Forall_forall in Hc. apply (Hc a). apply in_rev. rewrite E. now left. }
    destruct r; destruct (Z.eqb_spec a equals); try contradiction; reflexivity. }
  rewrite Hws, Hstrip.
  replace (Z.of_nat (List.length (encode_unpadded bytes)) mod 4 =? 1) with false.
  2:{ symmetry. apply Z.eqb_neq. unfold encode_unpadded. rewrite length_map.
      change 4 with (Z.of_nat 4). rewrite <- Nat2Z.inj_mod. lia. }
  unfold encode_unpadded. rewrite (sextets_of_chars _ Hs), (bytes_of_encode_sextets _ H).
  reflexivity.
Qed.

(** The first two steps of the decoder leave a text of the standard
    alphabet as it is. *)
Lemma decodeBase64UrlSafe_standard (s : jsstring) :
  Forall base64_char s -> decodeBase64UrlSafe s = Base64.atob s.
Proof.
  intros H. rewrite decodeBase64UrlSafe_steps. unfold Uri.decodeURIComponent.
  rewrite decode_without_percent
    by (eapply Forall_impl; [| exact H]; unfold base64_char; tauto).
  cbn [bind].
  rewrite (replace_all_absent minus plus)
    by (eapply Forall_impl; [| exact H]; unfold base64_char; tauto).
  rewrite (replace_all_absent underscore slash)
    by (eapply Forall_impl; [| exact H]; unfold base64_char; tauto).
  reflexivity.
Qed.

Lemma base64_text_standard (padded : bool) (bytes : list Z) :
  Forall is_byte bytes -> Forall base64_char (base64_text Standard padded bytes).
Proof.
  intros H. destruct padded; cbn [base64_text].
  - exact (encode_chars _ H).
  - eapply Forall_impl; [| exact (unpadded_chars _ H)]. intros c Hc. exact (proj1 Hc).
Qed.

Lemma decodeBase64UrlSafe_base64_text (a : alphabet) (padded : bool) (bytes : list Z) :
  Forall is_byte bytes -> decodeBase64UrlSafe (base64_text a padded bytes) = Ok bytes.
Proof.
  intros H.
  assert (Hstd : decodeBase64UrlSafe (base64_text Standard padded bytes) = Ok bytes).
  { rewrite (decodeBase64UrlSafe_standard _ (base64_text_standard padded _ H)).
    destruct padded; [now apply atob_encode | now apply atob_unpadded]. }
  destruct a; [exact Hstd |].
  change (base64_text UrlSafe padded bytes)
    with (Base64.to_url_safe (base64_text Standard padded bytes)).
  now rewrite to_url_safe_alike.
Qed.

(** X3.  The padding is optional: the Base64 of a sequence of bytes cut
    before its [=] signs, in the standard or in the URL-safe alphabet, is
    decoded to the text that has one code unit for each byte. *)
Theorem unpadded_base64_decodes (bytes : list Z) :
  Forall is_byte bytes ->
  decodeBase64UrlSafe (encode_unpadded bytes) = Ok bytes
  /\ decodeBase64UrlSafe (Base64.to_url_safe (encode_unpadded bytes)) = Ok bytes.
Proof.
  intros H. split.
  - exact (decodeBase64UrlSafe_base64_text Standard false bytes H).
  - exact (decodeBase64UrlSafe_base64_text UrlSafe false bytes H).
Qed.
End DecoderAlphabets.

(** The text [{"q":"a?>b~"}], whose Base64 is [eyJxIjoiYT8+Yn4ifQ==]. *)
Lemma unpadded_base64_decodes_witness :
  Forall is_byte tilde_text
  /\ Base64.to_url_safe (encode_unpadded tilde_text) = str "eyJxIjoiYT8-Yn4ifQ"
  /\ decodeBase64UrlSafe (str "eyJxIjoiYT8-Yn4ifQ") = Ok tilde_text.
Proof.
  assert (Hb : Forall is_byte tilde_text).
  { unfold is_byte. vm_compute. repeat constructor; discriminate. }
  split; [exact Hb |]. split; [vm_compute; reflexivity |].
  exact (proj2 (unpadded_base64_decodes _ Hb)).
Defined.

(** ** The links the page accepts *)

Section LinkFacts.
Import Char.

Lemma percent_decode_plain (s : list Z) :
  Forall (fun c => c <> percent) s -> Uri.percent_decode s = s.
Proof.
  induction 1 as [| c s Hc _ IH]; [reflexivity |].
  cbn [Uri.percent_decode]. destruct (Z.eqb_spec c percent); [contradiction |].
  now rewrite IH.
Qed.

Lemma plus_to_space_unescaped (s : list Z) :
  Forall unescaped s ->
  Forall (fun c => c <> percent) (Uri.plus_to_space s)
  /\ Forall is_ascii (Uri.plus_to_space s).
Proof.
  unfold unescaped, is_ascii, Uri.plus_to_space, percent, plus, space, amp.
  intros H. split; apply Forall_map; (eapply Forall_impl; [| exact H]);
    intros c Hc; cbn beta in *; destruct (Z.eqb_spec c 43); lia.
Qed.

Lemma get_unescaped (s : jsstring) :
  Forall unescaped s ->
  Uri.get (Uri.URLSearchParams (str "?data=" ++ s)) (str "data")
  = Some (Uri.plus_to_space s).
Proof.
  intros Hs.
  assert (Hascii : Forall is_ascii (str "data=" ++ s)).
  { apply Forall_app. split.
    - unfold is_ascii. cbn. repeat constructor; lia.
    - eapply Forall_impl; [| exact Hs]. now intros c [? _]. }
  assert (Hamp : Forall (fun c => c <> amp) (str "data=" ++ s)).
  { apply Forall_app. split.
    - unfold amp. cbn. repeat constructor; lia.
    - eapply Forall_impl; [| exact Hs]. now intros c (_ & ? & _). }
  destruct (plus_to_space_unescaped _ Hs) as [Hp Ha].
  change (Uri.URLSearchParams (str "?data=" ++ s))
    with (Uri.parse_urlencoded (Utf.utf8_encode (str "data=" ++ s))).
  rewrite (utf8_encode_ascii _ Hascii).
  unfold Uri.parse_urlencoded. rewrite (split_on_absent _ _ Hamp).
  change (str "data=" ++ s) with (100 :: 97 :: 116 :: 97 :: 61 :: s).
  cbn [filter List.length Nat.eqb negb map Uri.split_pair Z.eqb equals Pos.eqb].
  unfold Uri.urldecode at 2.
  rewrite (percent_decode_plain _ Hp), (utf8_decode_ascii _ Ha).
  reflexivity.
Qed.

Lemma decode_encodeURIComponent (s : jsstring) :
  Forall is_ascii s -> Uri.decodeURIComponent (Uri.encodeURIComponent s) = Ok s.
Proof.
  intros Hs. unfold Uri.decodeURIComponent, Uri.encodeURIComponent.
  rewrite (utf8_encode_ascii _ Hs).
  induction Hs as [| b s Hb _ IH]; [reflexivity |].
  cbn [flat_map]. unfold Uri.percent_encode_byte at 1. unfold is_ascii in Hb.
  destruct (Uri.is_unreserved b) eqn:E.
  - cbn [app Uri.decode].
    destruct (Z.eqb_spec b percent) as [-> | _]; [discriminate E |].
    now rewrite IH.
  - cbn [app Uri.decode]. rewrite Z.eqb_refl.
    rewrite !hex_digit_value by (Z.div_mod_to_equations; lia).
    cbv zeta. replace (16 * (b / 16) + b mod 16) with b by (Z.div_mod_to_equations; lia).
    unfold Uri.leading_ones. replace (b <? 128) with true by lia.
    cbn [Z.eqb]. now rewrite IH.
Qed.

Lemma encodeURIComponent_ascii (s : jsstring) :
  Forall is_ascii s -> Forall is_ascii (Uri.encodeURIComponent s).
Proof.
  intros Hs. unfold Uri.encodeURIComponent. rewrite (utf8_encode_ascii _ Hs).
  assert (Hb : Forall is_byte s).
  { eapply Forall_impl; [| exact Hs]. unfold is_ascii, is_byte. lia. }
  eapply Forall_impl; [| exact (percent_encode_safe _ Hb)].
  intros c [-> | (_ & _ & _ & H)]; [unfold is_ascii, percent; lia | exact H].
Qed.

Lemma base64_text_chars (a : alphabet) (padded : bool) (bytes : list Z) :
  Forall is_byte bytes ->
  Forall (fun c => 43 <= c < 123 /\ (a = UrlSafe -> c <> plus))
    (base64_text a padded bytes).
Proof.
  intros H. pose proof (base64_text_standard padded _ H) as Hs.
  destruct a.
  - eapply Forall_impl; [| exact Hs]. unfold base64_char.
    intros c Hc. split; [tauto | discriminate].
  - change (base64_text UrlSafe padded bytes)
      with (Base64.to_url_safe (base64_text Standard padded bytes)).
    apply Forall_map. eapply Forall_impl; [| exact Hs].
    unfold base64_char, plus, slash, minus, underscore. intros c Hc. cbn beta.
    destruct (Z.eqb_spec c 43); [split; [lia | intros _; lia] |].
    destruct (Z.eqb_spec c 47); split; try lia; intros _; lia.
Qed.

Lemma base64_text_nonempty (a : alphabet) (padded : bool) (bytes : list Z) :
  bytes <> [] -> base64_text a padded bytes <> [].
Proof.
  destruct bytes as [| x [| y [| z l]]]; [congruence | | |];
    intros _; destruct a, padded; discriminate.
Qed.

(** The state after the first effect, from the value of the parameter. *)
Lemma decode_effect_of_raw {P : Platform} (search raw text : jsstring) :
  Uri.get (Uri.URLSearchParams search) (str "data") = Some raw ->
  raw <> [] ->
  decodeBase64UrlSafe raw = Ok text ->
  decode_effect search initial_state =
    match JSON_parse text with
    | Ok v => {| payload := v; error := None |}
    | Throw e =>
        {| payload := JNull;
           error := Some (str "Failed to parse data payload: " ++ message e) |}
    end.
Proof.
  intros Hget Hraw Hdec. unfold decode_effect. rewrite Hget.
  destruct raw as [| c raw]; [congruence |].
  rewrite Hdec. cbn [bind]. destruct (JSON_parse text); reflexivity.
Qed.

(** X4.  Of a JSON text sent as Base64 of its UTF-8, the page accepts
    every one of these forms: either alphabet, with or without padding,
    percent-encoded once or twice; and the URL-safe alphabet written as it is,
    without any percent-encoding.  In each case JSON.parse is given the text
    that has one code unit for each byte of the UTF-8, and the state of the
    page is the payload it reads there, or the message of its exception. *)
Theorem accepted_links {P : Platform} (env : Env) (a : alphabet) (padded : bool)
  (times : nat) (text : jsstring) :
  Forall (fun u => 0 <= u) text ->
  text <> [] ->
  times = 1%nat \/ times = 2%nat \/ (times = 0%nat /\ a = UrlSafe) ->
  page_state (page_load env (link a padded times text)) =
    match JSON_parse (Utf.utf8_encode text) with
    | Ok v => {| payload := v; error := None |}
    | Throw e =>
        {| payload := JNull;
           error := Some (str "Failed to parse data payload: " ++ message e) |}
    end.
Proof.
  intros Hunits Hne Htimes. rewrite page_state_of_page_load.
  pose proof (utf8_encode_bytes _ Hunits) as Hbytes.
  pose proof (utf8_encode_nonempty _ Hne) as Hbne.
  set (bytes := Utf.utf8_encode text) in *.
  pose proof (base64_text_chars a padded _ Hbytes) as Hc.
  pose proof (base64_text_nonempty a padded _ Hbne) as Hn.
  pose proof (decodeBase64UrlSafe_base64_text a padded _ Hbytes) as Hd.
  unfold link. fold bytes. set (b64 := base64_text a padded bytes) in *.
  assert (Hascii : Forall is_ascii b64).
  { eapply Forall_impl; [| exact Hc]. unfold is_ascii. intros c [? _]. lia. }
  destruct Htimes as [-> | [-> | [-> ->]]]; cbn [percent_encoded].
  - apply (decode_effect_of_raw _ b64); [now apply get_data_of_search | exact Hn | exact Hd].
  - pose proof (decode_encodeURIComponent _ Hascii) as Hround.
    apply (decode_effect_of_raw _ (Uri.encodeURIComponent b64)).
    + apply get_data_of_search. now apply encodeURIComponent_ascii.
    + intros E. rewrite E in Hround. cbn in Hround. congruence.
    + rewrite decodeBase64UrlSafe_steps, Hround. cbn [bind].
      rewrite decodeBase64UrlSafe_steps in Hd. unfold Uri.decodeURIComponent in Hd.
      rewrite decode_without_percent in Hd; [exact Hd |].
      eapply Forall_impl; [| exact Hc]. unfold percent. intros c [? _]. lia.
  - apply (decode_effect_of_raw _ b64); [| exact Hn | exact Hd].
    rewrite get_unescaped.
    + f_equal. unfold Uri.plus_to_space.
      rewrite <- (map_id b64) at 2. apply map_ext_in. intros c Hin.
      rewrite Forall_forall in Hc. destruct (Hc c Hin) as [_ Hp].
      destruct (Z.eqb_spec c plus); [now apply Hp in e | reflexivity].
    + eapply Forall_impl; [| exact Hc].
      unfold unescaped, is_ascii, amp, percent. intros c [? _]. lia.
Qed.
End LinkFacts.

(** The link with the standard alphabet, the padding, and two rounds of
    percent-encoding. *)
Lemma accepted_links_witness :
  Forall (fun u => 0 <= u) tilde_text
  /\ tilde_text <> []
  /\ link Standard true 2 tilde_text = str "?data=eyJxIjoiYT8%252BYn4ifQ%253D%253D"
  /\ payload (page_state (@page_load india friendly_env
                            (str "?data=eyJxIjoiYT8%252BYn4ifQ%253D%253D")))
     = JObj [(str "q", JStr (str "a?>b~"))].
Proof.
  assert (H : Forall (fun u => 0 <= u) tilde_text).
  { vm_compute. repeat constructor; discriminate. }
  split; [exact H |]. split; [discriminate |]. split; [vm_compute; reflexivity |].
  change (str "?data=eyJxIjoiYT8%252BYn4ifQ%253D%253D")
    with (link Standard true 2 tilde_text).
  rewrite (@accepted_links india friendly_env Standard true 2 tilde_text H
             ltac:(discriminate) ltac:(right; left; reflexivity)).
  vm_compute. reflexivity.
Defined.

Section QueryFacts.
Import Char.

Lemma utf8_encode_ascii_app (a rest : jsstring) :
  Forall is_ascii a -> Utf.utf8_encode (a ++ rest) = a ++ Utf.utf8_encode rest.
Proof.
  unfold Utf.utf8_encode, is_ascii.
  induction 1 as [| c a Hc _ IH]; [reflexivity |].
  cbn [app Utf.scalars]. unfold Utf.is_high_surrogate, Utf.is_low_surrogate.
  replace ((55296 <=? c) && (c <=? 56319)) with false by lia.
  replace ((56320 <=? c) && (c <=? 57343)) with false by lia.
  cbn [flat_map]. rewrite IH. unfold Utf.utf8_bytes.
  replace (c <? 128) with true by lia. reflexivity.
Qed.

Lemma split_on_nonempty (sep : Z) (s : list Z) : Uri.split_on sep s <> [].
Proof.
  destruct s as [| c s]; [discriminate |]. cbn [Uri.split_on].
  destruct (Uri.split_on sep s); [discriminate |]. destruct (c =? sep); discriminate.
Qed.

Lemma split_on_first (sep : Z) (s rest : list Z) :
  Forall (fun c => c <> sep) s ->
  Uri.split_on sep (s ++ sep :: rest) = s :: Uri.split_on sep rest.
Proof.
  induction 1 as [| c s Hc _ IH].
  - cbn [app Uri.split_on]. rewrite Z.eqb_refl.
    destruct (Uri.split_on sep rest) eqn:E; [now apply split_on_nonempty in E | reflexivity].
  - cbn [app Uri.split_on]. rewrite IH.
    destruct (Z.eqb_spec c sep); [contradiction | reflexivity].
Qed.

Lemma get_first (s rest : jsstring) :
  Forall unescaped s ->
  Uri.get (Uri.URLSearchParams (str "?data=" ++ s ++ amp :: rest)) (str "data")
  = Some (Uri.plus_to_space s).
Proof.
  intros Hs.
  assert (Hascii : Forall is_ascii (str "data=" ++ s)).
  { apply Forall_app. split.
    - unfold is_ascii. cbn. repeat constructor; lia.
    - eapply Forall_impl; [| exact Hs]. now intros c [? _]. }
  assert (Hamp : Forall (fun c => c <> amp) (str "data=" ++ s)).
  { apply Forall_app. split.
    - unfold amp. cbn. repeat constructor; lia.
    - eapply Forall_impl; [| exact Hs]. now intros c (_ & ? & _). }
  destruct (plus_to_space_unescaped _ Hs) as [Hp Ha].
  change (Uri.URLSearchParams (str "?data=" ++ s ++ amp :: rest))
    with (Uri.parse_urlencoded (Utf.utf8_encode (str "data=" ++ s ++ amp :: rest))).
  rewrite app_assoc, (utf8_encode_ascii_app _ _ Hascii).
  assert (Hone : Utf.utf8_encode (amp :: rest) = amp :: Utf.utf8_encode rest).
  { apply (utf8_encode_ascii_app [amp] rest). unfold is_ascii, amp.
    repeat constructor; lia. }
  rewrite Hone.
  unfold Uri.parse_urlencoded. rewrite (split_on_first _ _ _ Hamp).
  change (str "data=" ++ s) with (100 :: 97 :: 116 :: 97 :: 61 :: s).
  cbn [filter List.length Nat.eqb negb map Uri.split_pair Z.eqb equals Pos.eqb].
  cbn [Uri.get]. unfold Uri.urldecode at 1 2.
  rewrite (percent_decode_plain _ Hp), (utf8_decode_ascii _ Ha).
  reflexivity.
Qed.

(** X5.  A value written without escapes after [?data=] runs up to the
    next [&] or to the end of the query string, its [=] signs included; it
    is read as it is written except that every [+] is read as a space; what
    follows the [&], a second [data] parameter included, is not looked at. *)
Theorem value_runs_to_ampersand (s tail : jsstring) :
  Forall unescaped s ->
  tail = [] \/ (exists rest, tail = amp :: rest) ->
  Uri.get (Uri.URLSearchParams (str "?data=" ++ s ++ tail)) (str "data")
  = Some (Uri.plus_to_space s).
Proof.
  intros Hs [-> | [rest ->]].
  - rewrite app_nil_r. now apply get_unescaped.
  - now apply get_first.
Qed.
End QueryFacts.

Lemma value_runs_to_ampersand_witness :
  Forall unescaped (str "eyJxIjoiYT8+Yn4ifQ==")
  /\ Uri.get (Uri.URLSearchParams (str "?data=eyJxIjoiYT8+Yn4ifQ==&data=e30&print=1"))
       (str "data")
     = Some (str "eyJxIjoiYT8 Yn4ifQ==").
Proof.
  assert (H : Forall unescaped (str "eyJxIjoiYT8+Yn4ifQ==")).
  { unfold unescaped, is_ascii, Char.amp, Char.percent. vm_compute.
    repeat constructor; discriminate. }
  split; [exact H |].
  exact (value_runs_to_ampersand (str "eyJxIjoiYT8+Yn4ifQ==") (str "&data=e30&print=1") H
           (or_intror (ex_intro _ (str "data=e30&print=1") eq_refl))).
Defined.

(** ** A parameter that is empty *)

Section EmptyFacts.
Context {P : Platform}.
Local Open Scope string_scope.
Local Open Scope list_scope.

(** X6.  A [data] parameter that is there and empty is treated as a
    missing one: the error "No data parameter found in URL.", the error
    view, and no run of [generateAndPrint]. *)
Theorem empty_data_error_view (env : Env) (search : jsstring) :
  Uri.get (Uri.URLSearchParams search) (str "data") = Some [] ->
  page_load env search =
    {| page_state := {| payload := JNull;
                        error := Some (str "No data parameter found in URL.") |};
       page_screen := Ok (error_screen (str "No data parameter found in URL."));
       page_exports := [] |}.
Proof.
  intros H. apply page_load_error; [discriminate |].
  unfold decode_effect. rewrite H. reflexivity.
Qed.
End EmptyFacts.

(** The query string [?data=&lang=te]. *)
Lemma empty_data_error_view_witness :
  Uri.get (Uri.URLSearchParams (str "?data=&lang=te")) (str "data") = Some []
  /\ @page_load india friendly_env (str "?data=&lang=te") =
       {| page_state := {| payload := JNull;
                           error := Some (str "No data parameter found in URL.") |};
          page_screen := Ok (error_screen (str "No data parameter found in URL."));
          page_exports := [] |}.
Proof.
  split; [vm_compute; reflexivity |].
  apply (@empty_data_error_view india friendly_env (str "?data=&lang=te")).
  vm_compute. reflexivity.
Defined.

(** ** The effects of the mount, run twice *)

Section StrictFacts.
Context {P : Platform}.
Local Open Scope string_scope.
Local Open Scope list_scope.

(** The first effect reads nothing of the state it sets. *)
Lemma decode_effect_twice (search : jsstring) (st : state) :
  decode_effect search (decode_effect search st) = decode_effect search st.
Proof.
  unfold decode_effect.
  destruct (Uri.get _ _) as [[| c raw] |]; try reflexivity.
  destruct (jsonStr <- decodeBase64UrlSafe (c :: raw) ;; JSON_parse jsonStr)%js; reflexivity.
Qed.

(** X7.  The second run of the effects that [React.StrictMode] adds in a
    development build changes nothing: the state, the screen and the runs
    of [generateAndPrint] are those of the production build; in particular
    the receipt is not sent to the printer twice. *)
Theorem strict_mode_changes_nothing (env : Env) (search : jsstring) :
  page_load_strict env search = page_load env search.
Proof.
  unfold page_load_strict, page_load. rewrite decode_effect_twice. reflexivity.
Qed.

End StrictFacts.

(** ** The receipt on the screen and the run of the export *)

Section ScreenFacts.
Context {P : Platform}.
Local Open Scope string_scope.
Local Open Scope list_scope.

(** The children of the container, as JSX, and the document of a receipt
    view that React accepts. *)
Lemma receipt_view_commit (payload : value) (screen : list node) :
  (v <- receipt_view payload ;; commit v)%js = Ok screen ->
  exists problem advisory components receipt_id generated_at t c s sy no tr fo kids,
    get_prop payload "problem" = Ok problem
    /\ get_prop payload "advisory" = Ok advisory
    /\ get_prop payload "components" = Ok components
    /\ get_prop payload "receipt_id" = Ok receipt_id
    /\ get_prop payload "generated_at" = Ok generated_at
    /\ title_value (with_default problem (JObj [])) = Ok t
    /\ category_value (with_default problem (JObj [])) = Ok c
    /\ stage_value (with_default problem (JObj [])) = Ok s
    /\ get_prop (with_default advisory (JObj [])) "symptoms_te" = Ok sy
    /\ get_prop (with_default advisory (JObj [])) "notes_te" = Ok no
    /\ treatment (with_default components (JArr [])) = Ok tr
    /\ footer receipt_id generated_at = Ok fo
    /\ commit (VFrag [ header;
                       VEl "div" [] title_style [VExpr t];
                       VEl "div" [] [("marginTop", "6"); ("fontSize", "9")]
                         [labelled_line "Category:" [] c; labelled_line "Stage:" [] s];
                       text_section "Symptoms" sy;
                       text_section "Advisory" no;
                       tr;
                       fo ]) = Ok kids
    /\ screen = receipt_screen kids.
Proof.
  intros H. apply bind_ok in H as [v [Hv H]].
  destruct (receipt_view_shape _ _ Hv)
    as (problem & advisory & components & rid & gat & t & c & s & sy & no & tr & fo
        & H1 & H2 & H3 & H4 & H5 & H6 & H7 & H8 & H9 & H10 & H11 & H12 & ->).
  rewrite commit_el, commit_frag_cons, commit_el in H.
  apply bind_ok in H as [ks [Hks H]]. injection H as <-.
  apply bind_ok in Hks as [a [Ha Hks]]. apply bind_ok in Ha as [kids [Hkids Ha]].
  injection Ha as <-.
  apply bind_ok in Hks as [b [Hb Hks]]. injection Hks as <-.
  change (commit (VFrag [popup_note])) with (@Ok (list node) [note_node]) in Hb.
  injection Hb as <-.
  exists problem, advisory, components, rid, gat, t, c, s, sy, no, tr, fo, kids.
  repeat (split; [assumption |]). reflexivity.
Qed.

Lemma receipt_screen_ref (kids : list node) :
  containerRef (receipt_screen kids) = Some (container_node kids).
Proof. reflexivity. Qed.

(** What the first effect leaves in the two cells. *)
Lemma decode_effect_cases (search : jsstring) :
  (exists c msg, decode_effect search initial_state
                 = {| payload := JNull; error := Some (c :: msg) |})
  \/ (exists v, decode_effect search initial_state = {| payload := v; error := None |}).
Proof.
  unfold decode_effect.
  destruct (Uri.get _ _) as [[| c raw] |].
  - left. now do 2 eexists.
  - destruct (jsonStr <- decodeBase64UrlSafe (c :: raw) ;; JSON_parse jsonStr)%js.
    + right. now eexists.
    + left. now do 2 eexists.
  - left. now do 2 eexists.
Qed.

(** X8.  In one load of the page [generateAndPrint] runs at most once.
    It runs exactly when the receipt is on the screen, and the element it
    rasterises is then the container of the receipt: the note under the
    receipt is beside that element, not inside.  With the error view, the
    waiting view or a render that threw, it does not run. *)
Theorem export_once_on_container (env : Env) (search : jsstring) :
  let pg := page_load env search in
  (page_exports pg = [] /\ forall kids, page_screen pg <> Ok (receipt_screen kids))
  \/ (exists kids,
         page_screen pg = Ok (receipt_screen kids)
         /\ page_exports pg = [generateAndPrint env (container_node kids)]).
Proof.
  cbv zeta. unfold page_load.
  destruct (decode_effect_cases search) as [(c & msg & ->) | [v ->]].
  - left. cbn. split; [reflexivity |]. intros kids H. discriminate H.
  - unfold AutoPrintReceipt. cbn [error payload].
    destruct (truthy v) eqn:Ev; cbn [negb].
    + destruct (v0 <- receipt_view v ;; commit v0)%js as [screen |] eqn:E.
      * destruct (receipt_view_commit _ _ E)
          as (? & ? & ? & ? & ? & ? & ? & ? & ? & ? & ? & ? & kids & H).
        decompose [and] H. subst screen. right. exists kids. split; [reflexivity |].
        rewrite receipt_screen_ref. unfold export_effect, payload_changed. cbn [payload].
        rewrite Ev. destruct v; try discriminate Ev; reflexivity.
      * left. split; [reflexivity | discriminate].
    + left. cbn [bind]. change (commit preparing_view) with (@Ok (list node) preparing_screen).
      cbv iota. split.
      * unfold export_effect. cbn [payload]. rewrite Ev. cbn.
        destruct (payload_changed _); reflexivity.
      * intros kids H. discriminate H.
Qed.
End ScreenFacts.

(** ** The payloads the component builds a receipt from *)

Section BuildFacts.
Context {P : Platform}.
Local Open Scope string_scope.
Local Open Scope list_scope.

Lemma get_prop_ok (v : value) (name : string) :
  nullish v = false -> get_prop v name = Ok (prop_of v name).
Proof. destruct v; intros H; try discriminate H; reflexivity. Qed.

Lemma get_prop_throws (v : value) (name : string) :
  nullish v = true -> exists e, get_prop v name = Throw e.
Proof. destruct v; intros H; try discriminate H; now eexists. Qed.

Lemma or_else_ok (a : value) (b : result value) :
  (exists v, b = Ok v) -> exists v, or_else a b = Ok v.
Proof. intros [v ->]. unfold or_else. destruct (truthy a); now eexists. Qed.

Lemma title_builds (problem : value) :
  nullish problem = false -> exists t, title problem = Ok t.
Proof.
  intros H. unfold title, title_value. rewrite !(get_prop_ok _ _ H). cbn [bind].
  destruct (or_else_ok (prop_of problem "problem_name_te")
              (or_else (prop_of problem "problem_name_en") (Ok (JStr (str "Advisory")))))
    as [t Ht].
  - apply or_else_ok. now eexists.
  - rewrite Ht. now eexists.
Qed.

Lemma meta_builds (problem : value) :
  nullish problem = false -> exists m, meta problem = Ok m.
Proof.
  intros H. unfold meta, category_value, stage_value. rewrite !(get_prop_ok _ _ H).
  cbn [bind].
  destruct (or_else_ok (prop_of problem "category") (Ok (JStr (str "-")))) as [c Hc];
    [now eexists |].
  destruct (or_else_ok (prop_of problem "stage_te")
              (or_else (prop_of problem "stage_en") (Ok (JStr (str "-"))))) as [s Hs];
    [apply or_else_ok; now eexists |].
  rewrite Hc. cbn [bind]. rewrite Hs. now eexists.
Qed.

Lemma component_block_builds (c : value) :
  nullish c = false -> exists b, component_block c = Ok b.
Proof.
  intros H. unfold component_block, component_name_value. rewrite !(get_prop_ok _ _ H).
  cbn [bind].
  destruct (or_else_ok (prop_of c "component_type") (Ok (JStr (str "-")))) as [ty Hty];
    [now eexists |].
  destruct (or_else_ok (prop_of c "component_name_te")
              (or_else (prop_of c "component_name_en") (Ok (JStr (str "-"))))) as [n Hn];
    [apply or_else_ok; now eexists |].
  rewrite Hty. cbn [bind]. rewrite Hn. now eexists.
Qed.

Lemma component_block_throws (c : value) :
  nullish c = true -> exists e, component_block c = Throw e.
Proof.
  intros H. unfold component_block.
  destruct (get_prop_throws c "component_type" H) as [e ->]. now exists e.
Qed.

Lemma blocks_build (items : list value) :
  (exists blocks, map_result component_block items = Ok blocks)
  <-> existsb nullish items = false.
Proof.
  induction items as [| c items IH]; [split; [reflexivity | now eexists] |].
  cbn [map_result existsb]. destruct (nullish c) eqn:Ec.
  - destruct (component_block_throws c Ec) as [e ->]. cbn.
    split; [intros [b H]; discriminate H | discriminate].
  - destruct (component_block_builds c Ec) as [b ->]. cbn [bind orb].
    rewrite <- IH. split.
    + intros [bs H]. destruct (map_result component_block items); [now eexists | discriminate H].
    + intros [bs ->]. now eexists.
Qed.

(** The text of a value exists exactly when the value is convertible. *)
Lemma to_string_arr_cons (x : value) (rest : list value) :
  to_string (JArr (x :: rest)) =
    (first <- match x with
              | JUndefined | JNull => Ok []
              | _ => to_string x
              end ;;
     others <- to_string (JArr rest) ;;
     Ok (first ++ match rest with [] => [] | _ => 44%Z :: others end))%js.
Proof. reflexivity. Qed.

Lemma convertible_arr_cons (x : value) (rest : list value) :
  convertible (JArr (x :: rest)) = convertible x && convertible (JArr rest).
Proof. reflexivity. Qed.

Lemma to_string_builds (v : value) :
  (exists s, to_string v = Ok s) <-> convertible v = true.
Proof.
  induction v as [| | b | n | s | items IH | fields _] using jsval_deep_ind;
    try (split; [reflexivity | intros _; now eexists]).
  - induction IH as [| x rest Hx _ IHrest].
    + split; [reflexivity | intros _; now eexists].
    + rewrite to_string_arr_cons, convertible_arr_cons. split.
      * intros [s H]. apply bind_ok in H as [a [Ha H]].
        apply bind_ok in H as [b [Hb _]].
        apply andb_true_intro. split.
        -- apply Hx. destruct x; try (now eexists); now exists a.
        -- apply IHrest. now exists b.
      * intros H. apply andb_prop in H as [Hcx Hcr].
        apply Hx in Hcx as [a Ha]. apply IHrest in Hcr as [b Hb].
        rewrite Hb.
        destruct x; try rewrite Ha; now eexists.
  - cbn [to_string convertible]. destruct (has_own fields "toString").
    + split; [intros [s H]; discriminate H | discriminate].
    + split; [reflexivity | intros _; now eexists].
Qed.

Lemma to_primitive_builds (v : value) :
  (exists p, to_primitive v = Ok p) <-> convertible v = true.
Proof.
  rewrite <- to_string_builds.
  destruct v; try (split; intros _; now eexists);
    unfold to_primitive; split.
  - intros [p H]. apply bind_ok in H as [s [Hs _]]. now exists s.
  - intros [s ->]. now eexists.
  - intros [p H]. apply bind_ok in H as [s [Hs _]]. now exists s.
  - intros [s ->]. now eexists.
Qed.

Lemma date_text_builds (v : value) :
  (exists s, date_text v = Ok s) <-> convertible v = true.
Proof.
  rewrite <- to_string_builds. unfold date_text.
  destruct v; try (split; intros _; now eexists);
    unfold Date_new; split.
  - intros [p H]. apply bind_ok in H as [t [Ht _]].
    apply bind_ok in Ht as [s [Hs _]]. now exists s.
  - intros [s ->]. now eexists.
  - intros [p H]. apply bind_ok in H as [t [Ht _]].
    apply bind_ok in Ht as [s [Hs _]]. now exists s.
  - intros [s ->]. now eexists.
Qed.

Lemma footer_builds (receipt_id generated_at : value) :
  (exists fo, footer receipt_id generated_at = Ok fo)
  <-> convertible generated_at = true.
Proof.
  rewrite <- date_text_builds. unfold footer. split.
  - intros [fo H]. apply bind_ok in H as [s [Hs _]]. now exists s.
  - intros [s ->]. now eexists.
Qed.

Lemma treatment_builds (components : value) :
  (exists tr, treatment components = Ok tr) <-> mappable components = true.
Proof.
  unfold treatment, mappable.
  destruct components as [| | b | n | s | items | fields];
    cbn [truthy negb length_positive bind].
  - split; [reflexivity | now eexists].
  - split; [reflexivity | now eexists].
  - destruct b; split; try reflexivity; now eexists.
  - destruct (number_truthy n); split; try reflexivity; now eexists.
  - destruct s as [| c s].
    + split; [reflexivity | now eexists].
    + cbn. split; [intros [tr H]; discriminate H | discriminate].
  - destruct items as [| c items].
    + cbn. split; [reflexivity | now eexists].
    + cbn [List.length Nat.ltb Nat.leb negb].
      rewrite negb_true_iff, <- blocks_build. split.
      * intros [tr H]. destruct (map_result component_block (c :: items));
          [now eexists | discriminate H].
      * intros [bs ->]. now eexists.
  - unfold primitive.
    destruct (convertible (lookup fields (str "length"))) eqn:Ec.
    + apply to_primitive_builds in Ec as [p ->]. cbn [bind andb].
      destruct (greater_than_zero p); cbn.
      * split; [intros [tr H]; discriminate H | discriminate].
      * split; [reflexivity | now eexists].
    + destruct (to_primitive (lookup fields (str "length"))) as [p | e] eqn:Ep.
      * assert (Hc : convertible (lookup fields (str "length")) = true)
          by (apply to_primitive_builds; now exists p).
        congruence.
      * cbn. split; [intros [tr H]; discriminate H | discriminate].
Qed.

Lemma nullish_default (v : value) : nullish (with_default v (JObj [])) = is_null v.
Proof. destruct v; reflexivity. Qed.

Lemma receipt_view_builds (payload : value) :
  (exists v, receipt_view payload = Ok v) <-> builds payload = true.
Proof.
  assert (Hobj : forall fields,
             (exists v, receipt_view (JObj fields) = Ok v) <-> builds (JObj fields) = true).
  { intros fields. unfold receipt_view, container, builds. cbn [get_prop bind].
    set (problem := with_default (lookup fields (str "problem")) (JObj [])).
    set (advisory := with_default (lookup fields (str "advisory")) (JObj [])).
    set (components := with_default (lookup fields (str "components")) (JArr [])).
    rewrite <- (nullish_default (lookup fields (str "problem"))),
      <- (nullish_default (lookup fields (str "advisory"))).
    fold problem advisory.
    destruct (nullish problem) eqn:Ep.
    - unfold title, title_value.
      destruct (get_prop_throws problem "problem_name_te" Ep) as [e ->]. cbn.
      split; [intros [v H]; discriminate H | discriminate].
    - destruct (title_builds _ Ep) as [t ->]. destruct (meta_builds _ Ep) as [m ->].
      cbn [bind negb andb].
      destruct (nullish advisory) eqn:Ea.
      + unfold symptoms. destruct (get_prop_throws advisory "symptoms_te" Ea) as [e ->].
        cbn. split; [intros [v H]; discriminate H | discriminate].
      + unfold symptoms, advisory_notes. rewrite !(get_prop_ok _ _ Ea).
        cbn [bind negb andb].
        rewrite andb_true_iff, <- treatment_builds,
          <- (footer_builds (lookup fields (str "receipt_id"))).
        split.
        * intros [v H]. destruct (treatment components); [| discriminate H].
          cbn [bind] in H.
          destruct (footer _ _); [split; now eexists | discriminate H].
        * intros [[tr ->] [fo ->]]. now eexists. }
  destruct payload as [| | b | n | s | items | fields]; try exact (Hobj _).
  - split; [intros [v H]; discriminate H | discriminate].
  - split; [intros [v H]; discriminate H | discriminate].
  - split; [reflexivity | intros _; now eexists].
  - split; [reflexivity | intros _; now eexists].
  - split; [reflexivity | intros _; now eexists].
  - split; [reflexivity | intros _; now eexists].
Qed.

End BuildFacts.

Section BlankFacts.
Context {P : Platform}.
Local Open Scope string_scope.
Local Open Scope list_scope.

Lemma blank_receipt (v : value) :
  nullish v = false -> (forall fields, v <> JObj fields) ->
  (vn <- receipt_view v ;; commit vn)%js = Ok (receipt_screen blank_kids).
Proof.
  intros Hn Hobj. destruct v; try discriminate Hn; try reflexivity.
  now destruct (Hobj fields).
Qed.

(** X9.  A [data] parameter that decodes and parses to a truthy value
    that is no object (a number, [true], a string, an array): the page shows
    the receipt of an empty object, with the title "Advisory", dashes, no
    receipt number and "Invalid Date", and sends it to the printer. *)
Theorem non_object_payload_prints_blank (env : Env) (search raw : jsstring) (v : value) :
  Uri.get (Uri.URLSearchParams search) (str "data") = Some raw ->
  raw <> [] ->
  decode_steps raw = Ok v ->
  truthy v = true ->
  (forall fields, v <> JObj fields) ->
  page_screen (page_load env search) = Ok (receipt_screen blank_kids)
  /\ page_exports (page_load env search)
     = [generateAndPrint env (container_node blank_kids)].
Proof.
  intros Hget Hraw Hv Ht Hobj.
  assert (Hst : decode_effect search initial_state = {| payload := v; error := None |}).
  { unfold decode_effect. rewrite Hget. destruct raw as [| c raw]; [congruence |].
    rewrite decode_steps_eq, Hv. reflexivity. }
  assert (Hn : nullish v = false) by (destruct v; try discriminate Ht; reflexivity).
  unfold page_load. rewrite Hst. unfold AutoPrintReceipt. cbn [error payload].
  rewrite Ht. cbn [negb]. rewrite (blank_receipt v Hn Hobj).
  split; [reflexivity |].
  rewrite receipt_screen_ref. unfold export_effect, payload_changed. cbn [payload].
  rewrite Ht. destruct v; try discriminate Ht; reflexivity.
Qed.
End BlankFacts.

(** The JSON text [7]. *)
Lemma non_object_payload_prints_blank_witness :
  Uri.get (Uri.URLSearchParams (search_of (str "7"))) (str "data") = Some (str "Nw==")
  /\ @decode_steps india (str "Nw==") = Ok (JNum 7)
  /\ page_screen (@page_load india friendly_env (search_of (str "7")))
     = Ok (receipt_screen blank_kids)
  /\ page_exports (@page_load india friendly_env (search_of (str "7")))
     = [@generateAndPrint india friendly_env (container_node blank_kids)].
Proof.
  split; [vm_compute; reflexivity |]. split; [vm_compute; reflexivity |].
  apply (@non_object_payload_prints_blank india friendly_env (search_of (str "7"))
           (str "Nw==") (JNum 7)).
  - vm_compute. reflexivity.
  - discriminate.
  - vm_compute. reflexivity.
  - reflexivity.
  - discriminate.
Defined.

(** ** A render that throws *)

Section FaultFacts.
Context {P : Platform}.
Local Open Scope string_scope.
Local Open Scope list_scope.

Lemma bind_throws {A B} (r : result A) (k : A -> result B) (e : exn) :
  bind r k = Throw e -> r = Throw e \/ exists a, r = Ok a /\ k a = Throw e.
Proof.
  destruct r as [a | e']; cbn; intros H; [right; eauto | left].
  injection H as <-. reflexivity.
Qed.

Lemma get_prop_type_error (v : value) (name : string) (e : exn) :
  get_prop v name = Throw e -> is_type_error e.
Proof. destruct v; intros H; try discriminate H; injection H as <-; now eexists. Qed.

Lemma or_else_type_error (a : value) (b : result value) (e : exn) :
  (b = Throw e -> is_type_error e) -> or_else a b = Throw e -> is_type_error e.
Proof. unfold or_else. destruct (truthy a); [discriminate | auto]. Qed.

Ltac type_error :=
  repeat match goal with
         | H : bind _ _ = Throw _ |- _ =>
             let a := fresh "a" in
             apply bind_throws in H as [H | (a & _ & H)]
         | H : get_prop _ _ = Throw _ |- _ => exact (get_prop_type_error _ _ _ H)
         | H : or_else _ _ = Throw _ |- _ =>
             apply or_else_type_error in H; [exact H | clear H; intros H]
         | H : Ok _ = Throw _ |- _ => discriminate H
         end.

Lemma component_block_type_error (c : value) (e : exn) :
  component_block c = Throw e -> is_type_error e.
Proof. unfold component_block, component_name_value. intros H. type_error. Qed.

Lemma blocks_type_error (items : list value) (e : exn) :
  map_result component_block items = Throw e -> is_type_error e.
Proof.
  induction items as [| c items IH]; [discriminate |].
  cbn [map_result]. intros H.
  apply bind_throws in H as [H | (b & _ & H)];
    [exact (component_block_type_error _ _ H) |].
  apply bind_throws in H as [H | (bs & _ & H)]; [now apply IH | discriminate H].
Qed.

Lemma to_string_type_error (v : value) (e : exn) :
  to_string v = Throw e -> is_type_error e.
Proof.
  induction v as [| | b | n | s | items IH | fields _] using jsval_deep_ind;
    intros H; try discriminate H.
  - revert H. induction IH as [| x rest Hx _ IHrest]; intros H; [discriminate H |].
    change (to_string (JArr (x :: rest)))
      with (first <- match x with
                     | JUndefined | JNull => Ok []
                     | _ => to_string x
                     end ;;
            others <- to_string (JArr rest) ;;
            Ok (first ++ match rest with [] => [] | _ => 44%Z :: others end))%js in H.
    apply bind_throws in H as [H | (a & _ & H)].
    + apply Hx. destruct x; try discriminate H; exact H.
    + apply bind_throws in H as [H | (b & _ & H)]; [now apply IHrest | discriminate H].
  - cbn [to_string] in H. destruct (has_own fields "toString"); [| discriminate H].
    injection H as <-. now eexists.
Qed.

Lemma to_primitive_type_error (v : value) (e : exn) :
  to_primitive v = Throw e -> is_type_error e.
Proof.
  unfold to_primitive. destruct v; intros H; try discriminate H;
    apply bind_throws in H as [H | (s & _ & H)];
    try discriminate H; exact (to_string_type_error _ _ H).
Qed.

Lemma length_positive_type_error (components : value) (e : exn) :
  length_positive components = Throw e -> is_type_error e.
Proof.
  unfold length_positive. destruct components; intros H; try discriminate H.
  apply bind_throws in H as [H | (l & _ & H)];
    [exact (to_primitive_type_error _ _ H) | discriminate H].
Qed.

Lemma footer_type_error (receipt_id generated_at : value) (e : exn) :
  footer receipt_id generated_at = Throw e -> is_type_error e.
Proof.
  unfold footer, date_text. intros H.
  apply bind_throws in H as [H | (d & _ & H)]; [| discriminate H].
  apply bind_throws in H as [H | (t & _ & H)]; [| discriminate H].
  unfold Date_new in H. destruct generated_at; try discriminate H;
    apply bind_throws in H as [H | (s & _ & H)];
    try discriminate H; exact (to_string_type_error _ _ H).
Qed.

Lemma treatment_type_error (components : value) (e : exn) :
  treatment components = Throw e -> is_type_error e.
Proof.
  unfold treatment. destruct (negb (truthy components)); [discriminate |].
  intros H. apply bind_throws in H as [H | (positive & _ & H)];
    [exact (length_positive_type_error _ _ H) |].
  destruct (negb positive); [discriminate |].
  destruct components; try (injection H as <-; now eexists).
  apply bind_throws in H as [H | (b & _ & H)]; [exact (blocks_type_error _ _ H) | discriminate H].
Qed.

(** What the component throws while it builds a receipt is a TypeError. *)
Lemma receipt_view_type_error (payload : value) (e : exn) :
  receipt_view payload = Throw e -> is_type_error e.
Proof.
  unfold receipt_view, container, title, title_value, meta, category_value, stage_value,
    symptoms, advisory_notes.
  intros H. type_error.
  - exact (treatment_type_error _ _ H).
  - exact (footer_type_error _ _ _ H).
Qed.

End FaultFacts.

(** The JSON text [{"generated_at":{"toString":1}}]: nothing in it is
    shown as a child, and [new Date(generated_at)] throws in the footer. *)
Example unconvertible_date_faults :
  let payload : @value india :=
    JObj [(str "generated_at", JObj [(str "toString", JNum 1)])] in
  builds payload = false
  /\ flat_payload payload = true
  /\ receipt_view payload
     = Throw (TypeError (str "Cannot convert object to primitive value")).
Proof. vm_compute. repeat split; reflexivity. Qed.

(** An object in the place of [components] whose [length] is the array
    [[5]]: the comparison reads the length as "5", and [components.map] is
    no function. *)
Example array_length_is_compared :
  let payload : @value india :=
    JObj [(str "components", JObj [(str "length", JArr [JNum 5])])] in
  builds payload = false
  /\ receipt_view payload = Throw (TypeError (str "components.map is not a function")).
Proof. vm_compute. split; reflexivity. Qed.

Section SilentFacts.
Context {P : Platform}.
Local Open Scope string_scope.
Local Open Scope list_scope.

Lemma render_child_render_error (v : value) (e : exn) :
  render_child v = Throw e ->
  e = RenderError (str "Objects are not valid as a React child").
Proof.
  induction v as [| | b | n | s | items IH | fields _] using jsval_deep_ind;
    intros H; try discriminate H.
  - destruct s; discriminate H.
  - revert H. induction IH as [| x rest Hx _ IHrest]; intros H; [discriminate H |].
    change (render_child (JArr (x :: rest)))
      with (a <- render_child x ;; b <- render_child (JArr rest) ;; Ok (a ++ b))%js in H.
    apply bind_throws in H as [H | (a & _ & H)]; [now apply Hx |].
    apply bind_throws in H as [H | (b & _ & H)]; [now apply IHrest | discriminate H].
  - injection H as <-. reflexivity.
Qed.

(** What React throws at a tree is its refusal of an object. *)
Lemma commit_render_error (v : vnode number) (e : exn) :
  commit v = Throw e ->
  e = RenderError (str "Objects are not valid as a React child").
Proof.
  assert (Hkids : forall kids,
             Forall (fun v => commit v = Throw e ->
                              e = RenderError (str "Objects are not valid as a React child"))
               kids ->
             commit (VFrag kids) = Throw e ->
             e = RenderError (str "Objects are not valid as a React child")).
  { induction 1 as [| x rest Hx _ IH]; intros H; [discriminate H |].
    rewrite commit_frag_cons in H.
    apply bind_throws in H as [H | (a & _ & H)]; [now apply Hx |].
    apply bind_throws in H as [H | (b & _ & H)]; [now apply IH | discriminate H]. }
  induction v as [s | x | tag props css kids IH | kids IH] using vnode_forall_ind;
    intros H.
  - discriminate H.
  - exact (render_child_render_error _ _ H).
  - rewrite commit_el in H.
    apply bind_throws in H as [H | (ks & _ & H)]; [exact (Hkids _ IH H) | discriminate H].
  - exact (Hkids _ IH H).
Qed.

(** X11.  A render that throws is silent.  What it throws is a TypeError
    of the component or React's refusal of an object as a child; the page
    then has a truthy payload and no error, so neither the error view nor
    the waiting view is shown, and [generateAndPrint] never runs, so no alert
    is raised either. *)
Theorem render_fault_is_silent (env : Env) (search : jsstring) (e : exn) :
  page_screen (page_load env search) = Throw e ->
  (is_type_error e \/ exists detail, e = RenderError detail)
  /\ error (page_state (page_load env search)) = None
  /\ truthy (payload (page_state (page_load env search))) = true
  /\ page_exports (page_load env search) = [].
Proof.
  unfold page_load.
  destruct (decode_effect_cases search) as [(c & msg & ->) | [v ->]].
  - cbn. discriminate.
  - unfold AutoPrintReceipt. cbn [error payload].
    destruct (truthy v) eqn:Ev; cbn [negb].
    + destruct (v0 <- receipt_view v ;; commit v0)%js as [screen | e'] eqn:E;
        cbn [page_screen page_state page_exports error payload]; [discriminate |].
      intros H. injection H as ->.
      split; [| split; [reflexivity | split; [exact Ev | reflexivity]]].
      apply bind_throws in E as [E | (vn & _ & E)].
      * left. exact (receipt_view_type_error _ _ E).
      * right. eexists. exact (commit_render_error _ _ E).
    + cbn. discriminate.
Qed.
End SilentFacts.

(** The JSON text [{"problem":null}]. *)
Lemma render_fault_is_silent_witness :
  page_screen (@page_load india friendly_env (search_of null_problem_text))
  = Throw (TypeError (str "Cannot read properties of null (reading 'problem_name_te')"))
  /\ error (page_state (@page_load india friendly_env (search_of null_problem_text))) = None
  /\ page_exports (@page_load india friendly_env (search_of null_problem_text)) = [].
Proof.
  assert (H : page_screen (@page_load india friendly_env (search_of null_problem_text))
              = Throw (TypeError
                         (str "Cannot read properties of null (reading 'problem_name_te')")))
    by (vm_compute; reflexivity).
  split; [exact H |].
  destruct (@render_fault_is_silent india friendly_env (search_of null_problem_text) _ H)
    as (_ & He & _ & Hx).
  split; assumption.
Defined.

(** ** Numbers and booleans in the place of strings *)

Section FlatFacts.
Context {P : Platform}.
Local Open Scope string_scope.
Local Open Scope list_scope.

Lemma flat_prop (names : list string) (v : value) (n : string) :
  flat names v = true -> In n names -> renderable (prop_of v n) = true.
Proof. unfold flat. rewrite forallb_forall. intros H Hin. exact (H n Hin). Qed.

Lemma or_else_renderable (a : value) (b : result value) (v : value) :
  renderable a = true ->
  (forall w, b = Ok w -> renderable w = true) ->
  or_else a b = Ok v -> renderable v = true.
Proof.
  unfold or_else. intros Ha Hb H. destruct (truthy a); [| now apply Hb].
  injection H as <-. exact Ha.
Qed.

Lemma vsafe_guarded (label : string) (text : value) :
  renderable text = true ->
  vsafe (text_section label text) = true /\ vsafe (optional_line label text) = true.
Proof.
  intros H. unfold text_section, optional_line.
  destruct (truthy text); cbn; rewrite H; split; reflexivity.
Qed.

Lemma component_block_flat (c : value) (b : vnode number) :
  flat shown_of_component c = true -> component_block c = Ok b -> vsafe b = true.
Proof.
  intros Hf H.
  assert (Hn : nullish c = false).
  { destruct c; try reflexivity; discriminate H. }
  unfold component_block, component_name_value in H.
  rewrite !(get_prop_ok _ _ Hn) in H. cbn [bind] in H.
  pose proof (flat_prop _ _ "component_type" Hf ltac:(cbn; tauto)) as Hty.
  pose proof (flat_prop _ _ "component_name_te" Hf ltac:(cbn; tauto)) as Hte.
  pose proof (flat_prop _ _ "component_name_en" Hf ltac:(cbn; tauto)) as Hen.
  pose proof (flat_prop _ _ "dose_te" Hf ltac:(cbn; tauto)) as Hd.
  pose proof (flat_prop _ _ "application_method_te" Hf ltac:(cbn; tauto)) as Hm.
  pose proof (flat_prop _ _ "notes_te" Hf ltac:(cbn; tauto)) as Hno.
  apply bind_ok in H as [ty [Ety H]]. apply bind_ok in H as [name [Ename H]].
  injection H as <-.
  apply or_else_renderable in Ety; [| exact Hty | intros w [= <-]; reflexivity].
  apply or_else_renderable in Ename; [| exact Hte |].
  2:{ intros w Hw. apply or_else_renderable in Hw; [exact Hw | exact Hen |].
      intros w' [= <-]. reflexivity. }
  cbn [vsafe forallb labelled_line strong]. rewrite Ety, Ename.
  rewrite (proj2 (vsafe_guarded "Dose:" _ Hd)), (proj2 (vsafe_guarded "Method:" _ Hm)),
    (proj2 (vsafe_guarded "Note:" _ Hno)).
  reflexivity.
Qed.

Lemma blocks_flat (items : list value) (blocks : list (vnode number)) :
  forallb (flat shown_of_component) items = true ->
  map_result component_block items = Ok blocks -> forallb vsafe blocks = true.
Proof.
  revert blocks. induction items as [| c items IH]; intros blocks Hf H.
  - injection H as <-. reflexivity.
  - cbn [forallb] in Hf. apply andb_prop in Hf as [Hc Hrest].
    cbn [map_result] in H. apply bind_ok in H as [b [Eb H]].
    apply bind_ok in H as [bs [Ebs H]]. injection H as <-.
    cbn [forallb]. now rewrite (component_block_flat _ _ Hc Eb), (IH _ Hrest Ebs).
Qed.

Lemma treatment_flat (components : value) (tr : vnode number) :
  match components with
  | JArr items => forallb (flat shown_of_component) items = true
  | _ => True
  end ->
  treatment components = Ok tr -> vsafe tr = true.
Proof.
  unfold treatment. intros Hf H.
  destruct (truthy components) eqn:Et; cbn [negb] in H.
  - apply bind_ok in H as [positive [_ H]].
    destruct positive; cbn [negb] in H; [| injection H as <-; reflexivity].
    destruct components as [| | | | | items |]; try discriminate H.
    apply bind_ok in H as [blocks [Hb H]]. injection H as <-.
    cbn [vsafe forallb]. now rewrite (blocks_flat _ _ Hf Hb).
  - injection H as <-. destruct components; try discriminate Et; reflexivity.
Qed.

(** X12.  Numbers, booleans and null in the place of strings do not make
    React refuse the receipt: a payload the component builds from, in which
    the values it shows hold neither an array nor an object, is
    rendered. *)
Theorem flat_payload_renders (payload : value) :
  builds payload = true ->
  flat_payload payload = true ->
  exists kids, (v <- receipt_view payload ;; commit v)%js = Ok (receipt_screen kids).
Proof.
  intros Hb Hf.
  assert (Hn : nullish payload = false) by (destruct payload; try reflexivity; discriminate Hb).
  apply receipt_view_builds in Hb as [v Hv].
  destruct (receipt_view_shape _ _ Hv)
    as (problem & advisory & components & rid & gat & t & c & s & sy & no & tr & fo
        & H1 & H2 & H3 & H4 & _ & Ht & Hc & Hs & Hsy & Hno & Htr & Hfo & ->).
  destruct (footer_shape _ _ _ Hfo) as (date & _ & ->).
  rewrite (get_prop_ok _ _ Hn) in H1. rewrite (get_prop_ok _ _ Hn) in H2.
  rewrite (get_prop_ok _ _ Hn) in H3. rewrite (get_prop_ok _ _ Hn) in H4.
  injection H1 as <-. injection H2 as <-. injection H3 as <-. injection H4 as <-.
  unfold flat_payload in Hf.
  apply andb_prop in Hf as [Hf Hrid]. apply andb_prop in Hf as [Hf Hcomp].
  apply andb_prop in Hf as [Hprob Hadv].
  set (problem := with_default (prop_of payload "problem") (JObj [])) in *.
  set (advisory := with_default (prop_of payload "advisory") (JObj [])) in *.
  assert (Hpn : nullish problem = false).
  { destruct problem; try reflexivity; discriminate Ht. }
  assert (Han : nullish advisory = false).
  { destruct advisory; try reflexivity; discriminate Hsy. }
  unfold title_value in Ht. unfold category_value in Hc. unfold stage_value in Hs.
  rewrite !(get_prop_ok _ _ Hpn) in Ht. rewrite !(get_prop_ok _ _ Hpn) in Hc.
  rewrite !(get_prop_ok _ _ Hpn) in Hs.
  rewrite (get_prop_ok _ _ Han) in Hsy. rewrite (get_prop_ok _ _ Han) in Hno.
  cbn [bind] in Ht, Hc, Hs. injection Hsy as <-. injection Hno as <-.
  apply or_else_renderable in Ht;
    [| exact (flat_prop _ _ "problem_name_te" Hprob ltac:(cbn; tauto)) |].
  2:{ intros w Hw. apply or_else_renderable in Hw;
        [exact Hw | exact (flat_prop _ _ "problem_name_en" Hprob ltac:(cbn; tauto)) |].
      intros w' [= <-]. reflexivity. }
  apply or_else_renderable in Hc;
    [| exact (flat_prop _ _ "category" Hprob ltac:(cbn; tauto))
     | intros w [= <-]; reflexivity].
  apply or_else_renderable in Hs;
    [| exact (flat_prop _ _ "stage_te" Hprob ltac:(cbn; tauto)) |].
  2:{ intros w Hw. apply or_else_renderable in Hw;
        [exact Hw | exact (flat_prop _ _ "stage_en" Hprob ltac:(cbn; tauto)) |].
      intros w' [= <-]. reflexivity. }
  assert (Htrs : vsafe tr = true).
  { apply (treatment_flat (with_default (prop_of payload "components") (JArr [])));
      [| exact Htr].
    destruct (with_default (prop_of payload "components") (JArr [])); try exact I.
    exact Hcomp. }
  assert (Hsafe : vsafe (VEl "div" [] [("padding", "12")]
                           [ VEl "div" [("ref", "containerRef")] container_style
                               [ header;
                                 VEl "div" [] title_style [VExpr t];
                                 VEl "div" [] [("marginTop", "6"); ("fontSize", "9")]
                                   [labelled_line "Category:" [] c;
                                    labelled_line "Stage:" [] s];
                                 text_section "Symptoms" (prop_of advisory "symptoms_te");
                                 text_section "Advisory" (prop_of advisory "notes_te");
                                 tr;
                                 VEl "div" [] footer_style
                                   [ VEl "div" [] []
                                       [ VText (str "Receipt ID: ");
                                         VExpr (prop_of payload "receipt_id") ];
                                     VEl "div" [] []
                                       [VText (str "Date: "); VExpr (JStr date)];
                                     VEl "div" [] []
                                       [VText (str "Thank you for using CropSync")] ] ];
                             popup_note ]) = true).
  { cbn [vsafe forallb header labelled_line strong popup_note renderable].
    rewrite Ht, Hc, Hs, Htrs, Hrid.
    rewrite (proj1 (vsafe_guarded "Symptoms" _
                      (flat_prop _ _ "symptoms_te" Hadv ltac:(cbn; tauto)))),
      (proj1 (vsafe_guarded "Advisory" _
                (flat_prop _ _ "notes_te" Hadv ltac:(cbn; tauto)))).
    reflexivity. }
  destruct (commit_total _ Hsafe) as [screen Hscreen].
  assert (H : (v <- receipt_view payload ;; commit v)%js = Ok screen)
    by (rewrite Hv; exact Hscreen).
  destruct (receipt_view_commit _ _ H)
    as (? & ? & ? & ? & ? & ? & ? & ? & ? & ? & ? & ? & kids & Hk).
  decompose [and] Hk. subst screen. now exists kids.
Qed.
End FlatFacts.

Lemma flat_payload_renders_witness :
  @builds india numeric_payload = true
  /\ @flat_payload india numeric_payload = true
  /\ exists kids,
       (v <- @receipt_view india numeric_payload ;; commit v)%js = Ok (receipt_screen kids).
Proof.
  split; [reflexivity |]. split; [reflexivity |].
  apply (@flat_payload_renders india numeric_payload); reflexivity.
Defined.

(** ** Guards and boxes *)

Section GuardFacts.
Context {P : Platform}.
Local Open Scope string_scope.
Local Open Scope list_scope.

(** The nodes of a child are among the nodes of the children. *)
Lemma commit_frag_in (l : list (vnode number)) (x : vnode number) (kids nx : list node) :
  commit (VFrag l) = Ok kids -> In x l -> commit x = Ok nx -> incl nx kids.
Proof.
  revert kids. induction l as [| y l IH]; intros kids H Hin Hx; [contradiction |].
  rewrite commit_frag_cons in H.
  apply bind_ok in H as [a [Ha H]]. apply bind_ok in H as [b [Hb H]]. injection H as <-.
  destruct Hin as [-> | Hin].
  - rewrite Hx in Ha. injection Ha as <-. now apply incl_appl.
  - apply incl_appr. now apply (IH b).
Qed.

(** X13.  The guard [advisory.symptoms_te && ...] (and the one of
    [notes_te]) lets a falsy number through: when the member is such a
    number (0), its text stands in the receipt, as a child of the container,
    in the place of the section. *)
Theorem falsy_number_is_printed (payload advisory : value) (field : string)
  (n : number) (screen : list node) :
  get_prop payload "advisory" = Ok advisory ->
  field = "symptoms_te" \/ field = "notes_te" ->
  get_prop advisory field = Ok (JNum n) ->
  number_truthy n = false ->
  (v <- receipt_view payload ;; commit v)%js = Ok screen ->
  In (Txt (Number_toString n)) (container_children screen).
Proof.
  intros Hadv Hfield Hn Hfalsy H.
  destruct (receipt_view_commit _ _ H)
    as (problem & advisory' & components & rid & gat & t & c & s & sy & no & tr & fo & kids
        & _ & H2 & _ & _ & _ & _ & _ & _ & Hsy & Hno & _ & _ & Hkids & ->).
  rewrite Hadv in H2. injection H2 as <-.
  assert (Hd : with_default advisory (JObj []) = advisory).
  { destruct advisory; try reflexivity. destruct Hfield as [-> | ->]; discriminate Hn. }
  rewrite Hd in Hsy, Hno.
  change (container_children (receipt_screen kids)) with kids.
  assert (Hshown : commit (text_section (if String.eqb field "symptoms_te"
                                         then "Symptoms" else "Advisory") (JNum n))
                   = Ok [Txt (Number_toString n)]).
  { unfold text_section. cbn [truthy]. rewrite Hfalsy. reflexivity. }
  assert (Hin : In (text_section (if String.eqb field "symptoms_te"
                                  then "Symptoms" else "Advisory") (JNum n))
                  [ header;
                    VEl "div" [] title_style [VExpr t];
                    VEl "div" [] [("marginTop", "6"); ("fontSize", "9")]
                      [labelled_line "Category:" [] c; labelled_line "Stage:" [] s];
                    text_section "Symptoms" sy;
                    text_section "Advisory" no;
                    tr;
                    fo ]).
  { destruct Hfield as [-> | ->].
    - rewrite Hn in Hsy. injection Hsy as <-. cbn. tauto.
    - rewrite Hn in Hno. injection Hno as <-. cbn. tauto. }
  apply (commit_frag_in _ _ _ _ Hkids Hin Hshown). now left.
Qed.
End GuardFacts.

Lemma falsy_number_is_printed_witness :
  @get_prop india zero_symptoms_payload "advisory"
  = Ok (JObj [(str "symptoms_te", JNum 0)])
  /\ @number_truthy india 0 = false
  /\ (v <- @receipt_view india zero_symptoms_payload ;; commit v)%js
     = Ok zero_symptoms_screen
  /\ In (Txt (str "0")) (container_children zero_symptoms_screen).
Proof.
  split; [reflexivity |]. split; [reflexivity |]. split; [vm_compute; reflexivity |].
  apply (@falsy_number_is_printed india zero_symptoms_payload
           (JObj [(str "symptoms_te", JNum 0)]) "symptoms_te" 0 zero_symptoms_screen).
  - reflexivity.
  - left. reflexivity.
  - reflexivity.
  - reflexivity.
  - vm_compute. reflexivity.
Defined.

Section BoxFacts.
Context {P : Platform}.
Local Open Scope string_scope.
Local Open Scope list_scope.

Lemma count_blocks_app (a b : list node) :
  count_blocks (a ++ b) = (count_blocks a + count_blocks b)%nat.
Proof. unfold count_blocks. now rewrite flat_map_app, filter_app, length_app. Qed.

Lemma count_headings_app (a b : list node) :
  count_treatment_headings (a ++ b)
  = (count_treatment_headings a + count_treatment_headings b)%nat.
Proof. unfold count_treatment_headings. now rewrite flat_map_app, filter_app, length_app. Qed.

Lemma clean_counts (l : list node) :
  forallb no_treatment_section l = true ->
  count_blocks l = 0%nat /\ count_treatment_headings l = 0%nat.
Proof.
  intros H.
  assert (Hall : Forall (fun n => not_treatment n = true) (flat_map elements l)).
  { induction l as [| x l IH]; [constructor |].
    cbn [forallb] in H. apply andb_prop in H as [Hx Hl].
    cbn [flat_map]. apply Forall_app. split; [| now apply IH].
    apply Forall_forall. unfold no_treatment_section in Hx.
    rewrite forallb_forall in Hx. exact Hx. }
  unfold count_blocks, count_treatment_headings.
  induction Hall as [| n ns Hn _ [IH1 IH2]]; [split; reflexivity |].
  unfold not_treatment in Hn. apply andb_prop in Hn as [Hh Hb].
  apply negb_true_iff in Hh, Hb. cbn [filter]. rewrite Hh, Hb. now split.
Qed.

Lemma count_el (tag : string) (props : list (string * string)) (css : style)
  (ks : list node) :
  count_blocks [El tag props css ks]
  = ((if style_eqb css block_style then 1 else 0) + count_blocks ks)%nat
  /\ count_treatment_headings [El tag props css ks]
     = ((if is_treatment_heading (El tag props css ks) then 1 else 0)
        + count_treatment_headings ks)%nat.
Proof.
  unfold count_blocks, count_treatment_headings.
  cbn [flat_map elements]. rewrite app_nil_r. cbn [filter is_component_block].
  split.
  - destruct (style_eqb css block_style); reflexivity.
  - destruct (is_treatment_heading (El tag props css ks)); reflexivity.
Qed.

Lemma no_heading_style (tag : string) (props : list (string * string)) (css : style)
  (ks : list node) :
  style_eqb css heading_style = false -> is_treatment_heading (El tag props css ks) = false.
Proof. intros H. destruct ks as [| [s |] [|]]; try reflexivity. cbn. now rewrite H. Qed.

(** The box of one component, as JSX. *)
Lemma component_block_shape (c : value) (b : vnode number) :
  component_block c = Ok b ->
  exists kids, b = VEl "div" [] block_style kids /\ forallb vclean kids = true.
Proof.
  unfold component_block. intros H. invert_binds.
  eexists. split; [reflexivity |].
  cbn [forallb vclean labelled_line strong]. unfold optional_line, labelled_line, strong.
  repeat match goal with |- context [truthy ?v] => destruct (truthy v) end; reflexivity.
Qed.

Lemma blocks_counts (items : list value) :
  forall blocks ks,
    map_result component_block items = Ok blocks ->
    commit (VFrag blocks) = Ok ks ->
    count_blocks ks = List.length items /\ count_treatment_headings ks = 0%nat.
Proof.
  induction items as [| c items IH]; intros blocks ks Hb Hks.
  - injection Hb as <-. injection Hks as <-. split; reflexivity.
  - cbn [map_result] in Hb. apply bind_ok in Hb as [b [Eb Hb]].
    apply bind_ok in Hb as [bs [Ebs Hb]]. injection Hb as <-.
    rewrite commit_frag_cons in Hks. apply bind_ok in Hks as [nb [Enb Hks]].
    apply bind_ok in Hks as [nbs [Enbs Hks]]. injection Hks as <-.
    destruct (component_block_shape _ _ Eb) as [kv [-> Hkv]].
    rewrite commit_el in Enb. apply bind_ok in Enb as [kk [Ekk Enb]]. injection Enb as <-.
    destruct (clean_counts kk (commit_clean (VFrag kv) kk Hkv Ekk)) as [Hc1 Hc2].
    destruct (IH _ _ Ebs Enbs) as [IH1 IH2].
    rewrite count_blocks_app, count_headings_app, IH1, IH2.
    destruct (count_el "div" [] block_style kk) as [-> ->].
    rewrite no_heading_style by reflexivity.
    rewrite Hc1, Hc2. split; reflexivity.
Qed.

Lemma treatment_counts (items : list value) (tr : vnode number) (ks : list node) :
  treatment (JArr items) = Ok tr ->
  commit tr = Ok ks ->
  count_blocks ks = List.length items
  /\ count_treatment_headings ks = match items with [] => 0%nat | _ => 1%nat end.
Proof.
  destruct items as [| c items]; intros Htr Hks.
  - injection Htr as <-. injection Hks as <-. split; reflexivity.
  - unfold treatment in Htr.
    cbn [truthy negb length_positive List.length Nat.ltb Nat.leb bind] in Htr.
    apply bind_ok in Htr as [blocks [Hb Htr]]. injection Htr as <-.
    rewrite commit_frag_cons in Hks. apply bind_ok in Hks as [h [Hh Hks]].
    change (commit (VEl "div" [] heading_style [VText (str "Treatment")]))
      with (@Ok (list node) [El "div" [] heading_style [Txt (str "Treatment")]]) in Hh.
    injection Hh as <-.
    apply bind_ok in Hks as [rest [Hrest Hks]]. injection Hks as <-.
    rewrite commit_frag_cons in Hrest. apply bind_ok in Hrest as [d [Hd Hrest]].
    change (commit (VFrag [])) with (@Ok (list node) []) in Hrest. cbn [bind] in Hrest.
    injection Hrest as <-.
    rewrite commit_el, commit_frag_cons in Hd. apply bind_ok in Hd as [kk [Hkk Hd]].
    injection Hd as <-.
    apply bind_ok in Hkk as [bk [Hbk Hkk]].
    change (commit (VFrag [])) with (@Ok (list node) []) in Hkk. cbn [bind] in Hkk.
    injection Hkk as <-. rewrite !app_nil_r.
    destruct (blocks_counts _ _ _ Hb Hbk) as [H1 H2].
    change [El "div" [] heading_style [Txt (str "Treatment")];
            El "div" [] [("marginTop", "4")] bk]
      with ([El "div" [] heading_style [Txt (str "Treatment")]]
            ++ [El "div" [] [("marginTop", "4")] bk]).
    rewrite count_blocks_app, count_headings_app.
    destruct (count_el "div" [] [("marginTop", "4")] bk) as [-> ->].
    rewrite no_heading_style by reflexivity.
    rewrite H1, H2. split; reflexivity.
Qed.

Lemma clean_part (v : vnode number) (l : list node) :
  vclean v = true -> commit v = Ok l ->
  count_blocks l = 0%nat /\ count_treatment_headings l = 0%nat.
Proof. intros Hc H. apply clean_counts. exact (commit_clean v l Hc H). Qed.

(** X14.  When [components] is an array and the receipt renders, the
    document holds one box for each item of the array, and the heading
    "Treatment" once if the array has an item and not at all if it is
    empty. *)
Theorem one_box_per_component (payload : value) (items : list value)
  (screen : list node) :
  get_prop payload "components" = Ok (JArr items) ->
  (v <- receipt_view payload ;; commit v)%js = Ok screen ->
  count_blocks screen = List.length items
  /\ count_treatment_headings screen = match items with [] => 0%nat | _ => 1%nat end.
Proof.
  intros Hcomp H.
  destruct (receipt_view_commit _ _ H)
    as (problem & advisory & components & rid & gat & t & c & s & sy & no & tr & fo & kids
        & _ & _ & H3 & _ & _ & _ & _ & _ & _ & _ & Htr & Hfo & Hkids & ->).
  rewrite Hcomp in H3. injection H3 as <-. cbn [with_default] in Htr.
  destruct (footer_shape _ _ _ Hfo) as (date & _ & ->).
  set (fo := VEl "div" [] footer_style _) in *.
  change [ header; VEl "div" [] title_style [VExpr t];
           VEl "div" [] [("marginTop", "6"); ("fontSize", "9")]
             [labelled_line "Category:" [] c; labelled_line "Stage:" [] s];
           text_section "Symptoms" sy; text_section "Advisory" no; tr; fo ]
    with ([ header; VEl "div" [] title_style [VExpr t];
            VEl "div" [] [("marginTop", "6"); ("fontSize", "9")]
              [labelled_line "Category:" [] c; labelled_line "Stage:" [] s];
            text_section "Symptoms" sy; text_section "Advisory" no ]
          ++ [tr; fo]) in Hkids.
  rewrite commit_frag_app in Hkids. apply bind_ok in Hkids as [before [Hbefore Hkids]].
  apply bind_ok in Hkids as [after [Hafter Hkids]]. injection Hkids as <-.
  rewrite commit_frag_cons in Hafter. apply bind_ok in Hafter as [ntr [Hntr Hafter]].
  apply bind_ok in Hafter as [nf [Hnf Hafter]]. injection Hafter as <-.
  assert (Hclean : vclean (VFrag [ header; VEl "div" [] title_style [VExpr t];
                                   VEl "div" [] [("marginTop", "6"); ("fontSize", "9")]
                                     [labelled_line "Category:" [] c;
                                      labelled_line "Stage:" [] s];
                                   text_section "Symptoms" sy;
                                   text_section "Advisory" no ]) = true).
  { cbn [vclean forallb]. rewrite !vclean_text_section by discriminate. reflexivity. }
  destruct (clean_part _ _ Hclean Hbefore) as [Hb1 Hb2].
  destruct (clean_part (VFrag [fo]) _ ltac:(reflexivity) Hnf) as [Hf1 Hf2].
  destruct (treatment_counts _ _ _ Htr Hntr) as [Ht1 Ht2].
  assert (Hscreen : forall ks,
             count_blocks (receipt_screen ks) = count_blocks ks
             /\ count_treatment_headings (receipt_screen ks) = count_treatment_headings ks).
  { intros ks. unfold receipt_screen.
    destruct (count_el "div" [] [("padding", "12")] [container_node ks; note_node])
      as [-> ->].
    change [container_node ks; note_node] with ([container_node ks] ++ [note_node]).
    rewrite count_blocks_app, count_headings_app. unfold container_node.
    destruct (count_el "div" [("ref", "containerRef")] container_style ks) as [-> ->].
    rewrite (no_heading_style _ _ container_style) by reflexivity.
    cbn. split; lia. }
  destruct (Hscreen (before ++ ntr ++ nf)) as [-> ->].
  rewrite !count_blocks_app, !count_headings_app, Hb1, Hb2, Hf1, Hf2, Ht1, Ht2.
  split; lia.
Qed.
End BoxFacts.

Lemma one_box_per_component_witness :
  @get_prop india two_components_payload "components" = Ok (JArr two_components)
  /\ (v <- @receipt_view india two_components_payload ;; commit v)%js
     = Ok two_components_screen
  /\ count_blocks two_components_screen = 2%nat
  /\ count_treatment_headings two_components_screen = 1%nat.
Proof.
  split; [reflexivity |]. split; [vm_compute; reflexivity |].
  apply (@one_box_per_component india two_components_payload two_components
           two_components_screen).
  - reflexivity.
  - vm_compute. reflexivity.
Defined.

(** ** The text of the receipt of a payload of the expected shape *)

Section TextFacts.
Context {P : Platform}.
Local Open Scope string_scope.
Local Open Scope list_scope.

End TextFacts.


(** ** The outcomes of the export *)

Section OutcomeFacts.
Context {P : Platform}.
Variable env : Env.
Local Open Scope string_scope.

Ltac no_such_action H :=
  cbn in H; repeat (destruct H as [H | H]; [discriminate H |]); contradiction.

(** X16.  Whatever the browser answers, the only window a run of
    [generateAndPrint] calls [print] on, in any of its handlers, is the one
    it has opened on the document: never another window, and none when the
    rasteriser rejects or when that popup is blocked.  And the page closes
    itself exactly in the handler of that window, when focus and print have
    not thrown there. *)
Theorem printing_requires_popup (target : node) :
  (forall w, In (Print w) (all_actions (generateAndPrint env target)) ->
             (exists img, html2canvas env target = Ok img) /\ open_document env = Some w)
  /\ (In (Close Self) (all_actions (generateAndPrint env target))
      <-> exists img w,
            html2canvas env target = Ok img
            /\ open_document env = Some w
            /\ print_throws env w = false).
Proof.
  unfold generateAndPrint, focus_print, after_blob, all_actions.
  destruct (html2canvas env target) as [img | e] eqn:Eh.
  - destruct (open_document env) as [w |] eqn:Ed.
    + split.
      * intros w' H. split; [now exists img |].
        destruct (print_throws env w); cbn in H;
          repeat (destruct H as [H | H]; [try discriminate H |]); try contradiction;
          injection H as <-; reflexivity.
      * destruct (print_throws env w) eqn:Ep; split.
        -- intros H. no_such_action H.
        -- intros (img' & w' & _ & Hw & Hp). injection Hw as <-. congruence.
        -- intros _. now exists img, w.
        -- intros _. cbn. tauto.
    + split; [| split].
      * intros w H. destruct (open_blank env); no_such_action H.
      * intros H. destruct (open_blank env); no_such_action H.
      * intros (img' & w' & _ & Hw & _). discriminate Hw.
  - split; [| split].
    + intros w H. no_such_action H.
    + intros H. no_such_action H.
    + intros (img' & w' & Hi & _). discriminate Hi.
Qed.

(** X17.  The only alerts of a run: "Print failed: " and the message of
    the exception, when the rasteriser rejects; and the request to allow
    popups, when both popups are blocked.  A print dialog that throws and a
    fallback that stalls show no alert. *)
Theorem alerts_of_a_run (target : node) (msg : jsstring) :
  In (Alert msg) (all_actions (generateAndPrint env target))
  <-> (exists e, html2canvas env target = Throw e
                 /\ msg = (str "Print failed: " ++ message e)%list)
      \/ (exists img, html2canvas env target = Ok img
                      /\ open_document env = None /\ open_blank env = None
                      /\ msg = str "Popup blocked and fallback failed. Please allow popups.").
Proof.
  unfold generateAndPrint, focus_print, after_blob, all_actions.
  destruct (html2canvas env target) as [img | e] eqn:Eh.
  - destruct (open_document env) as [w |] eqn:Ed.
    + split.
      * intros H. destruct (print_throws env w); no_such_action H.
      * intros [(e & He & _) | (img' & _ & Hd & _)]; discriminate.
    + destruct (open_blank env) as [fb |] eqn:Eb; split.
      * intros H. no_such_action H.
      * intros [(e & He & _) | (img' & _ & _ & Hb & _)]; discriminate.
      * intros H. cbn in H.
        repeat (destruct H as [H | H]; [try discriminate H |]); [| contradiction].
        injection H as <-. right. now exists img.
      * intros [(e & He & _) | (img' & _ & _ & _ & ->)]; [discriminate |].
        cbn. tauto.
  - split.
    + intros H. cbn in H.
      repeat (destruct H as [H | H]; [try discriminate H |]); [| contradiction].
      injection H as <-. left. now exists e.
    + intros [(e' & He & ->) | (img' & Hi & _)]; [| discriminate].
      injection He as <-. cbn. tauto.
Qed.
End OutcomeFacts.
